(** * go-authkit: token lifecycle and credential verification

    A shallow embedding of the AuthKit core of package authkit (its types
    and directory operations in types.go, its hashing in password.go, its
    token operations in the second part of
    examples/04-simple-http/simple_http.go) together with the parts of its
    three dependencies that the code relies on:

    - [utf8], [strings], [float64] : the validity of UTF-8, the folding
                 of letter case and the rounding of binary64, as far as
                 encoding/json and the time package depend on them;
    - [time]   : instants and durations as integers of nanoseconds;
    - [bcrypt] : golang.org/x/crypto/bcrypt, its cost handling written out,
                 the Blowfish key derivation left abstract;
    - [jwt]    : github.com/golang-jwt/jwt/v5, parsing and validation
                 written out, the HMAC taken as an ideal MAC.

    The clock ([time.Now]) and the random source ([uuid.New], the bcrypt
    salt) are threaded through every operation as an explicit [World]. *)

Set Warnings "-register-all".
From Stdlib Require Import ZArith Lia Ascii String SpecFloat.
From stdpp Require Import base gmap strings list fin_maps pretty.

Open Scope Z_scope.

(** ** Strings and floats *)

Module utf8.

(** The decoder of unicode/utf8 as an automaton over bytes: at the start
    of a character, or inside one with [more] bytes to come after the next,
    which has to lie between [lo] and [hi].  The ranges are those of the
    package's table: no overlong form, no surrogate, nothing above
    U+10FFFF. *)
Inductive state : Type :=
| Start
| Cont (more : nat) (lo hi : N).

Definition first (b : N) : option state :=
  if (b <=? 127)%N then Some Start
  else if (194 <=? b)%N && (b <=? 223)%N then Some (Cont 0 128 191)
  else if (b =? 224)%N then Some (Cont 1 160 191)
  else if (225 <=? b)%N && (b <=? 236)%N then Some (Cont 1 128 191)
  else if (b =? 237)%N then Some (Cont 1 128 159)
  else if (238 <=? b)%N && (b <=? 239)%N then Some (Cont 1 128 191)
  else if (b =? 240)%N then Some (Cont 2 144 191)
  else if (241 <=? b)%N && (b <=? 243)%N then Some (Cont 2 128 191)
  else if (b =? 244)%N then Some (Cont 2 128 143)
  else None.

Fixpoint valid_from (st : state) (s : string) : bool :=
  match s with
  | EmptyString => match st with Start => true | Cont _ _ _ => false end
  | String c s' =>
      let b := N_of_ascii c in
      match st with
      | Start =>
          match first b with
          | Some st' => valid_from st' s'
          | None => false
          end
      | Cont more lo hi =>
          if (lo <=? b)%N && (b <=? hi)%N
          then valid_from (match more with
                           | O => Start
                           | S more' => Cont more' 128 191
                           end) s'
          else false
      end
  end.

(** [utf8.ValidString(s)]. *)
Definition ValidString (s : string) : bool := valid_from Start s.

End utf8.

Module float64.

(** IEEE 754 binary64, by the Standard Library's specification of
    floating-point arithmetic: rounding is to nearest, ties to even. *)
Definition prec : Z := 53.
Definition emax : Z := 1024.

(** [float64(z)] for an integer [z], and the float that
    [strconv.ParseFloat] reads from the literal of [z]. *)
Definition of_Z (z : Z) : spec_float := binary_normalize prec emax z 0 false.

Definition add : spec_float -> spec_float -> spec_float := SFadd prec emax.
Definition div : spec_float -> spec_float -> spec_float := SFdiv prec emax.

(** [int64(f)]: the fraction is cut off, towards zero. *)
Definition to_Z (f : spec_float) : Z :=
  match f with
  | S754_finite s m e =>
      if s then - Z.shiftl (Zpos m) e else Z.shiftl (Zpos m) e
  | _ => 0
  end.

(** A literal beyond the largest float reads as an infinity, which
    [strconv.ParseFloat] reports as an error. *)
Definition finite (z : Z) : bool :=
  match of_Z z with
  | S754_zero _ | S754_finite _ _ _ => true
  | _ => false
  end.

(** The integer [z] after a passage through float64. *)
Definition round (z : Z) : Z := to_Z (of_Z z).

End float64.

(** ** Go values *)

(** The dynamic values an [interface{}] holds in this program. [[]string]
    and [[]interface{}] are different dynamic types, also when they hold
    the same strings.  A nil slice and an empty one are identified, and so
    are a nil map and an empty one; numbers are integers, of type [int] or
    [int64], or of type [float64] with an integral value. *)
Inductive Any : Type :=
| VNil
| VBool (b : bool)
| VInt (z : Z)
| VString (s : string)
| VStrings (l : list string)
| VSlice (l : list Any)
| VMap (m : gmap string Any).

(** JSON documents, as encoding/json writes and reads them. *)
Inductive JSON : Type :=
| JNull
| JBool (b : bool)
| JNum (z : Z)
| JStr (s : string)
| JArr (l : list JSON)
| JObj (m : gmap string JSON).

(** json.Marshal of an [interface{}].  A string is written as it is: this
    is what encoding/json does with valid UTF-8, while it replaces every
    byte that is not part of a valid character by U+FFFD.  The properties
    below that send a caller's string through JSON are stated for valid
    strings ([utf8.ValidString], [encodable]). *)
Fixpoint marshal (v : Any) : JSON :=
  match v with
  | VNil => JNull
  | VBool b => JBool b
  | VInt z => JNum z
  | VString s => JStr s
  | VStrings l => JArr (JStr <$> l)
  | VSlice l => JArr (marshal <$> l)
  | VMap m => JObj (marshal <$> m)
  end.

(** json.Unmarshal into an [interface{}]: arrays come back as
    [[]interface{}], never as [[]string], and numbers as [float64]: an
    integer comes back as the nearest float.  A number beyond the range of
    float64 is an error, see [decodable]. *)
Fixpoint unmarshal (j : JSON) : Any :=
  match j with
  | JNull => VNil
  | JBool b => VBool b
  | JNum z => VInt (float64.round z)
  | JStr s => VString s
  | JArr l => VSlice (unmarshal <$> l)
  | JObj m => VMap (unmarshal <$> m)
  end.

(** Every member name is valid UTF-8 and every member holds [true]. *)
Definition all_valid (m : gmap string bool) : bool :=
  bool_decide
    (map_Forall (fun k (b : bool) => utf8.ValidString k = true /\ b = true)
       m).

(** A JSON value that json.Unmarshal reads as [unmarshal] says: its
    strings and member names are valid UTF-8, as those of every parsed
    document are, and its numbers are in the range of float64. *)
Fixpoint decodable (j : JSON) : bool :=
  match j with
  | JNum z => float64.finite z
  | JStr s => utf8.ValidString s
  | JArr l => forallb decodable l
  | JObj m => all_valid (decodable <$> m)
  | _ => true
  end.

(** A Go value that json.Marshal writes as [marshal] says: its strings
    and map keys are valid UTF-8. *)
Fixpoint encodable (v : Any) : bool :=
  match v with
  | VString s => utf8.ValidString s
  | VStrings l => forallb utf8.ValidString l
  | VSlice l => forallb encodable l
  | VMap m => all_valid (encodable <$> m)
  | _ => true
  end.

(** Go's [(T, error)] pair. *)
Inductive result (E A : Type) : Type :=
| Ok (a : A)
| Err (e : E).
Arguments Ok {E A} a.
Arguments Err {E A} e.

(** ** The world: clock and random source *)

(** Successive calls of [time.Now] read successive values of [clock];
    successive random draws read successive values of [entropy]. *)
Record World : Type := mkWorld {
  clock : nat -> Z;
  reads : nat;
  entropy : nat -> string;
  draws : nat
}.

Definition IO (A : Type) : Type := World -> A * World.

Definition ret {A} (a : A) : IO A := fun w => (a, w).

Definition bind {A B} (m : IO A) (k : A -> IO B) : IO B :=
  fun w => let (a, w') := m w in k a w'.

#[global] Instance IO_ret : MRet IO := @ret.
#[global] Instance IO_bind : MBind IO := fun A B k m => bind m k.

(** The instant the next [time.Now] returns. *)
Definition now (w : World) : Z := clock w (reads w).

Definition rand_Read : IO string :=
  fun w => (entropy w (draws w),
            mkWorld (clock w) (reads w) (entropy w) (S (draws w))).

Module time.

(** time.Time and time.Duration, both in nanoseconds. *)
Definition Time : Type := Z.
Definition Duration : Type := Z.

Definition Nanosecond : Duration := 1.
Definition Second : Duration := 1000000000.
Definition Minute : Duration := 60 * Second.
Definition Hour : Duration := 60 * Minute.

Definition Now : IO Time :=
  fun w => (clock w (reads w),
            mkWorld (clock w) (S (reads w)) (entropy w) (draws w)).

Definition Add (t : Time) (d : Duration) : Time := t + d.

(** [t.Unix()]: whole seconds since the epoch, rounded down. *)
Definition Unix (t : Time) : Z := t / Second.

(** [time.Unix(sec, 0)]. *)
Definition FromUnix (sec : Z) : Time := sec * Second.

(** [t.Before(u)]. *)
Definition Before (t u : Time) : bool := t <? u.

(** [int64(d.Seconds())].  [d.Seconds()] is the float
    [float64(sec) + float64(nsec)/1e9] of the whole seconds of [d] and of
    the nanoseconds that remain; the conversion cuts its fraction off. *)
Definition Seconds (d : Duration) : Z :=
  let sec := Z.quot d Second in
  let nsec := Z.rem d Second in
  float64.to_Z
    (float64.add (float64.of_Z sec)
       (float64.div (float64.of_Z nsec) (float64.of_Z 1000000000))).

End time.

Module uuid.

(** [uuid.New().String()]. *)
Definition New : IO string := rand_Read.

End uuid.

(** ** golang.org/x/crypto/bcrypt *)

Module bcrypt.

Definition MinCost : Z := 4.
Definition MaxCost : Z := 31.
Definition DefaultCost : Z := 10.

Inductive error : Type :=
| ErrMismatchedHashAndPassword
| ErrHashTooShort
| ErrPasswordTooLong
| InvalidHashPrefixError
| HashVersionTooNewError
| InvalidCostError (cost : Z).

Section core.

(** The key derivation, left abstract: [bcrypt cost salt password] is the
    encoded hash (prefix, cost, salt and digest), and [newFromHash] reads
    the cost and the salt back from an encoded hash. *)
Variable bcrypt : Z -> string -> string -> string.
Variable newFromHash : string -> result error (Z * string).

Definition checkCost (cost : Z) : option error :=
  if (cost <? MinCost) || (MaxCost <? cost)
  then Some (InvalidCostError cost) else None.

(** A cost below [MinCost] is replaced by [DefaultCost] before the range
    check, so that only a cost above [MaxCost] is refused. *)
Definition newFromPassword (password : string) (cost : Z)
  : IO (result error string) :=
  let cost := if cost <? MinCost then DefaultCost else cost in
  match checkCost cost with
  | Some e => mret (Err e)
  | None => salt ← rand_Read; mret (Ok (bcrypt cost salt password))
  end.

Definition GenerateFromPassword (password : string) (cost : Z)
  : IO (result error string) :=
  if 72 <? Z.of_nat (String.length password)
  then mret (Err ErrPasswordTooLong)
  else newFromPassword password cost.

(** [None] is Go's nil error. *)
Definition CompareHashAndPassword (hashedPassword password : string)
  : option error :=
  match newFromHash hashedPassword with
  | Err e => Some e
  | Ok (cost, salt) =>
      if String.eqb (bcrypt cost salt password) hashedPassword
      then None else Some ErrMismatchedHashAndPassword
  end.

End core.

End bcrypt.

(** ** github.com/golang-jwt/jwt/v5 *)

Module jwt.

Inductive error : Type :=
| ErrTokenMalformed
| ErrTokenUnverifiable
| ErrTokenSignatureInvalid
| ErrInvalidKeyType
| ErrTokenInvalidClaims (expired notValidYet : bool).

Inductive SigningMethod : Type :=
| SigningMethodHMAC (alg : string)
| SigningMethodRSA (alg : string)
| SigningMethodRSAPSS (alg : string)
| SigningMethodECDSA (alg : string)
| SigningMethodEd25519
| SigningMethodNone.

Definition SigningMethodHS256 : SigningMethod := SigningMethodHMAC "HS256".

Definition Alg (m : SigningMethod) : string :=
  match m with
  | SigningMethodHMAC a | SigningMethodRSA a
  | SigningMethodRSAPSS a | SigningMethodECDSA a => a
  | SigningMethodEd25519 => "EdDSA"
  | SigningMethodNone => "none"
  end.

(** The methods the library registers. *)
Definition GetSigningMethod (alg : string) : option SigningMethod :=
  if bool_decide (alg ∈ ["HS256"; "HS384"; "HS512"])
  then Some (SigningMethodHMAC alg)
  else if bool_decide (alg ∈ ["RS256"; "RS384"; "RS512"])
  then Some (SigningMethodRSA alg)
  else if bool_decide (alg ∈ ["PS256"; "PS384"; "PS512"])
  then Some (SigningMethodRSAPSS alg)
  else if bool_decide (alg ∈ ["ES256"; "ES384"; "ES512"])
  then Some (SigningMethodECDSA alg)
  else if bool_decide (alg = "EdDSA") then Some SigningMethodEd25519
  else if bool_decide (alg = "none") then Some SigningMethodNone
  else None.

(** The third segment of a token, reduced to what verification depends
    on.  The MAC is ideal: the segment is the tag of this token's first
    two segments under the hash of [alg] and the key [key], or it is some
    other byte string, which no key verifies.  A key is taken to verify
    its own tags only; HMAC pads a short key with zero bytes and hashes a
    long one, so that keys which this makes equal verify each other's
    tags.  The properties below that read an arbitrary signature are
    stated for tags under the configured secret and for segments that are
    no tag ([own_tag]). *)
Inductive Signature : Type :=
| HMACTag (alg : string) (key : string)
| OtherBytes
| NotBase64.

(** A token string: either three segments of which the first two decode
    to JSON objects, or anything else. *)
Inductive TokenString : Type :=
| Malformed (raw : string)
| Compact (header claims : gmap string JSON) (sig : Signature).

(** A NumericDate holds an instant cut to [TimePrecision], one second:
    it is kept as the number of seconds it is written as. *)
Definition NumericDate : Type := Z.

Definition NewNumericDate (t : time.Time) : NumericDate := time.Unix t.

Definition Time_of (d : NumericDate) : time.Time := time.FromUnix d.

Record RegisteredClaims : Type := mkRegisteredClaims {
  Issuer : string;
  Subject : string;
  Audience : list string;
  ExpiresAt : option NumericDate;
  NotBefore : option NumericDate;
  IssuedAt : option NumericDate;
  ID : string
}.

(** The Claims interface, as far as the validator uses it. *)
Class Claims (C : Type) : Type := {
  GetExpirationTime : C -> option NumericDate;
  GetNotBefore : C -> option NumericDate;
  GetIssuedAt : C -> option NumericDate;
  GetIssuer : C -> string;
  GetSubject : C -> string;
  GetAudience : C -> list string
}.

(** What encoding/json does with a claims type: the object it writes and
    the value it reads from an object ([None]: an error). *)
Class Codec (C : Type) : Type := {
  MarshalJSON : C -> gmap string JSON;
  UnmarshalJSON : gmap string JSON -> option C
}.

#[global] Instance RegisteredClaims_Claims : Claims RegisteredClaims := {|
  GetExpirationTime := ExpiresAt;
  GetNotBefore := NotBefore;
  GetIssuedAt := IssuedAt;
  GetIssuer := Issuer;
  GetSubject := Subject;
  GetAudience := Audience
|}.

(** *** Struct fields to JSON members and back *)

(** A member written under [omitempty] is left out when empty. *)
Definition put_string (k s : string) (m : gmap string JSON)
  : gmap string JSON :=
  if bool_decide (s = "") then m else <[k := JStr s]> m.

Definition put_strings (k : string) (l : list string) (m : gmap string JSON)
  : gmap string JSON :=
  match l with [] => m | _ => <[k := JArr (JStr <$> l)]> m end.

Definition put_date (k : string) (d : option NumericDate)
  (m : gmap string JSON) : gmap string JSON :=
  match d with None => m | Some z => <[k := JNum z]> m end.

(** Reading a member into a field: an absent member and [null] leave the
    zero value, a value of another JSON type is an error. Members are
    found by their exact name: encoding/json also reads, into a field
    that has no member of its name, a member whose name equals the
    field's up to the case of letters, and then the order of the members
    decides, which an object kept as a map does not have.  The properties
    below that read an arbitrary object are stated for objects without
    such members ([exact_names]). *)
Definition get_string (o : option JSON) : option string :=
  match o with
  | None | Some JNull => Some ""
  | Some (JStr s) => Some s
  | Some _ => None
  end.

Definition get_element (j : JSON) : option string :=
  match j with
  | JStr s => Some s
  | JNull => Some ""
  | _ => None
  end.

Definition get_strings (o : option JSON) : option (list string) :=
  match o with
  | None | Some JNull => Some []
  | Some (JArr l) => mapM get_element l
  | Some _ => None
  end.

Definition get_map (o : option JSON) : option (gmap string Any) :=
  match o with
  | None | Some JNull => Some ∅
  | Some (JObj m) => Some (unmarshal <$> m)
  | Some _ => None
  end.

(** A date is read from an integer, kept as it is.  jwt reads it through
    [json.Number] and float64, which holds an integer up to 2^53 exactly,
    and also accepts the number in quotes; the properties below that read
    an arbitrary object are stated for dates that both read alike
    ([exact_dates]). *)
Definition get_date (o : option JSON) : option (option NumericDate) :=
  match o with
  | None | Some JNull => Some None
  | Some (JNum z) => Some (Some z)
  | Some _ => None
  end.

(** ClaimStrings: a single string or an array of strings. *)
Definition get_audience (o : option JSON) : option (list string) :=
  match o with
  | None | Some JNull => Some []
  | Some (JStr s) => Some [s]
  | Some (JArr l) =>
      mapM (fun j => match j with JStr s => Some s | _ => None end) l
  | Some _ => None
  end.

Definition put_registered (c : RegisteredClaims) (m : gmap string JSON)
  : gmap string JSON :=
  put_string "iss" (Issuer c)
  (put_string "sub" (Subject c)
  (put_strings "aud" (Audience c)
  (put_date "exp" (ExpiresAt c)
  (put_date "nbf" (NotBefore c)
  (put_date "iat" (IssuedAt c)
  (put_string "jti" (ID c) m)))))).

Definition get_registered (m : gmap string JSON) : option RegisteredClaims :=
  iss ← get_string (m !! "iss");
  sub ← get_string (m !! "sub");
  aud ← get_audience (m !! "aud");
  exp ← get_date (m !! "exp");
  nbf ← get_date (m !! "nbf");
  iat ← get_date (m !! "iat");
  jti ← get_string (m !! "jti");
  Some (mkRegisteredClaims iss sub aud exp nbf iat jti).

#[global] Instance RegisteredClaims_Codec : Codec RegisteredClaims := {|
  MarshalJSON c := put_registered c ∅;
  UnmarshalJSON := get_registered
|}.

(** MapClaims is written member by member. *)
Definition MapClaims : Type := gmap string Any.

Definition MapClaims_MarshalJSON (c : MapClaims) : gmap string JSON :=
  marshal <$> c.

(** *** Tokens *)

Record Token (C : Type) : Type := mkToken {
  Method : SigningMethod;
  Header : gmap string JSON;
  Claims_ : C;
  Valid : bool
}.
Arguments mkToken {C}.
Arguments Method {C}.
Arguments Header {C}.
Arguments Claims_ {C}.
Arguments Valid {C}.

Definition NewWithClaims {C} (method : SigningMethod) (claims : C) : Token C :=
  {| Method := method;
     Header := {[ "typ" := JStr "JWT"; "alg" := JStr (Alg method) ]};
     Claims_ := claims;
     Valid := false |}.

(** Signing with a [[]byte] key: the HMAC methods accept it, the others
    want a key of another type. *)
Definition Sign (m : SigningMethod) (key : string) : result error Signature :=
  match m with
  | SigningMethodHMAC alg => Ok (HMACTag alg key)
  | _ => Err ErrInvalidKeyType
  end.

Definition Verify (m : SigningMethod) (sig : Signature) (key : string) : bool :=
  match m, sig with
  | SigningMethodHMAC alg, HMACTag alg' key' =>
      bool_decide (alg = alg') && bool_decide (key = key')
  | _, _ => false
  end.

(** [token.SignedString(key)], given the object the claims are written
    as. *)
Definition SignedString {C} (token : Token C) (payload : gmap string JSON)
  (key : string) : result error TokenString :=
  match Sign (Method token) key with
  | Ok sig => Ok (Compact (Header token) payload sig)
  | Err e => Err e
  end.

(** *** The validator, with no option set *)

Definition verifyExpiresAt {C} `{Claims C} (claims : C) (now : time.Time)
  : bool :=
  match GetExpirationTime claims with
  | None => true
  | Some exp => time.Before now (Time_of exp)
  end.

Definition verifyNotBefore {C} `{Claims C} (claims : C) (now : time.Time)
  : bool :=
  match GetNotBefore claims with
  | None => true
  | Some nbf => negb (time.Before now (Time_of nbf))
  end.

Definition Validate {C} `{Claims C} (claims : C) : IO (option error) :=
  now ← time.Now;
  let expired := negb (verifyExpiresAt claims now) in
  let early := negb (verifyNotBefore claims now) in
  mret (if expired || early
        then Some (ErrTokenInvalidClaims expired early) else None).

(** *** The parser *)

Definition ParseUnverified {C} `{Codec C} (tokenString : TokenString)
  : result error (Token C * Signature) :=
  match tokenString with
  | Malformed _ => Err ErrTokenMalformed
  | Compact header claims sig =>
      match UnmarshalJSON claims with
      | None => Err ErrTokenMalformed
      | Some c =>
          match header !! "alg" with
          | Some (JStr alg) =>
              match GetSigningMethod alg with
              | Some m => Ok (mkToken m header c false, sig)
              | None => Err ErrTokenUnverifiable
              end
          | _ => Err ErrTokenUnverifiable
          end
      end
  end.

Definition ParseWithClaims {C E} `{Claims C} `{Codec C}
  (tokenString : TokenString) (keyFunc : Token C -> result E string)
  : IO (result error (Token C)) :=
  match ParseUnverified tokenString with
  | Err e => mret (Err e)
  | Ok (token, sig) =>
      match sig with
      | NotBase64 => mret (Err ErrTokenMalformed)
      | _ =>
          match keyFunc token with
          | Err _ => mret (Err ErrTokenUnverifiable)
          | Ok key =>
              if negb (Verify (Method token) sig key)
              then mret (Err ErrTokenSignatureInvalid)
              else
                invalid ← Validate (Claims_ token);
                match invalid with
                | Some e => mret (Err e)
                | None =>
                    mret (Ok (mkToken (Method token) (Header token)
                                (Claims_ token) true))
                end
          end
      end
  end.

End jwt.

(** ** Package authkit: types (types.go) *)

Module Config.
Record t : Type := mk {
  JWTSecret : string;
  TokenExpiry : string;
  RefreshExpiry : string;
  BCryptCost : Z;
  RateLimitRPM : Z;
  EmailRequired : bool
}.
End Config.
Abbreviation Config := Config.t.

Module User.
Record t : Type := mk {
  ID : string;
  Email : string;
  Password : string;
  Name : string;
  Role : string;
  Permissions : list string;
  EmailVerified : bool;
  CreatedAt : time.Time;
  UpdatedAt : time.Time;
  Metadata : gmap string Any
}.
End User.
Abbreviation User := User.t.

Module Claims.
Record t : Type := mk {
  UserID : string;
  Email : string;
  Role : string;
  Permissions : list string;
  Metadata : gmap string Any;
  RegisteredClaims : jwt.RegisteredClaims
}.
End Claims.
Abbreviation Claims := Claims.t.

Module UserInfo.
Record t : Type := mk {
  ID : string;
  Email : string;
  Name : string;
  Role : string;
  Permissions : list string;
  EmailVerified : bool;
  Metadata : gmap string Any
}.
End UserInfo.
Abbreviation UserInfo := UserInfo.t.

Module TokenResponse.
Record t : Type := mk {
  AccessToken : jwt.TokenString;
  RefreshToken : jwt.TokenString;
  TokenType : string;
  ExpiresIn : Z;
  User : UserInfo
}.
End TokenResponse.
Abbreviation TokenResponse := TokenResponse.t.

Module RegisterRequest.
Record t : Type := mk {
  Email : string;
  Password : string;
  Name : string;
  Role : string;
  Metadata : gmap string Any
}.
End RegisterRequest.
Abbreviation RegisterRequest := RegisterRequest.t.

(** The package's error values, and the errors of bcrypt and jwt that its
    functions hand through unchanged. *)
Inductive error : Type :=
| ErrUserNotFound
| ErrInvalidPassword
| ErrUserAlreadyExists
| ErrInvalidToken
| ErrTokenExpired
| ErrUnauthorized
| ErrInsufficientRole
| BcryptError (e : bcrypt.error)
| JwtError (e : jwt.error).

(** AuthKit: the configuration and the user directory, keyed by user id.
    The mutex has no counterpart: operations run one at a time. *)
Record AuthKit : Type := mkAuthKit {
  config : Config;
  users : gmap string User
}.

(** How the fields of the record types are written as JSON, from their
    struct tags. *)
Definition put_metadata (md : gmap string Any) (m : gmap string JSON)
  : gmap string JSON :=
  if bool_decide (size md = 0%nat) then m
  else <["metadata" := JObj (marshal <$> md)]> m.


#[global] Instance Claims_Claims : jwt.Claims Claims := {|
  jwt.GetExpirationTime c := jwt.ExpiresAt (Claims.RegisteredClaims c);
  jwt.GetNotBefore c := jwt.NotBefore (Claims.RegisteredClaims c);
  jwt.GetIssuedAt c := jwt.IssuedAt (Claims.RegisteredClaims c);
  jwt.GetIssuer c := jwt.Issuer (Claims.RegisteredClaims c);
  jwt.GetSubject c := jwt.Subject (Claims.RegisteredClaims c);
  jwt.GetAudience c := jwt.Audience (Claims.RegisteredClaims c)
|}.

Definition Claims_MarshalJSON (c : Claims) : gmap string JSON :=
  <["user_id" := JStr (Claims.UserID c)]>
  (<["email" := JStr (Claims.Email c)]>
  (<["role" := JStr (Claims.Role c)]>
  (<["permissions" := JArr (JStr <$> Claims.Permissions c)]>
  (put_metadata (Claims.Metadata c)
  (jwt.put_registered (Claims.RegisteredClaims c) ∅))))).

Definition Claims_UnmarshalJSON (m : gmap string JSON) : option Claims :=
  user_id ← jwt.get_string (m !! "user_id");
  email ← jwt.get_string (m !! "email");
  role ← jwt.get_string (m !! "role");
  permissions ← jwt.get_strings (m !! "permissions");
  metadata ← jwt.get_map (m !! "metadata");
  registered ← jwt.get_registered m;
  Some (Claims.mk user_id email role permissions metadata registered).

#[global] Instance Claims_Codec : jwt.Codec Claims := {|
  jwt.MarshalJSON := Claims_MarshalJSON;
  jwt.UnmarshalJSON := Claims_UnmarshalJSON
|}.

(** ** Package authkit: what the adapters exchange

    The Gin middleware and handlers (unnamed/part_000, unnamed/part_003),
    their Fiber counterparts (unnamed/part_002, handlers_fiber.go) and the
    commands of the command line (internal/cli/user.go).  Of the
    frameworks there is only what the code uses: the Authorization header,
    the values kept on the request context, and the status and body of the
    answer. *)

Module LoginRequest.
Record t : Type := mk {
  Email : string;
  Password : string
}.
End LoginRequest.
Abbreviation LoginRequest := LoginRequest.t.

Module RefreshRequest.
Record t : Type := mk {
  RefreshToken : string
}.
End RefreshRequest.
Abbreviation RefreshRequest := RefreshRequest.t.

Module strings.

(** [strings.HasPrefix(s, prefix)]. *)
Definition HasPrefix (s prefix : string) : bool := String.prefix prefix s.

(** [strings.TrimPrefix(s, prefix)]. *)
Definition TrimPrefix (s prefix : string) : string :=
  if String.prefix prefix s
  then String.substring (String.length prefix)
         (String.length s - String.length prefix) s
  else s.

(** [strings.EqualFold(s, t)] for a [t] of ASCII characters, the names of
    struct fields among them: a letter of [t] is matched by the letter in
    either case, and [s] and [k] also by the two characters outside ASCII
    that fold to them, U+017F and U+212A. *)
Definition lower (c : ascii) : ascii :=
  let b := N_of_ascii c in
  if (65 <=? b)%N && (b <=? 90)%N then ascii_of_N (b + 32) else c.

Definition is_byte (c : ascii) (b : N) : bool := (N_of_ascii c =? b)%N.

Fixpoint EqualFold (s t : string) {struct t} : bool :=
  match t with
  | EmptyString => match s with EmptyString => true | _ => false end
  | String c t' =>
      match s with
      | String x s' =>
          if Ascii.eqb (lower x) (lower c) then EqualFold s' t'
          else
            match s' with
            | String y s'' =>
                if Ascii.eqb (lower c) "s" && is_byte x 197 && is_byte y 191
                then EqualFold s'' t'
                else
                  match s'' with
                  | String z s''' =>
                      if Ascii.eqb (lower c) "k" && is_byte x 226
                         && is_byte y 132 && is_byte z 170
                      then EqualFold s''' t'
                      else false
                  | EmptyString => false
                  end
            | EmptyString => false
            end
      | EmptyString => false
      end
  end.

End strings.

Module http.

Definition StatusOK : Z := 200.
Definition StatusCreated : Z := 201.
Definition StatusBadRequest : Z := 400.
Definition StatusUnauthorized : Z := 401.
Definition StatusForbidden : Z := 403.
Definition StatusNotFound : Z := 404.
Definition StatusConflict : Z := 409.
Definition StatusInternalServerError : Z := 500.

End http.

(** A value kept on the request context ([c.Set] of Gin, [c.Locals] of
    Fiber): an [interface{}] that holds a plain value or the claims. *)
Inductive Local : Type :=
| LAny (v : Any)
| LClaims (c : Claims).

(** What a middleware does with a request: it answers, with a status and
    an error message, and the chain stops; or it calls the next handler
    with the context it leaves. *)
Inductive Decision : Type :=
| Respond (status : Z) (message : string)
| Next (keys : gmap string Local).

(** The body of a handler's answer, before it is written as JSON.
    [BBind] is the framework's own message for a body it could not bind,
    [BErr err] is [{"error": err.Error()}]. *)
Inductive Body : Type :=
| BBind
| BError (message : string)
| BErr (err : error)
| BMessage (message : string)
| BUser (user : UserInfo)
| BUserMessage (message : string) (user : UserInfo)
| BTokens (tokens : TokenResponse).

Record Response : Type := mkResponse {
  Status : Z;
  Payload : Body
}.

(** What a command of the command line ends with: [checkError] leaving
    with exit status 1, a failed validation reported, or the data handed
    to [printOutput]. *)
Inductive Printed : Type :=
| PRegistered (user_id email name role : string)
| PTokens (tokens : TokenResponse)
| PUsers (count : nat) (users : list UserInfo)
| PDeleted (user_id : string)
| PToken (token : jwt.TokenString) (user_id expiry : string)
    (claims : gmap string Any)
| PClaims (claims : Claims).

Inductive Outcome : Type :=
| Exit1 (err : error)
| ExitBadDuration (expiry : string)
| Reported (err : error)
| Output (data : Printed).

(** ** Sample instances

    The operations below are parametric in [time.ParseDuration], in the
    layout of timestamps and in the bcrypt key derivation.  These are
    instances to run them on: a duration parser for groups of a whole
    number and a unit, and a stand-in for bcrypt whose digest is the
    password itself. *)

Definition unit_of (u : string) : option time.Duration :=
  if bool_decide (u = "ns") then Some time.Nanosecond
  else if bool_decide (u = "us") then Some (1000 * time.Nanosecond)
  else if bool_decide (u = "ms") then Some (1000000 * time.Nanosecond)
  else if bool_decide (u = "s") then Some time.Second
  else if bool_decide (u = "m") then Some time.Minute
  else if bool_decide (u = "h") then Some time.Hour
  else None.

Definition digit_of (c : ascii) : option Z :=
  let n := Z.of_nat (nat_of_ascii c) in
  if (48 <=? n) && (n <=? 57) then Some (n - 48) else None.

(** One pass over the groups: [total] is the sum of the groups closed so
    far, [num] the number being read and [unit] the unit being read. *)
Fixpoint groups (s : string) (total : Z) (num : option Z) (unit : string)
  : option time.Duration :=
  match s with
  | EmptyString =>
      n ← num; u ← unit_of unit; Some (total + n * u)
  | String c rest =>
      match digit_of c with
      | Some d =>
          if bool_decide (unit = "")
          then groups rest total (Some (10 * default 0 num + d)) ""
          else n ← num; u ← unit_of unit;
               groups rest (total + n * u) (Some d) ""
      | None =>
          match num with
          | None => None
          | Some _ => groups rest total num (unit +:+ String c EmptyString)
          end
      end
  end.

Definition sample_ParseDuration (s : string) : option time.Duration :=
  if bool_decide (s = "0") then Some 0 else groups s 0 None "".


Definition two_digits (n : Z) : string :=
  if n <? 10 then "0" +:+ pretty n else pretty n.

Definition sample_bcrypt (cost : Z) (salt password : string) : string :=
  "$2a$" +:+ two_digits cost +:+ "$" +:+ salt +:+ password.

Definition sample_newFromHash (hashed : string)
  : result bcrypt.error (Z * string) :=
  if (String.length hashed <? 29)%nat then Err bcrypt.ErrHashTooShort
  else
    match String.get 4 hashed, String.get 5 hashed with
    | Some a, Some b =>
        match digit_of a, digit_of b with
        | Some x, Some y => Ok (10 * x + y, String.substring 7 22 hashed)
        | _, _ => Err bcrypt.InvalidHashPrefixError
        end
    | _, _ => Err bcrypt.ErrHashTooShort
    end.

(** A clock that advances by a microsecond per reading, from
    2023-11-14 22:13:20 UTC, and a source of 22-character strings. *)
Definition sample_world : World :=
  {| clock n := 1700000000 * time.Second + 1000 * Z.of_nat n;
     reads := 0;
     entropy n := "entropy-0000" +:+ pretty (1000000000 + Z.of_nat n);
     draws := 0 |}.

(** The same clock and source, [d] nanoseconds later. *)
Definition later (d : time.Duration) (w : World) : World :=
  {| clock n := clock w n + d;
     reads := reads w;
     entropy := entropy w;
     draws := draws w |}.

Definition sample_config : Config :=
  {| Config.JWTSecret := "test-secret-key-for-testing-only";
     Config.TokenExpiry := "1h";
     Config.RefreshExpiry := "24h";
     Config.BCryptCost := 4;
     Config.RateLimitRPM := 60;
     Config.EmailRequired := false |}.

Definition alice : User :=
  {| User.ID := "u-alice";
     User.Email := "alice@example.com";
     User.Password := "$2a$04$entropy-00001000000000pw12345678";
     User.Name := "Alice";
     User.Role := "user";
     User.Permissions := [];
     User.EmailVerified := true;
     User.CreatedAt := 1700000000 * time.Second;
     User.UpdatedAt := 1700000000 * time.Second;
     User.Metadata := ∅ |}.

(** A directory that holds alice, and the same with a token lifetime given
    in days, a unit [time.ParseDuration] does not know. *)
Definition sample_kit : AuthKit :=
  {| config := sample_config; users := {[ "u-alice" := alice ]} |}.

Definition sample_kit_days : AuthKit :=
  {| config :=
       {| Config.JWTSecret := "test-secret-key-for-testing-only";
          Config.TokenExpiry := "1d";
          Config.RefreshExpiry := "7d";
          Config.BCryptCost := 4;
          Config.RateLimitRPM := 60;
          Config.EmailRequired := false |};
     users := {[ "u-alice" := alice ]} |}.

(** A user with metadata: a string, and a number that no float64
    holds. *)
Definition carol : User :=
  {| User.ID := "u-carol";
     User.Email := "carol@example.com";
     User.Password := "$2a$04$entropy-00001000000000pw12345678";
     User.Name := "Carol";
     User.Role := "editor";
     User.Permissions := ["posts:write"];
     User.EmailVerified := true;
     User.CreatedAt := 1700000000 * time.Second;
     User.UpdatedAt := 1700000000 * time.Second;
     User.Metadata :=
       {[ "team" := VString "core"; "visits" := VInt 9007199254740993 ]} |}.

(** A registration request for a user the sample directory does not
    have, and the claims of a token of alice's on a request context. *)
Definition bob : RegisterRequest :=
  {| RegisterRequest.Email := "bob@example.com";
     RegisterRequest.Password := "correct-horse";
     RegisterRequest.Name := "Bob";
     RegisterRequest.Role := "";
     RegisterRequest.Metadata := ∅ |}.

Definition alice_context : gmap string Local :=
  {[ "user_claims" :=
       LClaims
         {| Claims.UserID := "u-alice";
            Claims.Email := "alice@example.com";
            Claims.Role := "user";
            Claims.Permissions := [];
            Claims.Metadata := ∅;
            Claims.RegisteredClaims :=
              {| jwt.Issuer := "authkit";
                 jwt.Subject := "u-alice";
                 jwt.Audience := ["authkit-users"];
                 jwt.ExpiresAt := Some (1700000000 + 3600);
                 jwt.NotBefore := Some 1700000000;
                 jwt.IssuedAt := Some 1700000000;
                 jwt.ID := "entropy-00001000000000" |} |} ]}.

(** ** Package authkit: operations *)

Section AuthKit.

(** [time.ParseDuration]; [None] is its error. *)
Variable ParseDuration : string -> option time.Duration.

(** The layout in which a [time.Time] is written as JSON. *)
Variable RFC3339 : time.Time -> string.

(** The bcrypt key derivation and its inverse on the cost and salt. *)
Variable bcrypt_hash : Z -> string -> string -> string.
Variable bcrypt_newFromHash : string -> result bcrypt.error (Z * string).


(** *** Hashing (password.go) *)

Definition HashPassword (a : AuthKit) (password : string)
  : IO (result error string) :=
  r ← bcrypt.GenerateFromPassword bcrypt_hash password
        (Config.BCryptCost (config a));
  match r with
  | Err err => mret (Err (BcryptError err))
  | Ok hashedBytes => mret (Ok hashedBytes)
  end.

Definition ComparePassword (a : AuthKit) (hashedPassword password : string)
  : bool :=
  match bcrypt.CompareHashAndPassword bcrypt_hash bcrypt_newFromHash
          hashedPassword password with
  | None => true
  | Some _ => false
  end.

Definition HashPasswordStatic (password : string) (cost : Z)
  : IO (result error string) :=
  let cost := if bool_decide (cost = 0) then 12 else cost in
  r ← bcrypt.GenerateFromPassword bcrypt_hash password cost;
  match r with
  | Err err => mret (Err (BcryptError err))
  | Ok hashedBytes => mret (Ok hashedBytes)
  end.


(** *** The directory (types.go, second part) *)

Definition New (config : Config) : AuthKit :=
  let cost :=
    if bool_decide (Config.BCryptCost config = 0) then 12
    else Config.BCryptCost config in
  let tokenExpiry :=
    if bool_decide (Config.TokenExpiry config = "") then "24h"
    else Config.TokenExpiry config in
  let refreshExpiry :=
    if bool_decide (Config.RefreshExpiry config = "") then "7d"
    else Config.RefreshExpiry config in
  let rpm :=
    if bool_decide (Config.RateLimitRPM config = 0) then 60
    else Config.RateLimitRPM config in
  {| config := Config.mk (Config.JWTSecret config) tokenExpiry refreshExpiry
                 cost rpm (Config.EmailRequired config);
     users := ∅ |}.

Definition userToUserInfo (user : User) : UserInfo :=
  {| UserInfo.ID := User.ID user;
     UserInfo.Email := User.Email user;
     UserInfo.Name := User.Name user;
     UserInfo.Role := User.Role user;
     UserInfo.Permissions := User.Permissions user;
     UserInfo.EmailVerified := User.EmailVerified user;
     UserInfo.Metadata := User.Metadata user |}.

(** The loop [for _, user := range a.users] that stops at the first record
    with the given email.  Go visits a map in no fixed order; here the
    records are visited in the order of [map_to_list]. *)
Definition find_email (users : gmap string User) (email : string)
  : option User :=
  head (filter (fun u => User.Email u = email) ((map_to_list users).*2)).

Definition RegisterUser (a : AuthKit) (req : RegisterRequest)
  : IO (result error UserInfo * AuthKit) :=
  match find_email (users a) (RegisterRequest.Email req) with
  | Some _ => mret (Err ErrUserAlreadyExists, a)
  | None =>
      r ← HashPassword a (RegisterRequest.Password req);
      match r with
      | Err err => mret (Err err, a)
      | Ok hashedPassword =>
          userID ← uuid.New;
          createdAt ← time.Now;
          updatedAt ← time.Now;
          let role :=
            if bool_decide (RegisterRequest.Role req = "") then "user"
            else RegisterRequest.Role req in
          let user :=
            {| User.ID := userID;
               User.Email := RegisterRequest.Email req;
               User.Password := hashedPassword;
               User.Name := RegisterRequest.Name req;
               User.Role := role;
               User.Permissions := [];
               User.EmailVerified := negb (Config.EmailRequired (config a));
               User.CreatedAt := createdAt;
               User.UpdatedAt := updatedAt;
               User.Metadata := RegisterRequest.Metadata req |} in
          mret (Ok (userToUserInfo user),
                mkAuthKit (config a) (<[userID := user]> (users a)))
      end
  end.

Definition GetUserByID (a : AuthKit) (userID : string) : result error User :=
  match users a !! userID with
  | None => Err ErrUserNotFound
  | Some user => Ok user
  end.

Definition GetUserByEmail (a : AuthKit) (email : string) : result error User :=
  match find_email (users a) email with
  | Some user => Ok user
  | None => Err ErrUserNotFound
  end.

(** The four type assertions of UpdateUser, each on one key of the update
    map: a missing key and a value of another dynamic type both leave the
    field as it is. *)
Definition update_name (updates : gmap string Any) (user : User) : User :=
  match updates !! "name" with
  | Some (VString name) =>
      User.mk (User.ID user) (User.Email user) (User.Password user) name
        (User.Role user) (User.Permissions user) (User.EmailVerified user)
        (User.CreatedAt user) (User.UpdatedAt user) (User.Metadata user)
  | _ => user
  end.

Definition update_role (updates : gmap string Any) (user : User) : User :=
  match updates !! "role" with
  | Some (VString role) =>
      User.mk (User.ID user) (User.Email user) (User.Password user)
        (User.Name user) role (User.Permissions user)
        (User.EmailVerified user) (User.CreatedAt user) (User.UpdatedAt user)
        (User.Metadata user)
  | _ => user
  end.

Definition update_permissions (updates : gmap string Any) (user : User)
  : User :=
  match updates !! "permissions" with
  | Some (VStrings permissions) =>
      User.mk (User.ID user) (User.Email user) (User.Password user)
        (User.Name user) (User.Role user) permissions
        (User.EmailVerified user) (User.CreatedAt user) (User.UpdatedAt user)
        (User.Metadata user)
  | _ => user
  end.

Definition update_metadata (updates : gmap string Any) (user : User) : User :=
  match updates !! "metadata" with
  | Some (VMap metadata) =>
      User.mk (User.ID user) (User.Email user) (User.Password user)
        (User.Name user) (User.Role user) (User.Permissions user)
        (User.EmailVerified user) (User.CreatedAt user) (User.UpdatedAt user)
        metadata
  | _ => user
  end.

Definition touch (t : time.Time) (user : User) : User :=
  User.mk (User.ID user) (User.Email user) (User.Password user)
    (User.Name user) (User.Role user) (User.Permissions user)
    (User.EmailVerified user) (User.CreatedAt user) t (User.Metadata user).

Definition UpdateUser (a : AuthKit) (userID : string)
  (updates : gmap string Any) : IO (result error UserInfo * AuthKit) :=
  match users a !! userID with
  | None => mret (Err ErrUserNotFound, a)
  | Some user =>
      let user :=
        update_metadata updates
          (update_permissions updates
            (update_role updates (update_name updates user))) in
      t ← time.Now;
      let user := touch t user in
      mret (Ok (userToUserInfo user),
            mkAuthKit (config a) (<[userID := user]> (users a)))
  end.

(** [None] is the nil error. *)
Definition DeleteUser (a : AuthKit) (userID : string)
  : option error * AuthKit :=
  match users a !! userID with
  | None => (Some ErrUserNotFound, a)
  | Some _ => (None, mkAuthKit (config a) (delete userID (users a)))
  end.

Definition ListUsers (a : AuthKit) : list UserInfo :=
  userToUserInfo <$> (map_to_list (users a)).*2.

(** *** Tokens (simple_http.go, second part) *)

Definition signed {C} (token : jwt.Token C) (payload : gmap string JSON)
  (key : string) : result error jwt.TokenString :=
  match jwt.SignedString token payload key with
  | Ok s => Ok s
  | Err e => Err (JwtError e)
  end.

Definition GenerateAccessToken (a : AuthKit) (user : User)
  : IO (result error jwt.TokenString) :=
  let duration :=
    match ParseDuration (Config.TokenExpiry (config a)) with
    | Some d => d
    | None => 24 * time.Hour
    end in
  jti ← uuid.New;
  issuedAt ← time.Now;
  expiresAt ← time.Now;
  notBefore ← time.Now;
  let claims :=
    {| Claims.UserID := User.ID user;
       Claims.Email := User.Email user;
       Claims.Role := User.Role user;
       Claims.Permissions := User.Permissions user;
       Claims.Metadata := User.Metadata user;
       Claims.RegisteredClaims :=
         {| jwt.ID := jti;
            jwt.Subject := User.ID user;
            jwt.IssuedAt := Some (jwt.NewNumericDate issuedAt);
            jwt.ExpiresAt :=
              Some (jwt.NewNumericDate (time.Add expiresAt duration));
            jwt.NotBefore := Some (jwt.NewNumericDate notBefore);
            jwt.Issuer := "authkit";
            jwt.Audience := ["authkit-users"] |} |} in
  let token := jwt.NewWithClaims jwt.SigningMethodHS256 claims in
  mret (signed token (jwt.MarshalJSON claims)
          (Config.JWTSecret (config a))).

Definition GenerateRefreshToken (a : AuthKit) (user : User)
  : IO (result error jwt.TokenString) :=
  let duration :=
    match ParseDuration (Config.RefreshExpiry (config a)) with
    | Some d => d
    | None => 7 * 24 * time.Hour
    end in
  jti ← uuid.New;
  issuedAt ← time.Now;
  expiresAt ← time.Now;
  notBefore ← time.Now;
  let claims :=
    {| jwt.ID := jti;
       jwt.Subject := User.ID user;
       jwt.IssuedAt := Some (jwt.NewNumericDate issuedAt);
       jwt.ExpiresAt :=
         Some (jwt.NewNumericDate (time.Add expiresAt duration));
       jwt.NotBefore := Some (jwt.NewNumericDate notBefore);
       jwt.Issuer := "authkit-refresh";
       jwt.Audience := ["authkit-refresh"] |} in
  let token := jwt.NewWithClaims jwt.SigningMethodHS256 claims in
  mret (signed token (jwt.MarshalJSON claims)
          (Config.JWTSecret (config a))).

(** The key function of ValidateToken and RefreshToken: only an HMAC
    method gets the secret. *)
Definition keyFunc {C} (a : AuthKit) (token : jwt.Token C)
  : result error string :=
  match jwt.Method token with
  | jwt.SigningMethodHMAC _ => Ok (Config.JWTSecret (config a))
  | _ => Err ErrInvalidToken
  end.

Definition ValidateToken (a : AuthKit) (tokenString : jwt.TokenString)
  : IO (result error Claims) :=
  r ← jwt.ParseWithClaims tokenString (keyFunc a);
  match r with
  | Err _ => mret (Err ErrInvalidToken)
  | Ok token =>
      if jwt.Valid token then mret (Ok (jwt.Claims_ token))
      else mret (Err ErrInvalidToken)
  end.

Definition RefreshToken (a : AuthKit) (refreshTokenString : jwt.TokenString)
  : IO (result error TokenResponse) :=
  r ← jwt.ParseWithClaims (C := jwt.RegisteredClaims) refreshTokenString
        (keyFunc a);
  match r with
  | Err _ => mret (Err ErrInvalidToken)
  | Ok token =>
      if negb (jwt.Valid token) then mret (Err ErrInvalidToken)
      else
        let claims := jwt.Claims_ token in
        match GetUserByID a (jwt.Subject claims) with
        | Err err => mret (Err err)
        | Ok user =>
            r1 ← GenerateAccessToken a user;
            match r1 with
            | Err err => mret (Err err)
            | Ok accessToken =>
                r2 ← GenerateRefreshToken a user;
                match r2 with
                | Err err => mret (Err err)
                | Ok newRefreshToken =>
                    let duration :=
                      default 0
                        (ParseDuration (Config.TokenExpiry (config a))) in
                    let expiresIn := time.Seconds duration in
                    mret (Ok {| TokenResponse.AccessToken := accessToken;
                                TokenResponse.RefreshToken := newRefreshToken;
                                TokenResponse.TokenType := "Bearer";
                                TokenResponse.ExpiresIn := expiresIn;
                                TokenResponse.User := userToUserInfo user |})
                end
            end
        end
  end.

Definition GenerateCustomToken (a : AuthKit) (userID : string)
  (customClaims : gmap string Any) (expiry : time.Duration)
  : IO (result error jwt.TokenString) :=
  jti ← uuid.New;
  iat ← time.Now;
  exp ← time.Now;
  nbf ← time.Now;
  let claims : jwt.MapClaims :=
    {[ "jti" := VString jti;
       "user_id" := VString userID;
       "iss" := VString "authkit";
       "aud" := VString "authkit-users";
       "iat" := VInt (time.Unix iat);
       "exp" := VInt (time.Unix (time.Add exp expiry));
       "nbf" := VInt (time.Unix nbf) ]} in
  (* for key, value := range customClaims { claims[key] = value } *)
  let claims : jwt.MapClaims := customClaims ∪ claims in
  let token := jwt.NewWithClaims jwt.SigningMethodHS256 claims in
  mret (signed token (jwt.MapClaims_MarshalJSON claims)
          (Config.JWTSecret (config a))).

(** *** Login (types.go, second part) *)

Definition LoginUser (a : AuthKit) (email password : string)
  : IO (result error TokenResponse) :=
  match find_email (users a) email with
  | None => mret (Err ErrUserNotFound)
  | Some user =>
      if negb (ComparePassword a (User.Password user) password)
      then mret (Err ErrInvalidPassword)
      else
        r1 ← GenerateAccessToken a user;
        match r1 with
        | Err err => mret (Err err)
        | Ok accessToken =>
            r2 ← GenerateRefreshToken a user;
            match r2 with
            | Err err => mret (Err err)
            | Ok refreshToken =>
                let duration :=
                  default 0
                    (ParseDuration (Config.TokenExpiry (config a))) in
                let expiresIn := time.Seconds duration in
                mret (Ok {| TokenResponse.AccessToken := accessToken;
                            TokenResponse.RefreshToken := refreshToken;
                            TokenResponse.TokenType := "Bearer";
                            TokenResponse.ExpiresIn := expiresIn;
                            TokenResponse.User := userToUserInfo user |})
            end
        end
  end.


(** *** Middleware (Gin) *)

(** The three segments a string splits into, decoded: what the jwt parser
    makes of its argument before anything else. *)
Variable segments : string -> jwt.TokenString.

(** [v == s], for an [interface{}] against a string. *)
Definition holds_string (v : Local) (s : string) : bool :=
  match v with
  | LAny (VString s') => bool_decide (s' = s)
  | _ => false
  end.

(** [hasRole] and [hasPermission]: the loops that look for one string in
    a slice. *)
Definition has_role (userRole : Local) (roles : list string) : bool :=
  existsb (fun role => holds_string userRole role) roles.

Definition has_permission (permissions : list string) (permission : string)
  : bool :=
  existsb (fun perm => bool_decide (perm = permission)) permissions.

(** What the authentication middleware leaves on the context. *)
Definition set_user (claims : Claims) (keys : gmap string Local)
  : gmap string Local :=
  <["user_claims" := LClaims claims]>
  (<["user_permissions" := LAny (VStrings (Claims.Permissions claims))]>
  (<["user_role" := LAny (VString (Claims.Role claims))]>
  (<["user_email" := LAny (VString (Claims.Email claims))]>
  (<["user_id" := LAny (VString (Claims.UserID claims))]> keys)))).

Definition GinMiddleware (a : AuthKit) (authHeader : string)
  (keys : gmap string Local) : IO Decision :=
  if bool_decide (authHeader = "")
  then mret (Respond http.StatusUnauthorized "Authorization header required")
  else if negb (strings.HasPrefix authHeader "Bearer ")
  then mret (Respond http.StatusUnauthorized
               "Invalid authorization header format")
  else
    let tokenString := strings.TrimPrefix authHeader "Bearer " in
    r ← ValidateToken a (segments tokenString);
    match r with
    | Err err =>
        match err with
        | ErrTokenExpired =>
            mret (Respond http.StatusUnauthorized "Token expired")
        | _ => mret (Respond http.StatusUnauthorized "Invalid token")
        end
    | Ok claims => mret (Next (set_user claims keys))
    end.

Definition RequireRole (a : AuthKit) (role : string)
  (keys : gmap string Local) : Decision :=
  match keys !! "user_role" with
  | None => Respond http.StatusUnauthorized "User not authenticated"
  | Some userRole =>
      if negb (holds_string userRole role)
      then Respond http.StatusForbidden "Insufficient permissions"
      else Next keys
  end.

Definition RequireRoles (a : AuthKit) (roles : list string)
  (keys : gmap string Local) : Decision :=
  match keys !! "user_role" with
  | None => Respond http.StatusUnauthorized "User not authenticated"
  | Some userRole =>
      if negb (has_role userRole roles)
      then Respond http.StatusForbidden "Insufficient permissions"
      else Next keys
  end.

Definition RequirePermission (a : AuthKit) (permission : string)
  (keys : gmap string Local) : Decision :=
  match keys !! "user_permissions" with
  | None => Respond http.StatusUnauthorized "User not authenticated"
  | Some (LAny (VStrings permissions)) =>
      if negb (has_permission permissions permission)
      then Respond http.StatusForbidden "Insufficient permissions"
      else Next keys
  | Some _ =>
      Respond http.StatusInternalServerError "Invalid permissions format"
  end.

(** [None] is [(nil, false)]. *)
Definition GetUserFromGinContext (keys : gmap string Local) : option Claims :=
  match keys !! "user_claims" with
  | Some (LClaims userClaims) => Some userClaims
  | _ => None
  end.

(** *** Middleware (Fiber) *)

(** [c.Locals(key)]: nil for a key that was never set. *)
Definition Locals (keys : gmap string Local) (key : string) : Local :=
  default (LAny VNil) (keys !! key).

Definition is_nil (v : Local) : bool :=
  match v with
  | LAny VNil => true
  | _ => false
  end.

Definition FiberMiddleware (a : AuthKit) (authHeader : string)
  (keys : gmap string Local) : IO Decision :=
  if bool_decide (authHeader = "")
  then mret (Respond http.StatusUnauthorized "Authorization header required")
  else if negb (strings.HasPrefix authHeader "Bearer ")
  then mret (Respond http.StatusUnauthorized
               "Invalid authorization header format")
  else
    let tokenString := strings.TrimPrefix authHeader "Bearer " in
    r ← ValidateToken a (segments tokenString);
    match r with
    | Err err =>
        match err with
        | ErrTokenExpired =>
            mret (Respond http.StatusUnauthorized "Token expired")
        | _ => mret (Respond http.StatusUnauthorized "Invalid token")
        end
    | Ok claims => mret (Next (set_user claims keys))
    end.

Definition RequireRoleFiber (a : AuthKit) (role : string)
  (keys : gmap string Local) : Decision :=
  let userRole := Locals keys "user_role" in
  if is_nil userRole
  then Respond http.StatusUnauthorized "User not authenticated"
  else if negb (holds_string userRole role)
  then Respond http.StatusForbidden "Insufficient permissions"
  else Next keys.

Definition RequireRolesFiber (a : AuthKit) (roles : list string)
  (keys : gmap string Local) : Decision :=
  let userRole := Locals keys "user_role" in
  if is_nil userRole
  then Respond http.StatusUnauthorized "User not authenticated"
  else if negb (has_role userRole roles)
  then Respond http.StatusForbidden "Insufficient permissions"
  else Next keys.

Definition RequirePermissionFiber (a : AuthKit) (permission : string)
  (keys : gmap string Local) : Decision :=
  let userPermissions := Locals keys "user_permissions" in
  if is_nil userPermissions
  then Respond http.StatusUnauthorized "User not authenticated"
  else
    match userPermissions with
    | LAny (VStrings permissions) =>
        if negb (has_permission permissions permission)
        then Respond http.StatusForbidden "Insufficient permissions"
        else Next keys
    | _ =>
        Respond http.StatusInternalServerError "Invalid permissions format"
    end.

Definition GetUserFromFiberContext (keys : gmap string Local)
  : option Claims :=
  let claims := Locals keys "user_claims" in
  if is_nil claims then None
  else match claims with
       | LClaims userClaims => Some userClaims
       | _ => None
       end.

(** *** Handlers (Gin) *)

(** The request arrives as the framework bound it: [None] when
    [ShouldBindJSON] returned an error. *)
Definition RegisterHandler (a : AuthKit) (bound : option RegisterRequest)
  : IO (Response * AuthKit) :=
  match bound with
  | None => mret (mkResponse http.StatusBadRequest BBind, a)
  | Some req =>
      r ← RegisterUser a req;
      match r with
      | (Err err, a') =>
          let status :=
            match err with
            | ErrUserAlreadyExists => http.StatusConflict
            | _ => http.StatusBadRequest
            end in
          mret (mkResponse status (BErr err), a')
      | (Ok user, a') =>
          mret (mkResponse http.StatusCreated
                  (BUserMessage "User registered successfully" user), a')
      end
  end.

Definition LoginHandler (a : AuthKit) (bound : option LoginRequest)
  : IO Response :=
  match bound with
  | None => mret (mkResponse http.StatusBadRequest BBind)
  | Some req =>
      r ← LoginUser a (LoginRequest.Email req) (LoginRequest.Password req);
      match r with
      | Err err =>
          let status :=
            match err with
            | ErrUserNotFound => http.StatusNotFound
            | _ => http.StatusUnauthorized
            end in
          mret (mkResponse status (BErr err))
      | Ok tokenResponse =>
          mret (mkResponse http.StatusOK (BTokens tokenResponse))
      end
  end.

Definition RefreshHandler (a : AuthKit) (bound : option RefreshRequest)
  : IO Response :=
  match bound with
  | None => mret (mkResponse http.StatusBadRequest BBind)
  | Some req =>
      r ← RefreshToken a (segments (RefreshRequest.RefreshToken req));
      match r with
      | Err err =>
          let status :=
            match err with
            | ErrTokenExpired => http.StatusUnauthorized
            | _ => http.StatusUnauthorized
            end in
          mret (mkResponse status (BErr err))
      | Ok tokenResponse =>
          mret (mkResponse http.StatusOK (BTokens tokenResponse))
      end
  end.

Definition ProfileHandler (a : AuthKit) (keys : gmap string Local)
  : Response :=
  match GetUserFromGinContext keys with
  | None => mkResponse http.StatusUnauthorized
              (BError "User not found in context")
  | Some claims =>
      match GetUserByID a (Claims.UserID claims) with
      | Err _ => mkResponse http.StatusNotFound (BError "User not found")
      | Ok user => mkResponse http.StatusOK (BUser (userToUserInfo user))
      end
  end.

(** The body is a JSON object read into a [map[string]interface{}];
    [None] when it could not be bound. *)
Definition UpdateProfileHandler (a : AuthKit) (keys : gmap string Local)
  (body : option (gmap string JSON)) : IO (Response * AuthKit) :=
  match GetUserFromGinContext keys with
  | None =>
      mret (mkResponse http.StatusUnauthorized
              (BError "User not found in context"), a)
  | Some claims =>
      match body with
      | None => mret (mkResponse http.StatusBadRequest BBind, a)
      | Some object =>
          let updates : gmap string Any := unmarshal <$> object in
          let updates :=
            delete "updated_at"
              (delete "created_at"
                (delete "email" (delete "password" (delete "id" updates)))) in
          r ← UpdateUser a (Claims.UserID claims) updates;
          match r with
          | (Err err, a') =>
              mret (mkResponse http.StatusBadRequest (BErr err), a')
          | (Ok updatedUser, a') =>
              mret (mkResponse http.StatusOK
                      (BUserMessage "Profile updated successfully"
                         updatedUser), a')
          end
      end
  end.

Definition LogoutHandler (a : AuthKit) : Response :=
  mkResponse http.StatusOK (BMessage "Logged out successfully").

(** *** Handlers (Fiber) *)

Definition ProfileHandlerFiber (a : AuthKit) (keys : gmap string Local)
  : Response :=
  match GetUserFromFiberContext keys with
  | None => mkResponse http.StatusUnauthorized
              (BError "User not found in context")
  | Some claims =>
      match GetUserByID a (Claims.UserID claims) with
      | Err _ => mkResponse http.StatusNotFound (BError "User not found")
      | Ok user => mkResponse http.StatusOK (BUser (userToUserInfo user))
      end
  end.

Definition UpdateProfileHandlerFiber (a : AuthKit)
  (keys : gmap string Local) (body : option (gmap string JSON))
  : IO (Response * AuthKit) :=
  match GetUserFromFiberContext keys with
  | None =>
      mret (mkResponse http.StatusUnauthorized
              (BError "User not found in context"), a)
  | Some claims =>
      match body with
      | None => mret (mkResponse http.StatusBadRequest BBind, a)
      | Some object =>
          let updates : gmap string Any := unmarshal <$> object in
          let updates :=
            delete "updated_at"
              (delete "created_at"
                (delete "email" (delete "password" (delete "id" updates)))) in
          r ← UpdateUser a (Claims.UserID claims) updates;
          match r with
          | (Err err, a') =>
              mret (mkResponse http.StatusBadRequest (BErr err), a')
          | (Ok updatedUser, a') =>
              mret (mkResponse http.StatusOK
                      (BUserMessage "Profile updated successfully"
                         updatedUser), a')
          end
      end
  end.

(** *** The command line (internal/cli) *)

(** Every command builds its own AuthKit with [New]; the flags are its
    arguments. *)
Definition cli_auth (secretKey tokenExpiry refreshExpiry : string) : AuthKit :=
  New {| Config.JWTSecret := secretKey;
         Config.TokenExpiry := tokenExpiry;
         Config.RefreshExpiry := refreshExpiry;
         Config.BCryptCost := 12;
         Config.RateLimitRPM := 0;
         Config.EmailRequired := false |}.

Definition runUserRegister (secretKey userEmail userPassword userName
  userRole : string) : IO Outcome :=
  let auth := cli_auth secretKey "24h" "" in
  let req :=
    {| RegisterRequest.Email := userEmail;
       RegisterRequest.Password := userPassword;
       RegisterRequest.Name := userName;
       RegisterRequest.Role := userRole;
       RegisterRequest.Metadata := ∅ |} in
  r ← RegisterUser auth req;
  match r.1 with
  | Err err => mret (Exit1 err)
  | Ok user =>
      mret (Output (PRegistered (UserInfo.ID user) (UserInfo.Email user)
                      (UserInfo.Name user) (UserInfo.Role user)))
  end.

Definition runUserLogin (secretKey userEmail userPassword : string)
  : IO Outcome :=
  let auth := cli_auth secretKey "24h" "" in
  r ← LoginUser auth userEmail userPassword;
  match r with
  | Err err => mret (Exit1 err)
  | Ok tokenResponse => mret (Output (PTokens tokenResponse))
  end.

Definition runUserList (secretKey : string) : Outcome :=
  let auth := cli_auth secretKey "24h" "" in
  let users := ListUsers auth in
  Output (PUsers (length users) users).

Definition runUserDelete (secretKey userID : string) : Outcome :=
  let auth := cli_auth secretKey "24h" "" in
  match (DeleteUser auth userID).1 with
  | Some err => Exit1 err
  | None => Output (PDeleted userID)
  end.

(** Each string given with [--claims] becomes a key of its own, with the
    fixed value "custom-value". *)
Definition cli_claims (customClaims : list string) : gmap string Any :=
  foldl (fun claims claim => <[claim := VString "custom-value"]> claims)
    ∅ customClaims.

Definition runTokenGenerate (secretKey tokenUserID tokenExpiry : string)
  (customClaims : list string) : IO Outcome :=
  let auth := cli_auth secretKey tokenExpiry "" in
  match ParseDuration tokenExpiry with
  | None => mret (ExitBadDuration tokenExpiry)
  | Some duration =>
      let claims := cli_claims customClaims in
      r ← GenerateCustomToken auth tokenUserID claims duration;
      match r with
      | Err err => mret (Exit1 err)
      | Ok token =>
          mret (Output (PToken token tokenUserID tokenExpiry claims))
      end
  end.

Definition runTokenValidate (secretKey tokenString : string) : IO Outcome :=
  let auth := cli_auth secretKey "24h" "" in
  r ← ValidateToken auth (segments tokenString);
  match r with
  | Err err => mret (Reported err)
  | Ok claims => mret (Output (PClaims claims))
  end.

Definition runTokenRefresh (secretKey refreshToken : string) : IO Outcome :=
  let auth := cli_auth secretKey "24h" "7d" in
  r ← RefreshToken auth (segments refreshToken);
  match r with
  | Err err => mret (Exit1 err)
  | Ok newTokens => mret (Output (PTokens newTokens))
  end.

(** ** Properties *)

(** Email uniqueness across the live records of a directory. *)
Definition unique_emails (users : gmap string User) : Prop :=
  forall id1 id2 u1 u2,
    users !! id1 = Some u1 -> users !! id2 = Some u2 ->
    User.Email u1 = User.Email u2 -> id1 = id2.

(** The record UpdateUser stores for [user]: the four assertions in the
    order of the source, then the new time stamp. *)
Definition updated (updates : gmap string Any) (t : time.Time) (user : User)
  : User :=
  touch t
    (update_metadata updates
      (update_permissions updates
        (update_role updates (update_name updates user)))).

(** The header of every token the package issues. *)
Definition hs256_header : gmap string JSON :=
  {[ "typ" := JStr "JWT"; "alg" := JStr "HS256" ]}.

(** The instant a token string carries under a registered name, if it
    carries one. *)
Definition claim_time (tokenString : jwt.TokenString) (name : string)
  : option time.Time :=
  match tokenString with
  | jwt.Compact _ claims _ =>
      match claims !! name with
      | Some (JNum z) => Some (jwt.Time_of z)
      | _ => None
      end
  | jwt.Malformed _ => None
  end.

(** [t] lies in the validity window of the token: not before its
    not-before instant, and before its expiry. *)
Definition in_window (tokenString : jwt.TokenString) (t : time.Time) : bool :=
  match claim_time tokenString "nbf" with
  | Some nbf => nbf <=? t
  | None => true
  end
  && match claim_time tokenString "exp" with
     | Some exp => t <? exp
     | None => true
     end.

(** The minimal claim set GenerateCustomToken starts from, when called in
    the world [w]. *)
Definition required_claims (userID : string) (expiry : time.Duration)
  (w : World) : gmap string Any :=
  {[ "jti" := VString (entropy w (draws w));
     "user_id" := VString userID;
     "iss" := VString "authkit";
     "aud" := VString "authkit-users";
     "iat" := VInt (time.Unix (clock w (reads w)));
     "exp" := VInt (time.Unix (time.Add (clock w (1 + reads w)) expiry));
     "nbf" := VInt (time.Unix (clock w (2 + reads w))) ]}.

(** The string a caller's map holds under [key], or else [def]. *)
Definition string_claim (customClaims : gmap string Any) (key def : string)
  : string :=
  match customClaims !! key with
  | Some (VString s) => s
  | _ => def
  end.

(** The names under which the jwt library registers its HMAC methods. *)
Definition hmac_names : list string := ["HS256"; "HS384"; "HS512"].

(** The header names an HMAC method and the signature is the tag of that
    method under [secret]. *)
Definition signed_with (secret : string) (header : gmap string JSON)
  (sig : jwt.Signature) : bool :=
  match header !! "alg", sig with
  | Some (JStr alg), jwt.HMACTag alg' key =>
      bool_decide (alg ∈ hmac_names) && bool_decide (alg = alg')
      && bool_decide (secret = key)
  | _, _ => false
  end.

(** A value after a passage through JSON. *)
Definition normalise (v : Any) : Any := unmarshal (marshal v).

(** The token of a result that holds one. *)
Definition token_of (r : result error jwt.TokenString) : jwt.TokenString :=
  match r with
  | Ok tokenString => tokenString
  | Err _ => jwt.Malformed ""
  end.

(** The world after [n] readings of the clock and [d] random draws. *)
Definition after (n d : nat) (w : World) : World :=
  mkWorld (clock w) (n + reads w) (entropy w) (d + draws w).

(** The response RefreshToken builds for [user] in the world [w], the
    token checked. *)
Definition refreshed (a : AuthKit) (user : User) (w : World)
  : TokenResponse :=
  {| TokenResponse.AccessToken :=
       token_of (GenerateAccessToken a user (after 1 0 w)).1;
     TokenResponse.RefreshToken :=
       token_of (GenerateRefreshToken a user (after 4 1 w)).1;
     TokenResponse.TokenType := "Bearer";
     TokenResponse.ExpiresIn :=
       time.Seconds
         (default 0 (ParseDuration (Config.TokenExpiry (config a))));
     TokenResponse.User := userToUserInfo user |}.

(** The record RegisterUser stores for [req] in the world [w]: the salt
    is drawn first, then the id; the two time stamps are two readings of
    the clock. *)
Definition registered (a : AuthKit) (req : RegisterRequest) (w : World)
  : User :=
  {| User.ID := entropy w (1 + draws w)%nat;
     User.Email := RegisterRequest.Email req;
     User.Password :=
       bcrypt_hash
         (if Config.BCryptCost (config a) <? 4 then 10
          else Config.BCryptCost (config a))
         (entropy w (draws w)) (RegisterRequest.Password req);
     User.Name := RegisterRequest.Name req;
     User.Role :=
       if bool_decide (RegisterRequest.Role req = "") then "user"
       else RegisterRequest.Role req;
     User.Permissions := [];
     User.EmailVerified := negb (Config.EmailRequired (config a));
     User.CreatedAt := clock w (reads w);
     User.UpdatedAt := clock w (1 + reads w);
     User.Metadata := RegisterRequest.Metadata req |}.

(** Every record is stored under its own id. *)
Definition well_keyed (users : gmap string User) : Prop :=
  forall k u, users !! k = Some u -> User.ID u = k.

(** The member names encoding/json reads into a [jwt.RegisteredClaims],
    and into a [Claims]. *)
Definition registered_names : list string :=
  ["iss"; "sub"; "aud"; "exp"; "nbf"; "iat"; "jti"].

Definition claims_names : list string :=
  ["user_id"; "email"; "role"; "permissions"; "metadata"]
  ++ registered_names.





(** The strings a caller's map holds under [key], as a [[]string] or as
    a [[]interface{}] of strings. *)
Definition strings_claim (customClaims : gmap string Any) (key : string)
  : list string :=
  match customClaims !! key with
  | Some (VStrings l) => l
  | Some (VSlice l) =>
      omap (fun v => match v with VString s => Some s | _ => None end) l
  | _ => []
  end.

(** What a caller may put under [key] for ValidateToken to accept the
    custom token: a valid string under user_id, email and role, valid
    strings under permissions, and anything under a key that folds to no
    field of [Claims]. *)
Definition fits (key : string) (value : Any) : Prop :=
  (key ∈ ["user_id"; "email"; "role"]
   /\ exists s, value = VString s /\ utf8.ValidString s = true)
  \/ (key = "permissions"
      /\ exists l,
           (value = VStrings l \/ value = VSlice (VString <$> l))
           /\ forallb utf8.ValidString l = true)
  \/ (forall name, name ∈ claims_names -> strings.EqualFold key name = false).


(** *** The world monad *)

Lemma bind_eq {A B} (m : IO A) (k : A -> IO B) (w : World) :
  (m ≫= k) w = k (m w).1 (m w).2.
Proof.
  unfold mbind, IO_bind, bind. destruct (m w) as [x w']. reflexivity.
Qed.

Lemma ret_eq {A} (x : A) (w : World) : mret (M := IO) x w = (x, w).
Proof. reflexivity. Qed.

Ltac run := repeat (rewrite ?bind_eq, ?ret_eq; cbn [fst snd]).

(** Goals on member names: a literal name is, or is not, in a literal
    list; a name in (or out of) such a list differs from a literal one. *)
Ltac names :=
  solve
    [ by apply (bool_decide_unpack _)
    | let E := fresh in
      intros E; subst;
      match goal with
      | H : _ ∉ _ |- _ => apply H; by apply (bool_decide_unpack _)
      | H : _ ∈ _ |- _ =>
          apply (bool_decide_pack _) in H; vm_compute in H; destruct H
      end ].

(** *** Searching the directory by email *)

Lemma find_email_Some users email u :
  find_email users email = Some u ->
  exists k, users !! k = Some u /\ User.Email u = email.
Proof.
  unfold find_email. intros H.
  apply head_Some_elem_of, list_elem_of_filter in H as [He Hin].
  apply list_elem_of_fmap in Hin as [[k u'] [-> Hin]].
  apply elem_of_map_to_list in Hin. eauto.
Qed.

Lemma find_email_None users email k u :
  find_email users email = None ->
  users !! k = Some u -> User.Email u <> email.
Proof.
  unfold find_email. intros H Hu He.
  apply head_None in H.
  assert (Hin : u ∈ filter (fun u => User.Email u = email)
                       ((map_to_list users).*2)).
  { apply list_elem_of_filter. split; [done|].
    apply list_elem_of_fmap. exists (k, u). split; [done|].
    by apply elem_of_map_to_list. }
  rewrite H in Hin. by apply not_elem_of_nil in Hin.
Qed.

Lemma find_email_taken users k u :
  users !! k = Some u -> is_Some (find_email users (User.Email u)).
Proof.
  intros Hu. destruct (find_email users (User.Email u)) eqn:E; [eauto|].
  by destruct (find_email_None _ _ _ _ E Hu).
Qed.

(** *** RegisterUser *)

Lemma unique_emails_insert users k u :
  unique_emails users ->
  (forall k' u', users !! k' = Some u' -> User.Email u' <> User.Email u) ->
  unique_emails (<[k := u]> users).
Proof.
  intros Huniq Hfresh id1 id2 u1 u2 H1 H2 He.
  destruct (decide (k = id1)) as [E1|N1], (decide (k = id2)) as [E2|N2];
    simplify_map_eq; try done.
  - by destruct (Hfresh _ _ H2).
  - by destruct (Hfresh _ _ H1).
  - eauto.
Qed.

Lemma RegisterUser_unique a req w :
  unique_emails (users a) ->
  unique_emails (users (RegisterUser a req w).1.2).
Proof.
  intros Huniq. unfold RegisterUser.
  destruct (find_email (users a) (RegisterRequest.Email req)) eqn:E;
    [done|].
  run. destruct (HashPassword a (RegisterRequest.Password req) w).1; run;
    [|done].
  apply unique_emails_insert; [done|]. cbn.
  intros k' u' Hu'. eapply find_email_None; eauto.
Qed.

(** C6. A registration whose email is that of a live record fails with
    ErrUserAlreadyExists and leaves the directory (and the clock and the
    random source) as they were; and whatever the request, RegisterUser
    keeps the emails of the live records pairwise distinct. *)
Theorem RegisterUser_duplicate_email a req w k u :
  users a !! k = Some u ->
  User.Email u = RegisterRequest.Email req ->
  RegisterUser a req w = (Err ErrUserAlreadyExists, a, w)
  /\ (forall req' w', unique_emails (users a) ->
        unique_emails (users (RegisterUser a req' w').1.2)).
Proof.
  intros Hu He. split.
  - unfold RegisterUser. rewrite <- He.
    by destruct (find_email_taken _ _ _ Hu) as [u' ->].
  - intros. by apply RegisterUser_unique.
Qed.

(** *** UpdateUser *)

Lemma UpdateUser_found a userID u updates w :
  users a !! userID = Some u ->
  UpdateUser a userID updates w
  = (Ok (userToUserInfo (updated updates (now w) u)),
     mkAuthKit (config a)
       (<[userID := updated updates (now w) u]> (users a)),
     (time.Now w).2).
Proof. intros Hu. unfold UpdateUser. rewrite Hu. by run. Qed.

(** Each assertion writes its own field and no other. *)
Lemma update_name_spec updates u :
  update_name updates u
  = User.mk (User.ID u) (User.Email u) (User.Password u)
      match updates !! "name" with
      | Some (VString name) => name | _ => User.Name u end
      (User.Role u) (User.Permissions u) (User.EmailVerified u)
      (User.CreatedAt u) (User.UpdatedAt u) (User.Metadata u).
Proof.
  unfold update_name.
  destruct u, (updates !! "name") as [[]|]; reflexivity.
Qed.

Lemma update_role_spec updates u :
  update_role updates u
  = User.mk (User.ID u) (User.Email u) (User.Password u) (User.Name u)
      match updates !! "role" with
      | Some (VString role) => role | _ => User.Role u end
      (User.Permissions u) (User.EmailVerified u)
      (User.CreatedAt u) (User.UpdatedAt u) (User.Metadata u).
Proof.
  unfold update_role.
  destruct u, (updates !! "role") as [[]|]; reflexivity.
Qed.

Lemma update_permissions_spec updates u :
  update_permissions updates u
  = User.mk (User.ID u) (User.Email u) (User.Password u) (User.Name u)
      (User.Role u)
      match updates !! "permissions" with
      | Some (VStrings permissions) => permissions
      | _ => User.Permissions u end
      (User.EmailVerified u)
      (User.CreatedAt u) (User.UpdatedAt u) (User.Metadata u).
Proof.
  unfold update_permissions.
  destruct u, (updates !! "permissions") as [[]|]; reflexivity.
Qed.

Lemma update_metadata_spec updates u :
  update_metadata updates u
  = User.mk (User.ID u) (User.Email u) (User.Password u) (User.Name u)
      (User.Role u) (User.Permissions u) (User.EmailVerified u)
      (User.CreatedAt u) (User.UpdatedAt u)
      match updates !! "metadata" with
      | Some (VMap metadata) => metadata | _ => User.Metadata u end.
Proof.
  unfold update_metadata.
  destruct u, (updates !! "metadata") as [[]|]; reflexivity.
Qed.

Lemma updated_spec updates t u :
  updated updates t u
  = User.mk (User.ID u) (User.Email u) (User.Password u)
      match updates !! "name" with
      | Some (VString name) => name | _ => User.Name u end
      match updates !! "role" with
      | Some (VString role) => role | _ => User.Role u end
      match updates !! "permissions" with
      | Some (VStrings permissions) => permissions
      | _ => User.Permissions u end
      (User.EmailVerified u) (User.CreatedAt u) t
      match updates !! "metadata" with
      | Some (VMap metadata) => metadata | _ => User.Metadata u end.
Proof.
  unfold updated, touch.
  rewrite update_metadata_spec, update_permissions_spec, update_role_spec,
    update_name_spec.
  reflexivity.
Qed.

Lemma updated_frame updates t u :
  User.ID (updated updates t u) = User.ID u
  /\ User.Email (updated updates t u) = User.Email u
  /\ User.Password (updated updates t u) = User.Password u
  /\ User.EmailVerified (updated updates t u) = User.EmailVerified u
  /\ User.CreatedAt (updated updates t u) = User.CreatedAt u
  /\ User.UpdatedAt (updated updates t u) = t.
Proof. rewrite updated_spec. repeat split. Qed.

Lemma updated_fields updates t u :
  User.Name (updated updates t u)
  = match updates !! "name" with
    | Some (VString name) => name | _ => User.Name u end
  /\ User.Role (updated updates t u)
     = match updates !! "role" with
       | Some (VString role) => role | _ => User.Role u end
  /\ User.Permissions (updated updates t u)
     = match updates !! "permissions" with
       | Some (VStrings permissions) => permissions
       | _ => User.Permissions u end
  /\ User.Metadata (updated updates t u)
     = match updates !! "metadata" with
       | Some (VMap metadata) => metadata | _ => User.Metadata u end.
Proof. rewrite updated_spec. repeat split. Qed.

Lemma updated_ext updates updates' t u :
  (forall key, key ∈ ["name"; "role"; "permissions"; "metadata"] ->
     updates' !! key = updates !! key) ->
  updated updates' t u = updated updates t u.
Proof.
  intros H. rewrite !updated_spec.
  rewrite (H "name"), (H "role"), (H "permissions"), (H "metadata");
    [done|names..].
Qed.

(** C7. For a stored user and any update map, UpdateUser succeeds, stores
    in place of the record one that differs from it at most in name,
    role, permissions and metadata and in the last-updated time, which is
    the current time; the id, the email, the password hash, the
    email-verified flag and the creation time are the old ones, the other
    records are untouched, and the outcome depends on the update map only
    through the four keys: any other key is ignored, without error. *)
Theorem UpdateUser_frame a userID u updates w :
  users a !! userID = Some u ->
  exists u',
    UpdateUser a userID updates w
    = (Ok (userToUserInfo u'),
       mkAuthKit (config a) (<[userID := u']> (users a)),
       (time.Now w).2)
    /\ (User.ID u' = User.ID u
        /\ User.Email u' = User.Email u
        /\ User.Password u' = User.Password u
        /\ User.EmailVerified u' = User.EmailVerified u
        /\ User.CreatedAt u' = User.CreatedAt u
        /\ User.UpdatedAt u' = now w)
    /\ (forall updates',
          (forall key,
             key ∈ ["name"; "role"; "permissions"; "metadata"] ->
             updates' !! key = updates !! key) ->
          UpdateUser a userID updates' w = UpdateUser a userID updates w).
Proof.
  intros Hu. exists (updated updates (now w) u). split; [|split].
  - by apply UpdateUser_found.
  - apply updated_frame.
  - intros updates' H.
    rewrite !(UpdateUser_found _ _ _ _ _ Hu).
    by rewrite (updated_ext _ _ _ _ H).
Qed.

(** C10. UpdateUser replaces the permissions of a stored user exactly
    when the value under ["permissions"] has dynamic type [[]string].
    Under any other value the stored permissions stay and no error is
    returned; this is so for every value a JSON decoder produces, a
    [[]interface{}] of strings among them. *)
Theorem UpdateUser_permissions a userID u updates w :
  users a !! userID = Some u ->
  exists info u',
    (UpdateUser a userID updates w).1.1 = Ok info
    /\ users (UpdateUser a userID updates w).1.2 !! userID = Some u'
    /\ UserInfo.Permissions info = User.Permissions u'
    /\ User.Permissions u'
       = match updates !! "permissions" with
         | Some (VStrings permissions) => permissions
         | _ => User.Permissions u
         end
    /\ (forall j, updates !! "permissions" = Some (unmarshal j) ->
          User.Permissions u' = User.Permissions u)
    /\ (forall l, updates !! "permissions" = Some (VSlice (VString <$> l)) ->
          User.Permissions u' = User.Permissions u).
Proof.
  intros Hu. rewrite (UpdateUser_found _ _ _ _ _ Hu). cbn [fst snd users].
  eexists _, _. split; [done|]. split; [by rewrite lookup_insert_eq|].
  destruct (updated_fields updates (now w) u) as (_ & _ & Hp & _).
  split; [done|]. split; [done|]. split.
  - intros j Hj. rewrite Hp, Hj. by destruct j.
  - intros l Hl. by rewrite Hp, Hl.
Qed.

(** *** Token payloads *)

Lemma put_string_ne k s m k' :
  k <> k' -> jwt.put_string k s m !! k' = m !! k'.
Proof.
  intros. unfold jwt.put_string. case_bool_decide; [done|].
  by rewrite lookup_insert_ne.
Qed.

Lemma put_strings_ne k l m k' :
  k <> k' -> jwt.put_strings k l m !! k' = m !! k'.
Proof. intros. destruct l; [done|]. by apply lookup_insert_ne. Qed.

Lemma put_date_ne k d m k' :
  k <> k' -> jwt.put_date k d m !! k' = m !! k'.
Proof. intros. destruct d; [|done]. by apply lookup_insert_ne. Qed.

Lemma put_metadata_ne md m k' :
  "metadata" <> k' -> put_metadata md m !! k' = m !! k'.
Proof.
  intros. unfold put_metadata. case_bool_decide; [done|].
  by rewrite lookup_insert_ne.
Qed.

Lemma get_put_string k s m :
  m !! k = None -> jwt.get_string (jwt.put_string k s m !! k) = Some s.
Proof.
  intros Hm. unfold jwt.put_string. case_bool_decide as E.
  - by rewrite Hm, E.
  - by rewrite lookup_insert_eq.
Qed.

Lemma get_put_date k d m :
  m !! k = None -> jwt.get_date (jwt.put_date k d m !! k) = Some d.
Proof.
  intros Hm. destruct d; cbn; [by rewrite lookup_insert_eq|by rewrite Hm].
Qed.

Lemma mapM_JStr (l : list string) :
  mapM (fun j => match j with JStr s => Some s | _ => None end) (JStr <$> l)
  = Some l.
Proof. induction l as [|s l IH]; [done|]. cbn. by rewrite IH. Qed.

Lemma get_put_audience k l m :
  m !! k = None -> jwt.get_audience (jwt.put_strings k l m !! k) = Some l.
Proof.
  intros Hm. destruct l as [|s l]; cbn -[mapM]; [by rewrite Hm|].
  rewrite lookup_insert_eq. cbn -[mapM]. apply (mapM_JStr (s :: l)).
Qed.

(** Looking a member up in a payload under construction: skip the members
    written under other names. *)
Ltac skip_members :=
  repeat first
    [ rewrite lookup_insert_ne by done
    | rewrite lookup_singleton_ne by done
    | rewrite put_string_ne by done
    | rewrite put_strings_ne by done
    | rewrite put_date_ne by done
    | rewrite put_metadata_ne by done ].

Ltac member :=
  skip_members;
  first [ apply lookup_empty | apply lookup_insert_eq
        | apply lookup_singleton_eq | reflexivity ].

(** Reading the registered claims back from what was written. *)
Lemma get_put_registered c :
  jwt.get_registered (jwt.put_registered c ∅) = Some c.
Proof.
  unfold jwt.get_registered, jwt.put_registered.
  rewrite get_put_string by member. cbn [mbind option_bind].
  skip_members. rewrite get_put_string by member. cbn [mbind option_bind].
  skip_members. rewrite get_put_audience by member. cbn [mbind option_bind].
  skip_members. rewrite get_put_date by member. cbn [mbind option_bind].
  skip_members. rewrite get_put_date by member. cbn [mbind option_bind].
  skip_members. rewrite get_put_date by member. cbn [mbind option_bind].
  skip_members. rewrite get_put_string by member. cbn [mbind option_bind].
  by destruct c.
Qed.

Lemma get_registered_ext m m' :
  (forall k, k ∈ ["iss"; "sub"; "aud"; "exp"; "nbf"; "iat"; "jti"] ->
     m' !! k = m !! k) ->
  jwt.get_registered m' = jwt.get_registered m.
Proof.
  intros H. unfold jwt.get_registered.
  rewrite (H "iss"), (H "sub"), (H "aud"), (H "exp"), (H "nbf"), (H "iat"),
    (H "jti"); [done|names..].
Qed.

(** A refresh token's payload holds none of the members of [Claims]
    proper: read as [Claims], it gives the zero value for each. *)
Lemma Claims_of_registered c :
  Claims_UnmarshalJSON (jwt.put_registered c ∅)
  = Some (Claims.mk "" "" "" [] ∅ c).
Proof.
  unfold Claims_UnmarshalJSON. rewrite get_put_registered.
  unfold jwt.put_registered.
  assert (E : forall k,
    k ∉ ["iss"; "sub"; "aud"; "exp"; "nbf"; "iat"; "jti"] ->
    jwt.put_string "iss" (jwt.Issuer c)
      (jwt.put_string "sub" (jwt.Subject c)
        (jwt.put_strings "aud" (jwt.Audience c)
          (jwt.put_date "exp" (jwt.ExpiresAt c)
            (jwt.put_date "nbf" (jwt.NotBefore c)
              (jwt.put_date "iat" (jwt.IssuedAt c)
                (jwt.put_string "jti" (jwt.ID c) ∅)))))) !! k = None).
  { intros k Hk.
    rewrite !put_string_ne, put_strings_ne, !put_date_ne, put_string_ne
      by names.
    apply lookup_empty. }
  rewrite !E by names. reflexivity.
Qed.

(** An access token's payload read as [RegisteredClaims]: the other
    members are skipped. *)
Lemma registered_of_Claims c :
  jwt.get_registered (Claims_MarshalJSON c)
  = Some (Claims.RegisteredClaims c).
Proof.
  rewrite <- get_put_registered. apply get_registered_ext.
  intros k Hk. unfold Claims_MarshalJSON.
  rewrite !lookup_insert_ne, put_metadata_ne by names. done.
Qed.

(** *** Issuing tokens *)

Lemma GenerateRefreshToken_eq a user w :
  GenerateRefreshToken a user w
  = (Ok (jwt.Compact hs256_header
           (jwt.put_registered
              {| jwt.ID := entropy w (draws w);
                 jwt.Subject := User.ID user;
                 jwt.IssuedAt := Some (time.Unix (clock w (reads w)));
                 jwt.ExpiresAt :=
                   Some (time.Unix
                           (clock w (1 + reads w)
                            + match ParseDuration
                                      (Config.RefreshExpiry (config a)) with
                              | Some d => d
                              | None => 7 * 24 * time.Hour
                              end));
                 jwt.NotBefore := Some (time.Unix (clock w (2 + reads w)));
                 jwt.Issuer := "authkit-refresh";
                 jwt.Audience := ["authkit-refresh"] |} ∅)
           (jwt.HMACTag "HS256" (Config.JWTSecret (config a)))),
     after 3 1 w).
Proof. reflexivity. Qed.

Lemma GenerateAccessToken_eq a user w :
  GenerateAccessToken a user w
  = (Ok (jwt.Compact hs256_header
           (Claims_MarshalJSON
              {| Claims.UserID := User.ID user;
                 Claims.Email := User.Email user;
                 Claims.Role := User.Role user;
                 Claims.Permissions := User.Permissions user;
                 Claims.Metadata := User.Metadata user;
                 Claims.RegisteredClaims :=
                   {| jwt.ID := entropy w (draws w);
                      jwt.Subject := User.ID user;
                      jwt.IssuedAt := Some (time.Unix (clock w (reads w)));
                      jwt.ExpiresAt :=
                        Some (time.Unix
                                (clock w (1 + reads w)
                                 + match ParseDuration
                                           (Config.TokenExpiry (config a))
                                   with
                                   | Some d => d
                                   | None => 24 * time.Hour
                                   end));
                      jwt.NotBefore :=
                        Some (time.Unix (clock w (2 + reads w)));
                      jwt.Issuer := "authkit";
                      jwt.Audience := ["authkit-users"] |} |})
           (jwt.HMACTag "HS256" (Config.JWTSecret (config a)))),
     after 3 1 w).
Proof. reflexivity. Qed.

(** *** Parsing tokens signed with the secret *)

Lemma ParseWithClaims_HS256 {C} {HC : jwt.Claims C} {HD : jwt.Codec C}
    a header payload (c : C) w :
  header !! "alg" = Some (JStr "HS256") ->
  jwt.UnmarshalJSON payload = Some c ->
  jwt.ParseWithClaims
    (jwt.Compact header payload
       (jwt.HMACTag "HS256" (Config.JWTSecret (config a))))
    (keyFunc a) w
  = (if negb (jwt.verifyExpiresAt c (now w))
        || negb (jwt.verifyNotBefore c (now w))
     then Err (jwt.ErrTokenInvalidClaims
                 (negb (jwt.verifyExpiresAt c (now w)))
                 (negb (jwt.verifyNotBefore c (now w))))
     else Ok (jwt.mkToken (jwt.SigningMethodHMAC "HS256") header c true),
     after 1 0 w).
Proof.
  intros Halg Hc.
  unfold jwt.ParseWithClaims, jwt.ParseUnverified.
  rewrite Hc, Halg.
  change (jwt.GetSigningMethod "HS256")
    with (Some (jwt.SigningMethodHMAC "HS256")).
  cbn [keyFunc jwt.Method jwt.Verify jwt.Claims_ jwt.Header].
  rewrite !bool_decide_eq_true_2 by done. cbn [andb negb].
  rewrite bind_eq. unfold jwt.Validate. rewrite bind_eq. cbn [fst snd time.Now].
  fold (now w).
  destruct (negb (jwt.verifyExpiresAt c (now w))
            || negb (jwt.verifyNotBefore c (now w))); reflexivity.
Qed.

Lemma hs256_alg : hs256_header !! "alg" = Some (JStr "HS256").
Proof. reflexivity. Qed.

Lemma lookup_put_date k d m :
  m !! k = None -> jwt.put_date k d m !! k = JNum <$> d.
Proof. intros Hm. destruct d; cbn; [apply lookup_insert_eq|done]. Qed.

Lemma registered_exp c :
  jwt.put_registered c ∅ !! "exp" = JNum <$> jwt.ExpiresAt c.
Proof.
  unfold jwt.put_registered. skip_members. apply lookup_put_date. member.
Qed.

Lemma registered_nbf c :
  jwt.put_registered c ∅ !! "nbf" = JNum <$> jwt.NotBefore c.
Proof.
  unfold jwt.put_registered. skip_members. apply lookup_put_date. member.
Qed.

(** The window of a token, read from its payload, is the one the
    validator checks on the claims it decodes. *)
Lemma in_window_registered header c sig t :
  in_window (jwt.Compact header (jwt.put_registered c ∅) sig) t
  = jwt.verifyExpiresAt c t && jwt.verifyNotBefore c t.
Proof.
  unfold in_window, claim_time, jwt.verifyExpiresAt, jwt.verifyNotBefore.
  rewrite registered_exp, registered_nbf. cbn.
  unfold time.Before.
  destruct (jwt.ExpiresAt c), (jwt.NotBefore c); cbn;
    rewrite ?Z.leb_antisym, ?andb_true_r; try done; apply andb_comm.
Qed.

Lemma in_window_Claims header c sig t :
  in_window (jwt.Compact header (Claims_MarshalJSON c) sig) t
  = jwt.verifyExpiresAt (Claims.RegisteredClaims c) t
    && jwt.verifyNotBefore (Claims.RegisteredClaims c) t.
Proof.
  transitivity
    (in_window
       (jwt.Compact header
          (jwt.put_registered (Claims.RegisteredClaims c) ∅) sig) t).
  - unfold in_window, claim_time, Claims_MarshalJSON. by skip_members.
  - apply in_window_registered.
Qed.

Lemma verify_Claims (c : Claims) t :
  jwt.verifyExpiresAt c t = jwt.verifyExpiresAt (Claims.RegisteredClaims c) t
  /\ jwt.verifyNotBefore c t
     = jwt.verifyNotBefore (Claims.RegisteredClaims c) t.
Proof. split; reflexivity. Qed.

(** *** ValidateToken *)

(** ValidateToken has two outcomes only: the claims, or ErrInvalidToken. *)
Lemma ValidateToken_outcomes a tokenString w :
  (ValidateToken a tokenString w).1 = Err ErrInvalidToken
  \/ exists claims, (ValidateToken a tokenString w).1 = Ok claims.
Proof.
  unfold ValidateToken. rewrite bind_eq.
  destruct (jwt.ParseWithClaims tokenString (keyFunc a) w).1 as [token|e];
    [|by left].
  destruct (jwt.Valid token); [right; by eexists|by left].
Qed.

(** A token signed with the secret whose payload reads as [claims]:
    within its window ValidateToken returns [claims], outside of it
    ErrInvalidToken, be it too early or too late. *)
Lemma ValidateToken_signed a header payload claims w :
  header !! "alg" = Some (JStr "HS256") ->
  Claims_UnmarshalJSON payload = Some claims ->
  ValidateToken a
    (jwt.Compact header payload
       (jwt.HMACTag "HS256" (Config.JWTSecret (config a)))) w
  = (if jwt.verifyExpiresAt claims (now w)
        && jwt.verifyNotBefore claims (now w)
     then Ok claims else Err ErrInvalidToken,
     after 1 0 w).
Proof.
  intros Halg Hc. unfold ValidateToken. rewrite bind_eq.
  rewrite (ParseWithClaims_HS256 (HD := Claims_Codec)
             a header payload claims w Halg Hc).
  cbn [fst snd].
  destruct (jwt.verifyExpiresAt claims (now w)),
    (jwt.verifyNotBefore claims (now w)); reflexivity.
Qed.

Lemma ValidateToken_in_window a header payload claims w :
  header !! "alg" = Some (JStr "HS256") ->
  Claims_UnmarshalJSON payload = Some claims ->
  jwt.verifyExpiresAt (Claims.RegisteredClaims claims) (now w)
  && jwt.verifyNotBefore (Claims.RegisteredClaims claims) (now w) = true ->
  ValidateToken a
    (jwt.Compact header payload
       (jwt.HMACTag "HS256" (Config.JWTSecret (config a)))) w
  = (Ok claims, after 1 0 w).
Proof.
  intros Halg Hc Hwin. rewrite (ValidateToken_signed _ _ _ _ _ Halg Hc).
  destruct (verify_Claims claims (now w)) as [-> ->]. by rewrite Hwin.
Qed.

(** C1. ValidateToken never returns ErrTokenExpired.  Whatever the jwt
    parser refuses, for whatever reason, is answered with ErrInvalidToken;
    so is, in particular, a token that parses and whose signature
    verifies, and which the parser refuses because the current time is
    past its expiry. *)
Theorem ValidateToken_expired_is_invalid a tokenString w :
  (ValidateToken a tokenString w).1 <> Err ErrTokenExpired
  /\ (forall e,
        (jwt.ParseWithClaims (C := Claims) tokenString (keyFunc a) w).1
        = Err e ->
        (ValidateToken a tokenString w).1 = Err ErrInvalidToken)
  /\ (forall early,
        (jwt.ParseWithClaims (C := Claims) tokenString (keyFunc a) w).1
        = Err (jwt.ErrTokenInvalidClaims true early) ->
        (ValidateToken a tokenString w).1 = Err ErrInvalidToken).
Proof.
  assert (H : forall e,
    (jwt.ParseWithClaims (C := Claims) tokenString (keyFunc a) w).1
    = Err e ->
    (ValidateToken a tokenString w).1 = Err ErrInvalidToken).
  { intros e E. unfold ValidateToken. rewrite bind_eq, E. done. }
  split; [|split].
  - destruct (ValidateToken_outcomes a tokenString w) as [E|[c E]];
      by rewrite E.
  - exact H.
  - intros early. apply H.
Qed.

(** *** RefreshToken *)

Lemma RefreshToken_signed a header payload claims w :
  header !! "alg" = Some (JStr "HS256") ->
  jwt.get_registered payload = Some claims ->
  jwt.verifyExpiresAt claims (now w) && jwt.verifyNotBefore claims (now w)
  = true ->
  RefreshToken a
    (jwt.Compact header payload
       (jwt.HMACTag "HS256" (Config.JWTSecret (config a)))) w
  = match users a !! jwt.Subject claims with
    | None => (Err ErrUserNotFound, after 1 0 w)
    | Some user =>
        match (GenerateAccessToken a user (after 1 0 w)).1,
              (GenerateRefreshToken a user (after 4 1 w)).1 with
        | Ok accessToken, Ok newRefreshToken =>
            (Ok {| TokenResponse.AccessToken := accessToken;
                   TokenResponse.RefreshToken := newRefreshToken;
                   TokenResponse.TokenType := "Bearer";
                   TokenResponse.ExpiresIn :=
                     time.Seconds
                       (default 0
                          (ParseDuration (Config.TokenExpiry (config a))));
                   TokenResponse.User := userToUserInfo user |},
             after 7 2 w)
        | Err e, _ => (Err e, after 4 1 w)
        | _, Err e => (Err e, after 7 2 w)
        end
    end.
Proof.
  intros Halg Hc Hwin. apply andb_true_iff in Hwin as [He Hn].
  unfold RefreshToken. rewrite bind_eq.
  rewrite (ParseWithClaims_HS256 (HD := jwt.RegisteredClaims_Codec)
             a header payload claims w Halg Hc).
  rewrite He, Hn. cbn [negb orb fst snd jwt.Valid jwt.Claims_].
  unfold GetUserByID. destruct (users a !! jwt.Subject claims); [|done].
  rewrite bind_eq, GenerateAccessToken_eq. cbn [fst snd].
  rewrite bind_eq, GenerateRefreshToken_eq. cbn [fst snd].
  reflexivity.
Qed.

Lemma DeleteUser_removes a userID a' :
  DeleteUser a userID = (None, a') ->
  users a' !! userID = None /\ config a' = config a.
Proof.
  unfold DeleteUser. destruct (users a !! userID); [|done].
  intros [= <-]. split; [apply lookup_delete_eq|done].
Qed.

(** C5. A refresh token issued for a user, presented within its validity
    window to a directory that no longer holds the user, is refused with
    ErrUserNotFound: no token pair is returned. *)
Theorem RefreshToken_deleted_user a a' user w w' refreshToken :
  (GenerateRefreshToken a user w).1 = Ok refreshToken ->
  Config.JWTSecret (config a') = Config.JWTSecret (config a) ->
  users a' !! User.ID user = None ->
  in_window refreshToken (now w') = true ->
  (RefreshToken a' refreshToken w').1 = Err ErrUserNotFound.
Proof.
  rewrite GenerateRefreshToken_eq. cbn [fst]. intros [= <-] Hs Hu Hwin.
  rewrite in_window_registered in Hwin. rewrite <- Hs.
  rewrite (RefreshToken_signed a' _ _ _ w' hs256_alg
             (get_put_registered _) Hwin).
  cbn [jwt.Subject]. by rewrite Hu.
Qed.

(** *** The two token classes *)

(** C2, as the code has it.  The refresh token is written with the
    issuer and audience "authkit-refresh", the access token with "authkit"
    and "authkit-users"; both carry the same header and the HS256 tag
    under the configured secret.  Neither ValidateToken nor RefreshToken
    looks at issuer or audience: within its validity window a refresh
    token passes ValidateToken, which returns claims with the user's id as
    subject, the tags of a refresh token and an empty user id, email and
    role, and an access token passes RefreshToken as long as its subject
    is in the directory. *)
Theorem token_classes_not_separated
    a user stored wr wa w refreshToken accessToken :
  (GenerateRefreshToken a user wr).1 = Ok refreshToken ->
  (GenerateAccessToken a user wa).1 = Ok accessToken ->
  in_window refreshToken (now w) = true ->
  in_window accessToken (now w) = true ->
  users a !! User.ID user = Some stored ->
  (exists header refreshPayload accessPayload,
     refreshToken
     = jwt.Compact header refreshPayload
         (jwt.HMACTag "HS256" (Config.JWTSecret (config a)))
     /\ accessToken
        = jwt.Compact header accessPayload
            (jwt.HMACTag "HS256" (Config.JWTSecret (config a)))
     /\ header !! "alg" = Some (JStr "HS256")
     /\ refreshPayload !! "iss" = Some (JStr "authkit-refresh")
     /\ refreshPayload !! "aud" = Some (JArr [JStr "authkit-refresh"])
     /\ accessPayload !! "iss" = Some (JStr "authkit")
     /\ accessPayload !! "aud" = Some (JArr [JStr "authkit-users"]))
  /\ (exists claims,
        (ValidateToken a refreshToken w).1 = Ok claims
        /\ jwt.Subject (Claims.RegisteredClaims claims) = User.ID user
        /\ jwt.Issuer (Claims.RegisteredClaims claims) = "authkit-refresh"
        /\ jwt.Audience (Claims.RegisteredClaims claims)
           = ["authkit-refresh"]
        /\ Claims.UserID claims = ""
        /\ Claims.Email claims = ""
        /\ Claims.Role claims = "")
  /\ exists response,
       (RefreshToken a accessToken w).1 = Ok response
       /\ TokenResponse.User response = userToUserInfo stored.
Proof.
  rewrite GenerateRefreshToken_eq, GenerateAccessToken_eq. cbn [fst].
  intros [= <-] [= <-] Hr Ha Hu. split; [|split].
  - eexists _, _, _. split; [reflexivity|]. split; [reflexivity|].
    split; [apply hs256_alg|].
    assert (Htags : forall iss aud c m,
      jwt.Issuer c = iss -> iss <> "" -> jwt.Audience c = [aud] ->
      jwt.put_registered c m !! "iss" = Some (JStr iss)
      /\ jwt.put_registered c m !! "aud" = Some (JArr [JStr aud])).
    { intros iss aud c m <- Hiss Haud. unfold jwt.put_registered. split.
      - unfold jwt.put_string at 1.
        rewrite (bool_decide_eq_false_2 _ Hiss). apply lookup_insert_eq.
      - skip_members. rewrite Haud. apply lookup_insert_eq. }
    split; [|split; [|split]].
    + by apply (Htags "authkit-refresh" "authkit-refresh").
    + by apply (Htags "authkit-refresh" "authkit-refresh").
    + unfold Claims_MarshalJSON. skip_members.
      by apply (Htags "authkit" "authkit-users").
    + unfold Claims_MarshalJSON. skip_members.
      by apply (Htags "authkit" "authkit-users").
  - rewrite in_window_registered in Hr.
    rewrite (ValidateToken_in_window a _ _ _ w hs256_alg
               (Claims_of_registered _) Hr).
    cbn [fst].
    eexists. split; [reflexivity|]. by repeat split.
  - rewrite in_window_Claims in Ha.
    rewrite (RefreshToken_signed a _ _ _ w hs256_alg
               (registered_of_Claims _) Ha).
    cbn [Claims.RegisteredClaims jwt.Subject]. rewrite Hu.
    rewrite GenerateAccessToken_eq, GenerateRefreshToken_eq. cbn [fst].
    eexists. split; reflexivity.
Qed.

(** *** LoginUser and the reported lifetime *)

Lemma find_email_unique users k user :
  unique_emails users -> users !! k = Some user ->
  find_email users (User.Email user) = Some user.
Proof.
  intros Huniq Hu.
  destruct (find_email_taken _ _ _ Hu) as [u' E]. rewrite E.
  destruct (find_email_Some _ _ _ E) as (k' & Hu' & He).
  rewrite (Huniq _ _ _ _ Hu' Hu He) in Hu'. congruence.
Qed.

Lemma LoginUser_found a email password user w :
  find_email (users a) email = Some user ->
  ComparePassword a (User.Password user) password = true ->
  exists accessToken refreshToken,
    (GenerateAccessToken a user w).1 = Ok accessToken
    /\ (GenerateRefreshToken a user (after 3 1 w)).1 = Ok refreshToken
    /\ LoginUser a email password w
       = (Ok {| TokenResponse.AccessToken := accessToken;
                TokenResponse.RefreshToken := refreshToken;
                TokenResponse.TokenType := "Bearer";
                TokenResponse.ExpiresIn :=
                  time.Seconds
                    (default 0
                       (ParseDuration (Config.TokenExpiry (config a))));
                TokenResponse.User := userToUserInfo user |},
          after 6 2 w).
Proof.
  intros Hf Hp. unfold LoginUser. rewrite Hf, Hp. cbn [negb].
  rewrite bind_eq, GenerateAccessToken_eq. cbn [fst snd].
  rewrite bind_eq, GenerateRefreshToken_eq. cbn [fst snd].
  eexists _, _. split; [reflexivity|]. split; reflexivity.
Qed.

Lemma Unix_add_day t : time.Unix (t + 24 * time.Hour) = time.Unix t + 86400.
Proof.
  unfold time.Unix, time.Hour, time.Minute, time.Second.
  replace (24 * (60 * (60 * 1000000000))) with (86400 * 1000000000) by lia.
  by rewrite Z.div_add.
Qed.

Lemma access_exp_default a user w header payload sig :
  ParseDuration (Config.TokenExpiry (config a)) = None ->
  (GenerateAccessToken a user w).1 = Ok (jwt.Compact header payload sig) ->
  payload !! "iat" = Some (JNum (time.Unix (clock w (reads w))))
  /\ payload !! "exp"
     = Some (JNum (time.Unix (clock w (1 + reads w)) + 86400)).
Proof.
  intros Hd. rewrite GenerateAccessToken_eq, Hd. cbn [fst].
  intros [= _ <- _]. unfold Claims_MarshalJSON, jwt.put_registered.
  cbn [Claims.RegisteredClaims jwt.ExpiresAt jwt.IssuedAt jwt.put_date].
  rewrite <- Unix_add_day. split; member.
Qed.

(** C9. When the configured TokenExpiry does not parse, LoginUser, for a
    stored user whose password verifies, and RefreshToken, for a refresh
    token in its validity window whose subject is stored, both succeed and
    report ExpiresIn = 0, while the access token they return expires
    86400 seconds after the second in which it was issued. *)
Theorem unparsable_expiry_reported_as_zero a :
  ParseDuration (Config.TokenExpiry (config a)) = None ->
  (forall k user password w,
     unique_emails (users a) ->
     users a !! k = Some user ->
     ComparePassword a (User.Password user) password = true ->
     exists response header payload sig,
       (LoginUser a (User.Email user) password w).1 = Ok response
       /\ TokenResponse.ExpiresIn response = 0
       /\ TokenResponse.AccessToken response
          = jwt.Compact header payload sig
       /\ payload !! "iat" = Some (JNum (time.Unix (clock w (reads w))))
       /\ payload !! "exp"
          = Some (JNum (time.Unix (clock w (1 + reads w)) + 86400)))
  /\ (forall issuer user w0 w refreshToken,
        (GenerateRefreshToken a issuer w0).1 = Ok refreshToken ->
        users a !! User.ID issuer = Some user ->
        in_window refreshToken (now w) = true ->
        exists response header payload sig,
          (RefreshToken a refreshToken w).1 = Ok response
          /\ TokenResponse.ExpiresIn response = 0
          /\ TokenResponse.AccessToken response
             = jwt.Compact header payload sig
          /\ payload !! "iat"
             = Some (JNum (time.Unix (clock w (1 + reads w))))
          /\ payload !! "exp"
             = Some (JNum (time.Unix (clock w (2 + reads w)) + 86400))).
Proof.
  intros Hd. split.
  - intros k user password w Huniq Hu Hp.
    destruct (LoginUser_found a _ password user w
                (find_email_unique _ _ _ Huniq Hu) Hp)
      as (accessToken & refreshToken' & Ha & _ & ->).
    pose proof Ha as Ha'. rewrite GenerateAccessToken_eq in Ha'.
    cbn [fst] in Ha'. injection Ha' as Ha'.
    rewrite <- Ha' in Ha.
    destruct (access_exp_default _ _ _ _ _ _ Hd Ha) as [Hiat Hexp].
    eexists _, _, _, _. cbn [fst TokenResponse.ExpiresIn
      TokenResponse.AccessToken].
    split; [reflexivity|]. split; [by rewrite Hd|].
    split; [symmetry; exact Ha'|]. by split.
  - intros issuer user w0 w refreshToken Hr Hs Hwin.
    rewrite GenerateRefreshToken_eq in Hr. cbn [fst] in Hr.
    injection Hr as <-. rewrite in_window_registered in Hwin.
    rewrite (RefreshToken_signed a _ _ _ w hs256_alg
               (get_put_registered _) Hwin).
    cbn [jwt.Subject]. rewrite Hs.
    pose proof (GenerateAccessToken_eq a user (after 1 0 w)) as Ha.
    apply (f_equal fst) in Ha. cbn [fst] in Ha.
    destruct (access_exp_default _ _ _ _ _ _ Hd Ha) as [Hiat Hexp].
    rewrite GenerateAccessToken_eq, GenerateRefreshToken_eq. cbn [fst].
    eexists _, _, _, _. cbn [TokenResponse.ExpiresIn
      TokenResponse.AccessToken].
    split; [reflexivity|]. split; [by rewrite Hd|].
    split; [reflexivity|]. split; [exact Hiat|exact Hexp].
Qed.

(** *** What crosses the boundary *)







Lemma ListUsers_view a info :
  info ∈ ListUsers a ->
  exists k user, users a !! k = Some user /\ info = userToUserInfo user.
Proof.
  unfold ListUsers. intros H.
  apply list_elem_of_fmap in H as (user & -> & H).
  apply list_elem_of_fmap in H as ([k u] & -> & H).
  apply elem_of_map_to_list in H. eauto.
Qed.






(** *** Hashing and the cost *)

Lemma GenerateFromPassword_cost password cost w :
  Z.of_nat (String.length password) <= 72 ->
  (bcrypt.GenerateFromPassword bcrypt_hash password cost w).1
  = if 31 <? cost then Err (bcrypt.InvalidCostError cost)
    else Ok (bcrypt_hash (if cost <? 4 then 10 else cost)
               (entropy w (draws w)) password).
Proof.
  intros Hlen. unfold bcrypt.GenerateFromPassword.
  rewrite (proj2 (Z.ltb_ge _ _) Hlen).
  unfold bcrypt.newFromPassword, bcrypt.checkCost, bcrypt.MinCost,
    bcrypt.MaxCost, bcrypt.DefaultCost.
  destruct (Z.ltb_spec cost 4) as [H4|H4].
  - rewrite (proj2 (Z.ltb_ge 31 cost)) by lia. reflexivity.
  - rewrite (proj2 (Z.ltb_ge cost 4)) by lia. cbn [orb].
    destruct (31 <? cost); reflexivity.
Qed.

(** C4, as the code has it.  For a password of at most 72 bytes, hashing
    fails exactly when the cost is above 31, with bcrypt's
    InvalidCostError.  The cost 0 is replaced by 12, by HashPasswordStatic
    itself and, for HashPassword, by New; any other cost below 4 is not
    refused: bcrypt replaces it by its own default, 10. *)
Theorem hashing_cost password cost w :
  Z.of_nat (String.length password) <= 72 ->
  (HashPasswordStatic password cost w).1
  = (if 31 <? cost
     then Err (BcryptError (bcrypt.InvalidCostError cost))
     else Ok (bcrypt_hash
                (if bool_decide (cost = 0) then 12
                 else if cost <? 4 then 10 else cost)
                (entropy w (draws w)) password))
  /\ forall cfg,
       Config.BCryptCost cfg = cost ->
       (HashPassword (New cfg) password w).1
       = (HashPasswordStatic password cost w).1.
Proof.
  intros Hlen.
  assert (E : forall c,
    ((r ← bcrypt.GenerateFromPassword bcrypt_hash password c;
      match r with
      | Err err => mret (Err (BcryptError err))
      | Ok hashedBytes => mret (Ok hashedBytes)
      end) w).1
    = if 31 <? c then Err (BcryptError (bcrypt.InvalidCostError c))
      else Ok (bcrypt_hash (if c <? 4 then 10 else c)
                 (entropy w (draws w)) password)).
  { intros c. rewrite bind_eq, (GenerateFromPassword_cost _ c w Hlen).
    destruct (31 <? c); reflexivity. }
  split.
  - unfold HashPasswordStatic. rewrite E.
    case_bool_decide as H0; [subst cost|]; reflexivity.
  - intros cfg <-. unfold HashPassword, HashPasswordStatic, New.
    cbn [config Config.BCryptCost]. reflexivity.
Qed.

(** *** Custom tokens *)

Lemma GenerateCustomToken_eq a userID customClaims expiry w :
  GenerateCustomToken a userID customClaims expiry w
  = (Ok (jwt.Compact hs256_header
           (marshal <$> (customClaims ∪ required_claims userID expiry w))
           (jwt.HMACTag "HS256" (Config.JWTSecret (config a)))),
     after 3 1 w).
Proof. reflexivity. Qed.

(** The merge: the caller's value under every key the caller gives, the
    required one under the others. *)
Lemma merged_lookup (customClaims required : gmap string Any) key :
  (marshal <$> (customClaims ∪ required)) !! key
  = match customClaims !! key with
    | Some value => Some (marshal value)
    | None => marshal <$> required !! key
    end.
Proof.
  rewrite lookup_fmap, lookup_union.
  destruct (customClaims !! key), (required !! key); reflexivity.
Qed.

Lemma second_floor t :
  time.FromUnix (time.Unix t) <= t < time.FromUnix (time.Unix t) + time.Second.
Proof.
  unfold time.FromUnix, time.Unix, time.Second.
  pose proof (Z.div_mod t 1000000000 ltac:(lia)).
  pose proof (Z.mod_pos_bound t 1000000000 ltac:(lia)). lia.
Qed.

Lemma custom_payload_decodes userID customClaims expiry w :
  (forall key value,
     customClaims !! key = Some value ->
     key ∈ ["user_id"; "email"; "role"] /\ exists s, value = VString s) ->
  Claims_UnmarshalJSON
    (marshal <$> (customClaims ∪ required_claims userID expiry w))
  = Some
      {| Claims.UserID := string_claim customClaims "user_id" userID;
         Claims.Email := string_claim customClaims "email" "";
         Claims.Role := string_claim customClaims "role" "";
         Claims.Permissions := [];
         Claims.Metadata := ∅;
         Claims.RegisteredClaims :=
           {| jwt.Issuer := "authkit";
              jwt.Subject := "";
              jwt.Audience := ["authkit-users"];
              jwt.ExpiresAt :=
                Some (time.Unix (time.Add (clock w (1 + reads w)) expiry));
              jwt.NotBefore := Some (time.Unix (clock w (2 + reads w)));
              jwt.IssuedAt := Some (time.Unix (clock w (reads w)));
              jwt.ID := entropy w (draws w) |} |}.
Proof.
  intros Hc.
  assert (Hnone : forall key,
            key ∉ ["user_id"; "email"; "role"] -> customClaims !! key = None).
  { intros key Hk. destruct (customClaims !! key) eqn:E; [|done].
    by destruct (Hc _ _ E) as [Hin _]. }
  assert (Hstr : forall key (required : option JSON) def,
            jwt.get_string required = Some def ->
            jwt.get_string
              match customClaims !! key with
              | Some value => Some (marshal value)
              | None => required
              end
            = Some (string_claim customClaims key def)).
  { intros key required def Hdef. unfold string_claim.
    destruct (customClaims !! key) as [value|] eqn:E; [|done].
    by destruct (Hc _ _ E) as [_ [s ->]]. }
  unfold Claims_UnmarshalJSON, jwt.get_registered.
  rewrite !merged_lookup.
  rewrite (Hnone "permissions"), (Hnone "metadata"), (Hnone "iss"),
    (Hnone "sub"), (Hnone "aud"), (Hnone "exp"), (Hnone "nbf"),
    (Hnone "iat"), (Hnone "jti") by names.
  replace (required_claims userID expiry w !! "user_id")
    with (Some (VString userID)) by (symmetry; unfold required_claims; member).
  replace (required_claims userID expiry w !! "email")
    with (@None Any) by (symmetry; unfold required_claims; member).
  replace (required_claims userID expiry w !! "role")
    with (@None Any) by (symmetry; unfold required_claims; member).
  replace (required_claims userID expiry w !! "permissions")
    with (@None Any) by (symmetry; unfold required_claims; member).
  replace (required_claims userID expiry w !! "metadata")
    with (@None Any) by (symmetry; unfold required_claims; member).
  replace (required_claims userID expiry w !! "iss")
    with (Some (VString "authkit"))
    by (symmetry; unfold required_claims; member).
  replace (required_claims userID expiry w !! "sub")
    with (@None Any) by (symmetry; unfold required_claims; member).
  replace (required_claims userID expiry w !! "aud")
    with (Some (VString "authkit-users"))
    by (symmetry; unfold required_claims; member).
  replace (required_claims userID expiry w !! "exp")
    with (Some (VInt (time.Unix (time.Add (clock w (1 + reads w)) expiry))))
    by (symmetry; unfold required_claims; member).
  replace (required_claims userID expiry w !! "nbf")
    with (Some (VInt (time.Unix (clock w (2 + reads w)))))
    by (symmetry; unfold required_claims; member).
  replace (required_claims userID expiry w !! "iat")
    with (Some (VInt (time.Unix (clock w (reads w)))))
    by (symmetry; unfold required_claims; member).
  replace (required_claims userID expiry w !! "jti")
    with (Some (VString (entropy w (draws w))))
    by (symmetry; unfold required_claims; member).
  cbn [fmap option_fmap option_map marshal].
  rewrite (Hstr "user_id" _ userID), (Hstr "email" _ ""),
    (Hstr "role" _ "") by done.
  reflexivity.
Qed.

Lemma mapM_get_element (l : list string) :
  mapM jwt.get_element (JStr <$> l) = Some l.
Proof. induction l as [|x l IH]; [done|]. cbn. by rewrite IH. Qed.

Lemma omap_VString (l : list string) :
  omap (fun v => match v with VString s => Some s | _ => None end)
    (VString <$> l) = l.
Proof. induction l as [|x l IH]; [done|]. cbn. by rewrite IH. Qed.

Lemma EqualFold_names name :
  name ∈ claims_names -> strings.EqualFold name name = true.
Proof.
  unfold claims_names, registered_names. cbn [app]. intros H.
  repeat (apply elem_of_cons in H as [->|H]; [reflexivity|]).
  by apply elem_of_nil in H.
Qed.

(** A key that folds to no field name is none of them. *)
Lemma undeclared_ne key name :
  (forall name, name ∈ claims_names -> strings.EqualFold key name = false) ->
  name ∈ claims_names -> key <> name.
Proof.
  intros Hkey Hname ->. pose proof (Hkey _ Hname) as H.
  by rewrite (EqualFold_names _ Hname) in H.
Qed.

(** The claims decode from the members under the twelve names, whatever
    else the object holds. *)
Lemma Claims_UnmarshalJSON_ext (payload payload' : gmap string JSON) :
  (forall name, name ∈ claims_names -> payload !! name = payload' !! name) ->
  Claims_UnmarshalJSON payload = Claims_UnmarshalJSON payload'.
Proof.
  intros H. unfold Claims_UnmarshalJSON, jwt.get_registered.
  by rewrite (H "user_id"), (H "email"), (H "role"), (H "permissions"),
    (H "metadata"), (H "iss"), (H "sub"), (H "aud"), (H "exp"), (H "nbf"),
    (H "iat"), (H "jti") by names.
Qed.

Lemma ValidateToken_payload_ext a header (payload payload' : gmap string JSON)
    sig w :
  Claims_UnmarshalJSON payload = Claims_UnmarshalJSON payload' ->
  ValidateToken a (jwt.Compact header payload sig) w
  = ValidateToken a (jwt.Compact header payload' sig) w.
Proof.
  intros H. unfold ValidateToken, jwt.ParseWithClaims, jwt.ParseUnverified.
  change (jwt.UnmarshalJSON payload) with (Claims_UnmarshalJSON payload).
  change (jwt.UnmarshalJSON payload') with (Claims_UnmarshalJSON payload').
  by rewrite H.
Qed.

Lemma custom_payload_fits userID customClaims expiry w :
  (forall key value, customClaims !! key = Some value -> fits key value) ->
  Claims_UnmarshalJSON
    (marshal <$> (customClaims ∪ required_claims userID expiry w))
  = Some
      {| Claims.UserID := string_claim customClaims "user_id" userID;
         Claims.Email := string_claim customClaims "email" "";
         Claims.Role := string_claim customClaims "role" "";
         Claims.Permissions := strings_claim customClaims "permissions";
         Claims.Metadata := ∅;
         Claims.RegisteredClaims :=
           {| jwt.Issuer := "authkit";
              jwt.Subject := "";
              jwt.Audience := ["authkit-users"];
              jwt.ExpiresAt :=
                Some (time.Unix (time.Add (clock w (1 + reads w)) expiry));
              jwt.NotBefore := Some (time.Unix (clock w (2 + reads w)));
              jwt.IssuedAt := Some (time.Unix (clock w (reads w)));
              jwt.ID := entropy w (draws w) |} |}.
Proof.
  intros Hc.
  assert (Hnone : forall key,
            key ∈ claims_names ->
            key ∉ ["user_id"; "email"; "role"; "permissions"] ->
            customClaims !! key = None).
  { intros key Hname Hk. destruct (customClaims !! key) eqn:E; [|done].
    destruct (Hc _ _ E) as [[Hin _]|[[-> _]|Hu]].
    - repeat (apply elem_of_cons in Hin as [->|Hin];
              [destruct Hk; names|]).
      by apply elem_of_nil in Hin.
    - destruct Hk. names.
    - by destruct (undeclared_ne _ _ Hu Hname). }
  assert (Hstr : forall key (required : option JSON) def,
            key ∈ ["user_id"; "email"; "role"] ->
            jwt.get_string required = Some def ->
            jwt.get_string
              match customClaims !! key with
              | Some value => Some (marshal value)
              | None => required
              end
            = Some (string_claim customClaims key def)).
  { intros key required def Hk Hdef. unfold string_claim.
    destruct (customClaims !! key) as [value|] eqn:E; [|done].
    destruct (Hc _ _ E) as [[_ (s & -> & _)]|[[-> _]|Hu]]; [done| |].
    - apply (bool_decide_pack _) in Hk. vm_compute in Hk. destruct Hk.
    - destruct (undeclared_ne key key Hu); [|done].
      repeat (apply elem_of_cons in Hk as [->|Hk]; [names|]).
      by apply elem_of_nil in Hk. }
  assert (Hperm :
            jwt.get_strings
              match customClaims !! "permissions" with
              | Some value => Some (marshal value)
              | None => None
              end
            = Some (strings_claim customClaims "permissions")).
  { unfold strings_claim.
    destruct (customClaims !! "permissions") as [value|] eqn:E; [|done].
    destruct (Hc _ _ E) as [[Hin _]|[[_ (l & [-> | ->] & _)]|Hu]].
    - apply (bool_decide_pack _) in Hin. vm_compute in Hin. destruct Hin.
    - cbn [marshal jwt.get_strings]. apply mapM_get_element.
    - cbn [marshal jwt.get_strings].
      rewrite <- list_fmap_compose, omap_VString.
      apply mapM_get_element.
    - destruct (undeclared_ne "permissions" "permissions" Hu); [|done].
      names. }
  unfold Claims_UnmarshalJSON, jwt.get_registered.
  rewrite !merged_lookup.
  rewrite (Hnone "metadata"), (Hnone "iss"), (Hnone "sub"), (Hnone "aud"),
    (Hnone "exp"), (Hnone "nbf"), (Hnone "iat"), (Hnone "jti") by names.
  replace (required_claims userID expiry w !! "user_id")
    with (Some (VString userID)) by (symmetry; unfold required_claims; member).
  replace (required_claims userID expiry w !! "email")
    with (@None Any) by (symmetry; unfold required_claims; member).
  replace (required_claims userID expiry w !! "role")
    with (@None Any) by (symmetry; unfold required_claims; member).
  replace (required_claims userID expiry w !! "permissions")
    with (@None Any) by (symmetry; unfold required_claims; member).
  replace (required_claims userID expiry w !! "metadata")
    with (@None Any) by (symmetry; unfold required_claims; member).
  replace (required_claims userID expiry w !! "iss")
    with (Some (VString "authkit"))
    by (symmetry; unfold required_claims; member).
  replace (required_claims userID expiry w !! "sub")
    with (@None Any) by (symmetry; unfold required_claims; member).
  replace (required_claims userID expiry w !! "aud")
    with (Some (VString "authkit-users"))
    by (symmetry; unfold required_claims; member).
  replace (required_claims userID expiry w !! "exp")
    with (Some (VInt (time.Unix (time.Add (clock w (1 + reads w)) expiry))))
    by (symmetry; unfold required_claims; member).
  replace (required_claims userID expiry w !! "nbf")
    with (Some (VInt (time.Unix (clock w (2 + reads w)))))
    by (symmetry; unfold required_claims; member).
  replace (required_claims userID expiry w !! "iat")
    with (Some (VInt (time.Unix (clock w (reads w)))))
    by (symmetry; unfold required_claims; member).
  replace (required_claims userID expiry w !! "jti")
    with (Some (VString (entropy w (draws w))))
    by (symmetry; unfold required_claims; member).
  cbn [fmap option_fmap option_map marshal].
  rewrite (Hstr "user_id" _ userID), (Hstr "email" _ ""),
    (Hstr "role" _ "") by (done || names).
  cbn [mbind option_bind]. rewrite Hperm.
  reflexivity.
Qed.

(** C8, as the code has it.  GenerateCustomToken merges the caller's
    claims into the minimal required set, and the caller's value wins
    under every key: for a user id, keys and values that are valid UTF-8,
    the payload holds the caller's value under every key of the caller's
    and the required value under every other.  ValidateToken reads the
    token into the fixed [Claims] structure.  What the caller puts under a
    key that folds to no field of [Claims] is not returned: ValidateToken
    answers as it does to the token without that key.  When the caller's
    map holds valid strings under user_id, email and role, valid strings
    under permissions, and besides these only keys that fold to no field,
    validation at any instant from issuance up to one second before
    issuance plus expiry succeeds and returns the caller's strings, the
    role among them, and the caller's permissions. *)
Theorem custom_claims_merged a userID customClaims expiry w :
  exists header payload sig,
    (GenerateCustomToken a userID customClaims expiry w).1
    = Ok (jwt.Compact header payload sig)
    /\ (utf8.ValidString userID = true ->
        (forall key value,
           customClaims !! key = Some value ->
           utf8.ValidString key = true /\ encodable value = true) ->
        (forall key value,
           customClaims !! key = Some value ->
           payload !! key = Some (marshal value))
        /\ (forall key,
              customClaims !! key = None ->
              payload !! key
              = marshal <$> required_claims userID expiry w !! key))
    /\ (forall key value w',
          (forall name,
             name ∈ claims_names -> strings.EqualFold key name = false) ->
          ValidateToken a
            (token_of
               (GenerateCustomToken a userID (<[key := value]> customClaims)
                  expiry w).1) w'
          = ValidateToken a
              (token_of
                 (GenerateCustomToken a userID (delete key customClaims)
                    expiry w).1) w')
    /\ (forall w',
          utf8.ValidString userID = true ->
          (forall key value,
             customClaims !! key = Some value -> fits key value) ->
          clock w (2 + reads w) <= now w' ->
          now w' + time.Second <= clock w (1 + reads w) + expiry ->
          exists claims,
            (ValidateToken a (jwt.Compact header payload sig) w').1
            = Ok claims
            /\ Claims.Role claims = string_claim customClaims "role" ""
            /\ Claims.Email claims = string_claim customClaims "email" ""
            /\ Claims.UserID claims
               = string_claim customClaims "user_id" userID
            /\ Claims.Permissions claims
               = strings_claim customClaims "permissions").
Proof.
  rewrite GenerateCustomToken_eq. cbn [fst]. eexists _, _, _.
  split; [reflexivity|]. split; [|split].
  - intros _ _. split.
    + intros key value Hk. by rewrite merged_lookup, Hk.
    + intros key Hk. by rewrite merged_lookup, Hk.
  - intros key value w' Hkey.
    rewrite !GenerateCustomToken_eq. cbn [fst token_of].
    apply ValidateToken_payload_ext, Claims_UnmarshalJSON_ext.
    intros name Hname. pose proof (undeclared_ne _ _ Hkey Hname) as Hne.
    rewrite !merged_lookup.
    by rewrite lookup_insert_ne, lookup_delete_ne by done.
  - intros w' _ Hc Hnbf Hexp.
    rewrite (ValidateToken_in_window a _ _ _ w' hs256_alg
               (custom_payload_fits userID _ expiry w Hc)).
    + cbn [fst]. eexists. split; [reflexivity|]. by repeat split.
    + cbn [Claims.RegisteredClaims]. apply andb_true_iff.
      unfold jwt.verifyExpiresAt, jwt.verifyNotBefore, time.Before,
        jwt.Time_of, time.Add.
      cbn [jwt.GetExpirationTime jwt.GetNotBefore
           jwt.RegisteredClaims_Claims jwt.ExpiresAt jwt.NotBefore].
      pose proof (second_floor (clock w (1 + reads w) + expiry)).
      pose proof (second_floor (clock w (2 + reads w))).
      split; [apply Z.ltb_lt|apply negb_true_iff, Z.ltb_ge]; lia.
Qed.

(** ** Further properties *)

(** *** Which tokens are accepted *)

Lemma GetSigningMethod_hmac alg :
  alg ∈ hmac_names ->
  jwt.GetSigningMethod alg = Some (jwt.SigningMethodHMAC alg).
Proof.
  intros H. unfold jwt.GetSigningMethod.
  by rewrite bool_decide_eq_true_2.
Qed.

Lemma GetSigningMethod_other alg m :
  alg ∉ hmac_names ->
  jwt.GetSigningMethod alg = Some m ->
  forall x, m <> jwt.SigningMethodHMAC x.
Proof.
  intros H. unfold jwt.GetSigningMethod.
  rewrite (bool_decide_eq_false_2 _ H).
  repeat case_bool_decide; intros [= <-]; done.
Qed.

(** Without the tag of an HMAC method under the secret, the parser stops
    before it looks at the clock. *)
Lemma ParseWithClaims_unsigned {C} {HC : jwt.Claims C} {HD : jwt.Codec C}
    a header payload sig w :
  signed_with (Config.JWTSecret (config a)) header sig = false ->
  exists e,
    jwt.ParseWithClaims (C := C) (jwt.Compact header payload sig)
      (keyFunc a) w
    = (Err e, w).
Proof.
  intros Hs. unfold jwt.ParseWithClaims, jwt.ParseUnverified.
  destruct (jwt.UnmarshalJSON payload) as [c|]; [|by eexists].
  unfold signed_with in Hs.
  destruct (header !! "alg") as [[| | |alg| |]|]; try by eexists.
  destruct (decide (alg ∈ hmac_names)) as [Hin|Hout].
  - rewrite (GetSigningMethod_hmac _ Hin).
    rewrite (bool_decide_eq_true_2 _ Hin) in Hs. cbn [andb] in Hs.
    destruct sig as [alg' key| |]; [|by eexists..].
    cbn [keyFunc jwt.Method jwt.Verify]. rewrite Hs. by eexists.
  - destruct (jwt.GetSigningMethod alg) as [m|] eqn:E; [|by eexists].
    pose proof (GetSigningMethod_other _ _ Hout E) as Hm.
    destruct m; [by destruct (Hm alg0)|destruct sig; by eexists..].
Qed.

Lemma ParseWithClaims_signed {C} {HC : jwt.Claims C} {HD : jwt.Codec C}
    a header payload sig (c : C) w :
  signed_with (Config.JWTSecret (config a)) header sig = true ->
  jwt.UnmarshalJSON payload = Some c ->
  exists alg,
    jwt.ParseWithClaims (jwt.Compact header payload sig) (keyFunc a) w
    = (if negb (jwt.verifyExpiresAt c (now w))
          || negb (jwt.verifyNotBefore c (now w))
       then Err (jwt.ErrTokenInvalidClaims
                   (negb (jwt.verifyExpiresAt c (now w)))
                   (negb (jwt.verifyNotBefore c (now w))))
       else Ok (jwt.mkToken (jwt.SigningMethodHMAC alg) header c true),
       after 1 0 w).
Proof.
  intros Hs Hc. unfold signed_with in Hs.
  destruct (header !! "alg") as [[| | |alg| |]|] eqn:Halg; try done.
  destruct sig as [alg' key| |]; try done.
  apply andb_true_iff in Hs as [Hs Hk].
  apply andb_true_iff in Hs as [Hin He].
  apply bool_decide_eq_true_1 in Hin, He, Hk. subst alg' key.
  exists alg.
  unfold jwt.ParseWithClaims, jwt.ParseUnverified.
  rewrite Hc, Halg, (GetSigningMethod_hmac _ Hin).
  cbn [keyFunc jwt.Method jwt.Verify jwt.Claims_ jwt.Header].
  rewrite !bool_decide_eq_true_2 by done. cbn [andb negb].
  rewrite bind_eq. unfold jwt.Validate. rewrite bind_eq.
  cbn [fst snd time.Now]. fold (now w).
  destruct (negb (jwt.verifyExpiresAt c (now w))
            || negb (jwt.verifyNotBefore c (now w))); reflexivity.
Qed.

Lemma get_date_time (payload : gmap string JSON) (name : string) d :
  jwt.get_date (payload !! name) = Some d ->
  match payload !! name with
  | Some (JNum z) => Some (jwt.Time_of z)
  | _ => None
  end = jwt.Time_of <$> d.
Proof. destruct (payload !! name) as [[]|]; intros [= <-]; done. Qed.

(** The window read from the payload is the window of the claims the
    payload decodes to. *)
Lemma in_window_decoded header (payload : gmap string JSON) sig c t :
  jwt.get_registered payload = Some c ->
  in_window (jwt.Compact header payload sig) t
  = jwt.verifyExpiresAt c t && jwt.verifyNotBefore c t.
Proof.
  unfold jwt.get_registered. intros H.
  destruct (jwt.get_string (payload !! "iss")); [|done]. cbn in H.
  destruct (jwt.get_string (payload !! "sub")); [|done]. cbn in H.
  destruct (jwt.get_audience (payload !! "aud")); [|done]. cbn in H.
  destruct (jwt.get_date (payload !! "exp")) as [exp|] eqn:Hexp; [|done].
  cbn in H.
  destruct (jwt.get_date (payload !! "nbf")) as [nbf|] eqn:Hnbf; [|done].
  cbn in H.
  destruct (jwt.get_date (payload !! "iat")); [|done]. cbn in H.
  destruct (jwt.get_string (payload !! "jti")); [|done]. cbn in H.
  injection H as <-.
  unfold in_window, claim_time.
  rewrite (get_date_time _ _ _ Hexp), (get_date_time _ _ _ Hnbf).
  unfold jwt.verifyExpiresAt, jwt.verifyNotBefore, time.Before. cbn.
  destruct exp, nbf; cbn;
    rewrite ?Z.leb_antisym, ?andb_true_r; try done; apply andb_comm.
Qed.

Lemma Claims_decoded_registered (payload : gmap string JSON) claims :
  Claims_UnmarshalJSON payload = Some claims ->
  jwt.get_registered payload = Some (Claims.RegisteredClaims claims).
Proof.
  unfold Claims_UnmarshalJSON. intros H.
  destruct (jwt.get_string (payload !! "user_id")); [|done]. cbn in H.
  destruct (jwt.get_string (payload !! "email")); [|done]. cbn in H.
  destruct (jwt.get_string (payload !! "role")); [|done]. cbn in H.
  destruct (jwt.get_strings (payload !! "permissions")); [|done]. cbn in H.
  destruct (jwt.get_map (payload !! "metadata")); [|done]. cbn in H.
  destruct (jwt.get_registered payload); [|done]. cbn in H.
  by injection H as <-.
Qed.


(** *** The access token round trip *)

Lemma get_put_metadata md (m : gmap string JSON) :
  m !! "metadata" = None ->
  jwt.get_map (put_metadata md m !! "metadata") = Some (normalise <$> md).
Proof.
  intros Hm. unfold put_metadata. case_bool_decide as E.
  - rewrite Hm. apply map_size_empty_iff in E. subst md.
    by rewrite fmap_empty.
  - rewrite lookup_insert_eq. cbn. by rewrite <- map_fmap_compose.
Qed.

(** What the validator reads from the payload written for [c]: [c], with
    its metadata as JSON gives them back. *)
Lemma Claims_round_trip c :
  Claims_UnmarshalJSON (Claims_MarshalJSON c)
  = Some (Claims.mk (Claims.UserID c) (Claims.Email c) (Claims.Role c)
            (Claims.Permissions c) (normalise <$> Claims.Metadata c)
            (Claims.RegisteredClaims c)).
Proof.
  unfold Claims_UnmarshalJSON. rewrite registered_of_Claims.
  unfold Claims_MarshalJSON.
  rewrite lookup_insert_eq. cbn [jwt.get_string mbind option_bind].
  skip_members. rewrite lookup_insert_eq.
  cbn [jwt.get_string mbind option_bind].
  skip_members. rewrite lookup_insert_eq.
  cbn [jwt.get_string mbind option_bind].
  skip_members. rewrite lookup_insert_eq.
  cbn [jwt.get_strings]. rewrite mapM_get_element.
  cbn [mbind option_bind].
  skip_members. rewrite get_put_metadata.
  - reflexivity.
  - unfold jwt.put_registered. member.
Qed.

Lemma Claims_exp c :
  Claims_MarshalJSON c !! "exp"
  = JNum <$> jwt.ExpiresAt (Claims.RegisteredClaims c).
Proof.
  unfold Claims_MarshalJSON. skip_members. apply registered_exp.
Qed.

Lemma Claims_nbf c :
  Claims_MarshalJSON c !! "nbf"
  = JNum <$> jwt.NotBefore (Claims.RegisteredClaims c).
Proof.
  unfold Claims_MarshalJSON. skip_members. apply registered_nbf.
Qed.

(** ValidateToken on a token signed HS256 with the secret of another
    AuthKit that has the same secret. *)
Lemma ValidateToken_same_secret a a' header payload claims w :
  Config.JWTSecret (config a') = Config.JWTSecret (config a) ->
  header !! "alg" = Some (JStr "HS256") ->
  Claims_UnmarshalJSON payload = Some claims ->
  (ValidateToken a'
     (jwt.Compact header payload
        (jwt.HMACTag "HS256" (Config.JWTSecret (config a)))) w).1
  = if in_window
         (jwt.Compact header payload
            (jwt.HMACTag "HS256" (Config.JWTSecret (config a)))) (now w)
    then Ok claims else Err ErrInvalidToken.
Proof.
  intros Hs Halg Hc. rewrite <- Hs.
  rewrite (ValidateToken_signed a' _ _ _ w Halg Hc). cbn [fst].
  rewrite (in_window_decoded _ _ _ _ _ (Claims_decoded_registered _ _ Hc)).
  by destruct (verify_Claims claims (now w)) as [-> ->].
Qed.

(** X2. A user whose id, email, role and permissions are valid UTF-8,
    and whose metadata have valid keys, is issued an access token.
    Presented to an AuthKit with the same secret, the token is accepted at
    every instant of its window, which starts with the second of issuance
    and ends before the second of issuance plus the token lifetime, and is
    refused with ErrInvalidToken at every other instant.  The claims
    returned are the user's id, email, role and permissions as they were
    at issuance, and its metadata as JSON gives them back: a valid string
    stays the string, a [[]string] of valid strings comes back as a
    [[]interface{}], an integer as the nearest float64. *)
Theorem access_token_round_trip a user w :
  utf8.ValidString (User.ID user) = true ->
  utf8.ValidString (User.Email user) = true ->
  utf8.ValidString (User.Role user) = true ->
  forallb utf8.ValidString (User.Permissions user) = true ->
  (forall key value,
     User.Metadata user !! key = Some value ->
     utf8.ValidString key = true) ->
  exists accessToken claims,
    (GenerateAccessToken a user w).1 = Ok accessToken
    /\ (Claims.UserID claims = User.ID user
        /\ Claims.Email claims = User.Email user
        /\ Claims.Role claims = User.Role user
        /\ Claims.Permissions claims = User.Permissions user
        /\ jwt.Subject (Claims.RegisteredClaims claims) = User.ID user)
    /\ (forall key s,
          User.Metadata user !! key = Some (VString s) ->
          utf8.ValidString s = true ->
          Claims.Metadata claims !! key = Some (VString s))
    /\ (forall key l,
          User.Metadata user !! key = Some (VStrings l) ->
          l <> [] ->
          forallb utf8.ValidString l = true ->
          Claims.Metadata claims !! key = Some (VSlice (VString <$> l)))
    /\ (forall key z,
          User.Metadata user !! key = Some (VInt z) ->
          Claims.Metadata claims !! key = Some (VInt (float64.round z)))
    /\ claim_time accessToken "nbf"
       = Some (time.FromUnix (time.Unix (clock w (2 + reads w))))
    /\ claim_time accessToken "exp"
       = Some (time.FromUnix
                 (time.Unix
                    (clock w (1 + reads w)
                     + match ParseDuration (Config.TokenExpiry (config a))
                       with
                       | Some d => d
                       | None => 24 * time.Hour
                       end)))
    /\ forall a' w',
         Config.JWTSecret (config a') = Config.JWTSecret (config a) ->
         (ValidateToken a' accessToken w').1
         = if in_window accessToken (now w') then Ok claims
           else Err ErrInvalidToken.
Proof.
  intros _ _ _ _ _. rewrite GenerateAccessToken_eq. cbn [fst].
  eexists _, _. split; [reflexivity|].
  split; [|split; [|split; [|split; [|split; [|split]]]]]; cycle 6.
  - intros a' w' Hs.
    apply (ValidateToken_same_secret a a' _ _ _ w' Hs hs256_alg
             (Claims_round_trip _)).
  - by repeat split.
  - intros key s H _. cbn [Claims.Metadata]. by rewrite lookup_fmap, H.
  - intros key l H _ _. cbn [Claims.Metadata]. rewrite lookup_fmap, H.
    cbn. unfold normalise. cbn. by rewrite <- list_fmap_compose.
  - intros key z H. cbn [Claims.Metadata]. by rewrite lookup_fmap, H.
  - unfold claim_time. by rewrite Claims_nbf.
  - unfold claim_time. by rewrite Claims_exp.
Qed.

(** *** Tokens and the directory *)

Lemma ValidateToken_secret a a' tokenString w :
  Config.JWTSecret (config a') = Config.JWTSecret (config a) ->
  ValidateToken a' tokenString w = ValidateToken a tokenString w.
Proof. intros Hs. unfold ValidateToken, keyFunc. by rewrite Hs. Qed.

Lemma RegisterUser_config a req w :
  config (RegisterUser a req w).1.2 = config a.
Proof.
  unfold RegisterUser.
  destruct (find_email (users a) (RegisterRequest.Email req)); [done|].
  run. by destruct (HashPassword a (RegisterRequest.Password req) w).1; run.
Qed.

Lemma UpdateUser_config a userID updates w :
  config (UpdateUser a userID updates w).1.2 = config a.
Proof. unfold UpdateUser. by destruct (users a !! userID); run. Qed.

Lemma DeleteUser_config a userID : config (DeleteUser a userID).2 = config a.
Proof. unfold DeleteUser. by destruct (users a !! userID). Qed.

(** X3. ValidateToken never consults the directory: whatever it answers
    to a token string, it answers the same after any registration, update
    or deletion, the deletion of the token's own user and a change of its
    role included. *)
Theorem ValidateToken_ignores_directory a tokenString w :
  (forall req w0,
     ValidateToken (RegisterUser a req w0).1.2 tokenString w
     = ValidateToken a tokenString w)
  /\ (forall userID updates w0,
        ValidateToken (UpdateUser a userID updates w0).1.2 tokenString w
        = ValidateToken a tokenString w)
  /\ (forall userID,
        ValidateToken (DeleteUser a userID).2 tokenString w
        = ValidateToken a tokenString w).
Proof.
  split; [|split]; intros; apply ValidateToken_secret.
  - by rewrite RegisterUser_config.
  - by rewrite UpdateUser_config.
  - by rewrite DeleteUser_config.
Qed.

(** *** What RefreshToken answers *)


Lemma RefreshToken_eq a tokenString w :
  (RefreshToken a tokenString w).1
  = match tokenString with
    | jwt.Malformed _ => Err ErrInvalidToken
    | jwt.Compact header payload sig =>
        match jwt.get_registered payload with
        | None => Err ErrInvalidToken
        | Some claims =>
            if signed_with (Config.JWTSecret (config a)) header sig
               && in_window tokenString (now w)
            then match users a !! jwt.Subject claims with
                 | None => Err ErrUserNotFound
                 | Some user => Ok (refreshed a user w)
                 end
            else Err ErrInvalidToken
        end
    end.
Proof.
  destruct tokenString as [raw|header payload sig]; [done|].
  destruct (signed_with (Config.JWTSecret (config a)) header sig) eqn:Hs.
  - destruct (jwt.get_registered payload) as [claims|] eqn:Hc.
    + cbn [andb]. rewrite (in_window_decoded _ _ _ _ _ Hc).
      unfold RefreshToken. rewrite bind_eq.
      destruct (ParseWithClaims_signed (HD := jwt.RegisteredClaims_Codec)
                  a header payload sig claims w Hs Hc) as [alg ->].
      cbn [fst snd].
      destruct (jwt.verifyExpiresAt claims (now w)),
        (jwt.verifyNotBefore claims (now w)); try done.
      cbn [negb orb andb jwt.Valid jwt.Claims_]. unfold GetUserByID.
      destruct (users a !! jwt.Subject claims); [|done].
      rewrite bind_eq, GenerateAccessToken_eq. cbn [fst snd].
      rewrite bind_eq, GenerateRefreshToken_eq. cbn [fst snd].
      reflexivity.
    + unfold RefreshToken. rewrite bind_eq.
      unfold jwt.ParseWithClaims, jwt.ParseUnverified.
      change (jwt.UnmarshalJSON payload) with (jwt.get_registered payload).
      by rewrite Hc.
  - unfold RefreshToken. rewrite bind_eq.
    destruct (ParseWithClaims_unsigned (HD := jwt.RegisteredClaims_Codec)
                a header payload sig w Hs) as [e ->].
    cbn [andb fst]. by destruct (jwt.get_registered payload).
Qed.


(** *** From login to refresh *)

Lemma access_token_claims a user w :
  exists claims,
    (Claims.UserID claims = User.ID user
     /\ Claims.Email claims = User.Email user
     /\ Claims.Role claims = User.Role user
     /\ Claims.Permissions claims = User.Permissions user)
    /\ forall a' w',
         Config.JWTSecret (config a') = Config.JWTSecret (config a) ->
         (ValidateToken a'
            (token_of (GenerateAccessToken a user w).1) w').1
         = if in_window (token_of (GenerateAccessToken a user w).1)
                (now w')
           then Ok claims else Err ErrInvalidToken.
Proof.
  rewrite GenerateAccessToken_eq. cbn [fst token_of].
  eexists. split; cycle 1.
  - intros a' w' Hs.
    apply (ValidateToken_same_secret a a' _ _ _ w' Hs hs256_alg
             (Claims_round_trip _)).
  - by repeat split.
Qed.

Lemma LoginUser_inv a email password w login :
  (LoginUser a email password w).1 = Ok login ->
  exists user,
    find_email (users a) email = Some user
    /\ ComparePassword a (User.Password user) password = true
    /\ TokenResponse.AccessToken login
       = token_of (GenerateAccessToken a user w).1
    /\ TokenResponse.RefreshToken login
       = token_of (GenerateRefreshToken a user (after 3 1 w)).1
    /\ TokenResponse.User login = userToUserInfo user.
Proof.
  unfold LoginUser.
  destruct (find_email (users a) email) as [user|]; [|done].
  destruct (ComparePassword a (User.Password user) password) eqn:Hp;
    [|done].
  cbn [negb]. rewrite bind_eq, GenerateAccessToken_eq. cbn [fst snd].
  rewrite bind_eq, GenerateRefreshToken_eq. cbn [fst snd].
  intros [= <-]. exists user. repeat split; done || reflexivity.
Qed.

(** X5. The refresh token LoginUser hands out is accepted by RefreshToken
    at every instant of its window, as long as the directory holds a
    record under the user's id, the id being valid UTF-8.  The answer
    carries the public view of the record the directory holds then, and,
    when the id, email, role and permissions of that record are valid
    UTF-8, its access token validates to them: a change made by UpdateUser
    since the login shows after the refresh. *)
Theorem refresh_after_login a a' email password w0 login current w :
  (LoginUser a email password w0).1 = Ok login ->
  Config.JWTSecret (config a') = Config.JWTSecret (config a) ->
  users a' !! UserInfo.ID (TokenResponse.User login) = Some current ->
  in_window (TokenResponse.RefreshToken login) (now w) = true ->
  utf8.ValidString (UserInfo.ID (TokenResponse.User login)) = true ->
  utf8.ValidString (User.ID current) = true ->
  utf8.ValidString (User.Email current) = true ->
  utf8.ValidString (User.Role current) = true ->
  forallb utf8.ValidString (User.Permissions current) = true ->
  exists response claims,
    (RefreshToken a' (TokenResponse.RefreshToken login) w).1 = Ok response
    /\ TokenResponse.User response = userToUserInfo current
    /\ (Claims.UserID claims = User.ID current
        /\ Claims.Email claims = User.Email current
        /\ Claims.Role claims = User.Role current
        /\ Claims.Permissions claims = User.Permissions current)
    /\ forall w',
         in_window (TokenResponse.AccessToken response) (now w') = true ->
         (ValidateToken a' (TokenResponse.AccessToken response) w').1
         = Ok claims.
Proof.
  intros Hl Hs Hu Hwin _ _ _ _ _.
  destruct (LoginUser_inv _ _ _ _ _ Hl) as (user & _ & _ & _ & Hr & Hi).
  rewrite Hi in Hu. cbn [userToUserInfo UserInfo.ID] in Hu.
  rewrite Hr in Hwin |- *. rewrite GenerateRefreshToken_eq in Hwin |- *.
  cbn [fst token_of] in Hwin |- *.
  rewrite in_window_registered in Hwin. rewrite <- Hs.
  rewrite (RefreshToken_signed a' _ _ _ w hs256_alg
             (get_put_registered _) Hwin).
  cbn [jwt.Subject]. rewrite Hu.
  destruct (access_token_claims a' current (after 1 0 w))
    as (claims & Hfields & Hv).
  pose proof (GenerateAccessToken_eq a' current (after 1 0 w)) as Ha.
  apply (f_equal fst) in Ha. cbn [fst] in Ha.
  rewrite Ha in Hv |- *. cbn [token_of] in Hv.
  rewrite GenerateRefreshToken_eq. cbn [fst].
  eexists _, claims. split; [reflexivity|].
  cbn [TokenResponse.User TokenResponse.AccessToken].
  split; [reflexivity|]. split; [exact Hfields|].
  intros w' Hw'. by rewrite (Hv a' w' eq_refl), Hw'.
Qed.

(** *** Registration and login *)

Lemma find_email_absent users email :
  (forall k u, users !! k = Some u -> User.Email u <> email) ->
  find_email users email = None.
Proof.
  intros H. destruct (find_email users email) as [u|] eqn:E; [|done].
  destruct (find_email_Some _ _ _ E) as (k & Hu & He).
  by destruct (H _ _ Hu).
Qed.

Lemma HashPassword_ok a password w :
  Z.of_nat (String.length password) <= 72 ->
  Config.BCryptCost (config a) <= 31 ->
  HashPassword a password w
  = (Ok (bcrypt_hash
           (if Config.BCryptCost (config a) <? 4 then 10
            else Config.BCryptCost (config a))
           (entropy w (draws w)) password),
     after 0 1 w).
Proof.
  intros Hlen Hcost. unfold HashPassword. rewrite bind_eq.
  unfold bcrypt.GenerateFromPassword.
  rewrite (proj2 (Z.ltb_ge _ _) Hlen).
  unfold bcrypt.newFromPassword, bcrypt.checkCost, bcrypt.MinCost,
    bcrypt.MaxCost, bcrypt.DefaultCost.
  destruct (Z.ltb_spec (Config.BCryptCost (config a)) 4) as [H4|H4].
  - reflexivity.
  - rewrite (proj2 (Z.ltb_ge _ 4)) by lia.
    rewrite (proj2 (Z.ltb_ge 31 _)) by lia. reflexivity.
Qed.

Lemma RegisterUser_fresh a req w :
  (forall k u,
     users a !! k = Some u -> User.Email u <> RegisterRequest.Email req) ->
  Z.of_nat (String.length (RegisterRequest.Password req)) <= 72 ->
  Config.BCryptCost (config a) <= 31 ->
  RegisterUser a req w
  = (Ok (userToUserInfo (registered a req w)),
     mkAuthKit (config a)
       (<[entropy w (1 + draws w)%nat := registered a req w]> (users a)),
     after 2 2 w).
Proof.
  intros Hfree Hlen Hcost. unfold RegisterUser.
  rewrite (find_email_absent _ _ Hfree), bind_eq.
  rewrite (HashPassword_ok _ _ _ Hlen Hcost). reflexivity.
Qed.

(** X6. A registration under an email that no record has, with a password
    of at most 72 bytes and a configured cost of at most 31, succeeds.  It
    draws a salt and then an id from the random source and stores, under
    that id, a record with the email, name and metadata of the request,
    the role of the request or "user" when it names none, no permission,
    the email marked verified unless verification is required, and the
    bcrypt hash of the password; it returns the public view of that
    record and leaves every other record as it was. *)
Theorem RegisterUser_succeeds a req w :
  (forall k u,
     users a !! k = Some u -> User.Email u <> RegisterRequest.Email req) ->
  Z.of_nat (String.length (RegisterRequest.Password req)) <= 72 ->
  Config.BCryptCost (config a) <= 31 ->
  exists user,
    RegisterUser a req w
    = (Ok (userToUserInfo user),
       mkAuthKit (config a) (<[User.ID user := user]> (users a)),
       after 2 2 w)
    /\ User.ID user = entropy w (1 + draws w)%nat
    /\ User.Email user = RegisterRequest.Email req
    /\ User.Name user = RegisterRequest.Name req
    /\ User.Metadata user = RegisterRequest.Metadata req
    /\ User.Role user
       = (if bool_decide (RegisterRequest.Role req = "") then "user"
          else RegisterRequest.Role req)
    /\ User.Permissions user = []
    /\ User.EmailVerified user = negb (Config.EmailRequired (config a))
    /\ User.Password user
       = bcrypt_hash
           (if Config.BCryptCost (config a) <? 4 then 10
            else Config.BCryptCost (config a))
           (entropy w (draws w)) (RegisterRequest.Password req)
    /\ User.CreatedAt user = clock w (reads w)
    /\ User.UpdatedAt user = clock w (1 + reads w)
    /\ (forall k,
          k <> User.ID user ->
          users (RegisterUser a req w).1.2 !! k = users a !! k).
Proof.
  intros Hfree Hlen Hcost. exists (registered a req w).
  rewrite (RegisterUser_fresh _ _ _ Hfree Hlen Hcost).
  split; [reflexivity|]. repeat split.
  intros k Hk. cbn [fst snd users]. by rewrite lookup_insert_ne.
Qed.

(** X7. After such a registration into a directory whose emails are
    pairwise distinct, and with a bcrypt hash from which the cost and the
    salt read back, LoginUser with the email and the password of the
    request succeeds, and the user it returns is the one the registration
    returned. *)
Theorem login_after_register a req w w' :
  unique_emails (users a) ->
  (forall k u,
     users a !! k = Some u -> User.Email u <> RegisterRequest.Email req) ->
  Z.of_nat (String.length (RegisterRequest.Password req)) <= 72 ->
  Config.BCryptCost (config a) <= 31 ->
  bcrypt_newFromHash (User.Password (registered a req w))
  = Ok (if Config.BCryptCost (config a) <? 4 then 10
        else Config.BCryptCost (config a),
        entropy w (draws w)) ->
  exists info login,
    (RegisterUser a req w).1.1 = Ok info
    /\ (LoginUser (RegisterUser a req w).1.2 (RegisterRequest.Email req)
          (RegisterRequest.Password req) w').1
       = Ok login
    /\ TokenResponse.User login = info
    /\ TokenResponse.TokenType login = "Bearer".
Proof.
  intros Huniq Hfree Hlen Hcost Hread.
  pose proof (RegisterUser_unique a req w Huniq) as Huniq'.
  rewrite (RegisterUser_fresh _ _ _ Hfree Hlen Hcost) in Huniq' |- *.
  cbn [fst snd users] in Huniq' |- *.
  set (a' := mkAuthKit (config a)
               (<[entropy w (1 + draws w)%nat := registered a req w]>
                  (users a))).
  assert (Hf : find_email (users a') (RegisterRequest.Email req)
               = Some (registered a req w)).
  { apply (find_email_unique (users a') (entropy w (1 + draws w)%nat)
             (registered a req w) Huniq').
    apply lookup_insert_eq. }
  assert (Hp : ComparePassword a'
                 (User.Password (registered a req w))
                 (RegisterRequest.Password req) = true).
  { unfold ComparePassword, bcrypt.CompareHashAndPassword.
    rewrite Hread. cbn [registered User.Password].
    by rewrite String.eqb_refl. }
  destruct (LoginUser_found a' _ _ _ w' Hf Hp)
    as (accessToken & refreshToken & _ & _ & ->).
  eexists _, _. split; [reflexivity|]. by repeat split.
Qed.

(** X8. LoginUser tells an unknown email from a wrong password, and the
    login handler passes the difference on: with no record under the
    email the answer is ErrUserNotFound and status 404; with the record
    under the email (the emails being pairwise distinct) and a password
    its hash does not verify, ErrInvalidPassword and status 401; with a
    password it verifies, status 200 and the tokens with the public view
    of the record.  A failed login reads neither the clock nor the random
    source, and LoginUser returns no other error. *)
Theorem login_outcomes a email password w :
  ((forall k u, users a !! k = Some u -> User.Email u <> email) ->
   LoginUser a email password w = (Err ErrUserNotFound, w)
   /\ LoginHandler a (Some (LoginRequest.mk email password)) w
      = (mkResponse http.StatusNotFound (BErr ErrUserNotFound), w))
  /\ (forall k u,
        unique_emails (users a) -> users a !! k = Some u ->
        User.Email u = email ->
        ComparePassword a (User.Password u) password = false ->
        LoginUser a email password w = (Err ErrInvalidPassword, w)
        /\ LoginHandler a (Some (LoginRequest.mk email password)) w
           = (mkResponse http.StatusUnauthorized (BErr ErrInvalidPassword),
              w))
  /\ (forall k u,
        unique_emails (users a) -> users a !! k = Some u ->
        User.Email u = email ->
        ComparePassword a (User.Password u) password = true ->
        exists login,
          LoginUser a email password w = (Ok login, after 6 2 w)
          /\ TokenResponse.User login = userToUserInfo u
          /\ LoginHandler a (Some (LoginRequest.mk email password)) w
             = (mkResponse http.StatusOK (BTokens login), after 6 2 w))
  /\ (forall e,
        (LoginUser a email password w).1 = Err e ->
        e = ErrUserNotFound \/ e = ErrInvalidPassword).
Proof.
  split; [|split; [|split]].
  - intros Hfree.
    assert (E : LoginUser a email password w = (Err ErrUserNotFound, w)).
    { unfold LoginUser. by rewrite (find_email_absent _ _ Hfree). }
    split; [exact E|].
    unfold LoginHandler. cbn [LoginRequest.Email LoginRequest.Password].
    by rewrite bind_eq, E.
  - intros k u Huniq Hu <- Hp.
    assert (E : LoginUser a (User.Email u) password w
                = (Err ErrInvalidPassword, w)).
    { unfold LoginUser.
      by rewrite (find_email_unique _ _ _ Huniq Hu), Hp. }
    split; [exact E|].
    unfold LoginHandler. cbn [LoginRequest.Email LoginRequest.Password].
    by rewrite bind_eq, E.
  - intros k u Huniq Hu <- Hp.
    destruct (LoginUser_found a _ password u w
                (find_email_unique _ _ _ Huniq Hu) Hp)
      as (accessToken & refreshToken & _ & _ & E).
    eexists. split; [exact E|]. split; [reflexivity|].
    unfold LoginHandler. cbn [LoginRequest.Email LoginRequest.Password].
    by rewrite bind_eq, E.
  - intros e. unfold LoginUser.
    destruct (find_email (users a) email) as [user|];
      [|intros [= <-]; by left].
    destruct (ComparePassword a (User.Password user) password);
      [|intros [= <-]; by right].
    cbn [negb]. rewrite bind_eq, GenerateAccessToken_eq. cbn [fst snd].
    by rewrite bind_eq, GenerateRefreshToken_eq.
Qed.

(** *** The directory *)

Lemma unique_emails_delete users k :
  unique_emails users -> unique_emails (delete k users).
Proof.
  intros Huniq k1 k2 u1 u2 H1 H2.
  apply lookup_delete_Some in H1 as [_ H1].
  apply lookup_delete_Some in H2 as [_ H2]. eauto.
Qed.

Lemma unique_emails_update users k u u' :
  unique_emails users -> users !! k = Some u ->
  User.Email u' = User.Email u ->
  unique_emails (<[k := u']> users).
Proof.
  intros Huniq Hu He k1 k2 u1 u2 H1 H2 E.
  destruct (decide (k = k1)) as [E1|N1], (decide (k = k2)) as [E2|N2];
    simplify_map_eq; try done.
  - rewrite He in E. eauto.
  - rewrite He in E. eauto.
  - eauto.
Qed.

Lemma ListUsers_length a : length (ListUsers a) = size (users a).
Proof. unfold ListUsers. by rewrite !length_fmap, length_map_to_list. Qed.

(** X9. DeleteUser of a stored id removes the record under that id and
    no other, and keeps the configuration: afterwards GetUserByID and a
    second DeleteUser of the id answer ErrUserNotFound, every other id is
    found as before, and ListUsers is shorter by one.  DeleteUser of an id
    that is not stored answers ErrUserNotFound and changes nothing. *)
Theorem DeleteUser_effect a userID :
  match users a !! userID with
  | Some _ =>
      (DeleteUser a userID).1 = None
      /\ config (DeleteUser a userID).2 = config a
      /\ GetUserByID (DeleteUser a userID).2 userID = Err ErrUserNotFound
      /\ DeleteUser (DeleteUser a userID).2 userID
         = (Some ErrUserNotFound, (DeleteUser a userID).2)
      /\ (forall k, k <> userID ->
            GetUserByID (DeleteUser a userID).2 k = GetUserByID a k)
      /\ S (length (ListUsers (DeleteUser a userID).2))
         = length (ListUsers a)
  | None => DeleteUser a userID = (Some ErrUserNotFound, a)
  end.
Proof.
  destruct (users a !! userID) as [u|] eqn:Hu.
  - assert (E : DeleteUser a userID
                = (None, mkAuthKit (config a) (delete userID (users a)))).
    { unfold DeleteUser. by rewrite Hu. }
    rewrite E. cbn [fst snd]. split; [done|]. split; [done|].
    split; [|split; [|split]].
    + unfold GetUserByID. cbn [users]. by rewrite lookup_delete_eq.
    + unfold DeleteUser at 1. cbn [users]. by rewrite lookup_delete_eq.
    + intros k Hk. unfold GetUserByID. cbn [users].
      by rewrite lookup_delete_ne.
    + rewrite !ListUsers_length. cbn [users].
      rewrite <- (insert_delete_id (users a) userID u Hu) at 2.
      by rewrite map_size_insert_None by apply lookup_delete_eq.
  - unfold DeleteUser. by rewrite Hu.
Qed.

(** X10. In a directory whose emails are pairwise distinct, the email of a
    stored user is taken, so that a registration under it is refused, and
    free again once the user is deleted: the same registration, with a
    password of at most 72 bytes and a configured cost of at most 31, then
    succeeds. *)
Theorem register_after_delete a userID u req w :
  unique_emails (users a) ->
  users a !! userID = Some u ->
  RegisterRequest.Email req = User.Email u ->
  Z.of_nat (String.length (RegisterRequest.Password req)) <= 72 ->
  Config.BCryptCost (config a) <= 31 ->
  (RegisterUser a req w).1.1 = Err ErrUserAlreadyExists
  /\ exists info,
       (RegisterUser (DeleteUser a userID).2 req w).1.1 = Ok info
       /\ UserInfo.Email info = User.Email u.
Proof.
  intros Huniq Hu He Hlen Hcost. split.
  - unfold RegisterUser. rewrite He.
    by destruct (find_email_taken _ _ _ Hu) as [u' ->].
  - assert (E : (DeleteUser a userID).2
                = mkAuthKit (config a) (delete userID (users a))).
    { unfold DeleteUser. by rewrite Hu. }
    rewrite E.
    rewrite RegisterUser_fresh; [| |done..].
    + cbn [fst]. eexists. split; [reflexivity|]. by rewrite <- He.
    + cbn [users]. intros k u' Hu' He'.
      apply lookup_delete_Some in Hu' as [Hk Hu'].
      rewrite He in He'. by destruct Hk as []; eapply Huniq.
Qed.

(** X11. ListUsers returns one public view per record of the directory,
    and nothing else: a view is listed exactly when it is the view of a
    stored record, and the list is as long as the directory is large. *)
Theorem ListUsers_exact a :
  (forall info,
     info ∈ ListUsers a <->
     exists k user, users a !! k = Some user /\ info = userToUserInfo user)
  /\ length (ListUsers a) = size (users a).
Proof.
  split; [|apply ListUsers_length].
  intros info. split; [apply ListUsers_view|].
  intros (k & user & Hu & ->). unfold ListUsers.
  apply list_elem_of_fmap. exists user. split; [done|].
  apply list_elem_of_fmap. exists (k, user). split; [done|].
  by apply elem_of_map_to_list.
Qed.

Lemma updated_email updates t u :
  User.Email (updated updates t u) = User.Email u.
Proof. by rewrite updated_spec. Qed.

Lemma updated_ID updates t u : User.ID (updated updates t u) = User.ID u.
Proof. by rewrite updated_spec. Qed.

(** X12. The directory keeps two invariants: every record is stored under
    its own id, and no two records have the same email.  Both hold of the
    empty directory New starts with, and RegisterUser, UpdateUser and
    DeleteUser preserve them, whether they succeed or fail. *)
Theorem directory_invariants :
  (forall cfg,
     well_keyed (users (New cfg)) /\ unique_emails (users (New cfg)))
  /\ (forall a req w,
        well_keyed (users a) /\ unique_emails (users a) ->
        well_keyed (users (RegisterUser a req w).1.2)
        /\ unique_emails (users (RegisterUser a req w).1.2))
  /\ (forall a userID updates w,
        well_keyed (users a) /\ unique_emails (users a) ->
        well_keyed (users (UpdateUser a userID updates w).1.2)
        /\ unique_emails (users (UpdateUser a userID updates w).1.2))
  /\ (forall a userID,
        well_keyed (users a) /\ unique_emails (users a) ->
        well_keyed (users (DeleteUser a userID).2)
        /\ unique_emails (users (DeleteUser a userID).2)).
Proof.
  split; [|split; [|split]].
  - intros cfg. split; intros ? *; cbn [New users];
      by rewrite lookup_empty.
  - intros a req w [Hk Hu]. split; [|by apply RegisterUser_unique].
    unfold RegisterUser.
    destruct (find_email (users a) (RegisterRequest.Email req)); [done|].
    run.
    destruct (HashPassword a (RegisterRequest.Password req) w).1; run;
      [|done].
    cbn [users]. intros k u H.
    apply lookup_insert_Some in H as [[<- <-]|[_ H]]; [done|eauto].
  - intros a userID updates w [Hk Hu].
    destruct (users a !! userID) as [u|] eqn:E.
    + rewrite (UpdateUser_found _ _ _ _ _ E). cbn [fst snd users]. split.
      * intros k u' H.
        apply lookup_insert_Some in H as [[<- <-]|[_ H]]; [|eauto].
        rewrite updated_ID. eauto.
      * eapply unique_emails_update; [done..|apply updated_email].
    + unfold UpdateUser. by rewrite E.
  - intros a userID [Hk Hu]. unfold DeleteUser.
    destruct (users a !! userID); [|done]. cbn [snd users]. split.
    + intros k u' H. apply lookup_delete_Some in H as [_ H]. eauto.
    + by apply unique_emails_delete.
Qed.

(** *** The middleware *)

Lemma substring_all s : String.substring 0 (String.length s) s = s.
Proof. induction s as [|c s IH]; [done|]. cbn. by rewrite IH. Qed.

Lemma append_cons c p t : String c p +:+ t = String c (p +:+ t).
Proof. reflexivity. Qed.

Lemma prefix_append p t : String.prefix p (p +:+ t) = true.
Proof.
  induction p as [|c p IH]; [by destruct t|].
  rewrite append_cons. cbn. by destruct (ascii_dec c c).
Qed.

Lemma substring_append p t :
  String.substring (String.length p)
    (String.length (p +:+ t) - String.length p) (p +:+ t) = t.
Proof.
  induction p as [|c p IH].
  - change ("" +:+ t) with t. cbn. by rewrite Nat.sub_0_r, substring_all.
  - rewrite append_cons. cbn. exact IH.
Qed.

Lemma prefix_substring p s :
  String.prefix p s = true ->
  s = p +:+ String.substring (String.length p)
              (String.length s - String.length p) s.
Proof.
  revert s. induction p as [|c p IH]; intros s H.
  - change ("" +:+ ?x) with x. cbn. by rewrite Nat.sub_0_r, substring_all.
  - destruct s as [|c' s]; [done|]. rewrite append_cons. cbn in H |- *.
    destruct (ascii_dec c c') as [->|]; [|done]. f_equal. by apply IH.
Qed.

Lemma TrimPrefix_append p t : strings.TrimPrefix (p +:+ t) p = t.
Proof.
  unfold strings.TrimPrefix. rewrite prefix_append. apply substring_append.
Qed.

Lemma HasPrefix_TrimPrefix s p :
  strings.HasPrefix s p = true -> s = p +:+ strings.TrimPrefix s p.
Proof.
  unfold strings.HasPrefix, strings.TrimPrefix. intros H. rewrite H.
  by apply prefix_substring.
Qed.

(** X13. The authentication middleware lets a request through exactly when
    its Authorization header is "Bearer " followed by a string that
    ValidateToken accepts, and then leaves the claims of that token on the
    context.  Every other request is answered 401, with one of three
    messages: "Token expired" is never among them.  The Fiber middleware
    decides as the Gin one does. *)
Theorem GinMiddleware_decisions a authHeader keys w :
  (forall keys',
     (GinMiddleware a authHeader keys w).1 = Next keys' <->
     exists tokenString claims,
       authHeader = "Bearer " +:+ tokenString
       /\ (ValidateToken a (segments tokenString) w).1 = Ok claims
       /\ keys' = set_user claims keys)
  /\ (forall status message,
        (GinMiddleware a authHeader keys w).1 = Respond status message ->
        status = http.StatusUnauthorized
        /\ (message = "Authorization header required" <-> authHeader = "")
        /\ message ∈ ["Authorization header required";
                      "Invalid authorization header format";
                      "Invalid token"])
  /\ FiberMiddleware a authHeader keys w = GinMiddleware a authHeader keys w.
Proof.
  split; [|split; [|reflexivity]].
  - intros keys'. split.
    + unfold GinMiddleware. case_bool_decide as He; [done|].
      destruct (strings.HasPrefix authHeader "Bearer ") eqn:Hp; [|done].
      cbn [negb]. rewrite bind_eq.
      destruct (ValidateToken a _ w).1 as [claims|err] eqn:Hv.
      * intros [= <-].
        exists (strings.TrimPrefix authHeader "Bearer "), claims.
        split; [by apply HasPrefix_TrimPrefix|done].
      * by destruct err.
    + intros (tokenString & claims & -> & Hv & ->).
      unfold GinMiddleware. rewrite bool_decide_eq_false_2 by done.
      unfold strings.HasPrefix.
      rewrite prefix_append, TrimPrefix_append. cbn [negb].
      by rewrite bind_eq, Hv.
  - intros status message. unfold GinMiddleware.
    case_bool_decide as He.
    { intros [= <- <-]. split; [done|]. split; [done|]. names. }
    destruct (strings.HasPrefix authHeader "Bearer ") eqn:Hp; cbn [negb].
    2:{ intros [= <- <-]. split; [done|]. split; [done|]. names. }
    rewrite bind_eq.
    destruct (ValidateToken_outcomes a
                (segments (strings.TrimPrefix authHeader "Bearer ")) w)
      as [E|[c E]]; rewrite E; [|done].
    intros [= <- <-]. split; [done|]. split; [done|]. names.
Qed.

(** *** Roles and permissions after the middleware *)

Lemma has_role_string role roles :
  has_role (LAny (VString role)) roles = bool_decide (role ∈ roles).
Proof.
  unfold has_role. induction roles as [|r roles IH]; cbn [existsb].
  - by rewrite bool_decide_eq_false_2 by apply not_elem_of_nil.
  - rewrite IH. cbn [holds_string].
    destruct (decide (role = r)) as [->|N].
    + rewrite (bool_decide_eq_true_2 (r = r)) by done.
      by rewrite (bool_decide_eq_true_2 (r ∈ r :: roles))
        by apply list_elem_of_here.
    + rewrite (bool_decide_eq_false_2 (role = r)) by done. cbn [orb].
      apply bool_decide_ext. rewrite elem_of_cons.
      split; [by right|by intros [?|?]].
Qed.

Lemma has_permission_elem permissions permission :
  has_permission permissions permission
  = bool_decide (permission ∈ permissions).
Proof.
  unfold has_permission.
  induction permissions as [|p permissions IH]; cbn [existsb].
  - by rewrite bool_decide_eq_false_2 by apply not_elem_of_nil.
  - rewrite IH. destruct (decide (p = permission)) as [->|N].
    + rewrite (bool_decide_eq_true_2 (permission = permission)) by done.
      by rewrite (bool_decide_eq_true_2 (permission ∈ permission :: _))
        by apply list_elem_of_here.
    + rewrite (bool_decide_eq_false_2 (p = permission)) by done. cbn [orb].
      apply bool_decide_ext. rewrite elem_of_cons.
      split; [by right|by intros [?|?]].
Qed.

Lemma set_user_claims claims keys :
  set_user claims keys !! "user_claims" = Some (LClaims claims).
Proof. unfold set_user. apply lookup_insert_eq. Qed.

Lemma set_user_role claims keys :
  set_user claims keys !! "user_role"
  = Some (LAny (VString (Claims.Role claims))).
Proof.
  unfold set_user. rewrite !lookup_insert_ne by done.
  apply lookup_insert_eq.
Qed.

Lemma set_user_permissions claims keys :
  set_user claims keys !! "user_permissions"
  = Some (LAny (VStrings (Claims.Permissions claims))).
Proof.
  unfold set_user. rewrite lookup_insert_ne by done.
  apply lookup_insert_eq.
Qed.

(** X14. On the context the authentication middleware leaves for a token
    with [claims], GetUserFromGinContext finds these claims; RequireRole
    lets the request through exactly when the role of the claims is the
    required one, RequireRoles when it is one of the listed ones, and
    RequirePermission when the permission is among those of the claims;
    each answers 403 otherwise.  The checks read the token, not the
    directory.  On every context RequireRole of a role decides as
    RequireRoles of that role alone. *)
Theorem checks_after_middleware a claims keys :
  GetUserFromGinContext (set_user claims keys) = Some claims
  /\ (forall role,
        RequireRole a role (set_user claims keys)
        = if bool_decide (Claims.Role claims = role)
          then Next (set_user claims keys)
          else Respond http.StatusForbidden "Insufficient permissions")
  /\ (forall roles,
        RequireRoles a roles (set_user claims keys)
        = if bool_decide (Claims.Role claims ∈ roles)
          then Next (set_user claims keys)
          else Respond http.StatusForbidden "Insufficient permissions")
  /\ (forall permission,
        RequirePermission a permission (set_user claims keys)
        = if bool_decide (permission ∈ Claims.Permissions claims)
          then Next (set_user claims keys)
          else Respond http.StatusForbidden "Insufficient permissions")
  /\ (forall a' role context,
        RequireRole a' role context = RequireRoles a' [role] context).
Proof.
  split; [|split; [|split; [|split]]].
  - unfold GetUserFromGinContext. by rewrite set_user_claims.
  - intros role. unfold RequireRole. rewrite set_user_role.
    cbn [holds_string]. by case_bool_decide.
  - intros roles. unfold RequireRoles.
    rewrite set_user_role, has_role_string. by case_bool_decide.
  - intros permission. unfold RequirePermission.
    rewrite set_user_permissions, has_permission_elem.
    by case_bool_decide.
  - intros a' role context. unfold RequireRole, RequireRoles, has_role.
    destruct (context !! "user_role"); [|done].
    cbn [existsb]. by rewrite orb_false_r.
Qed.

(** *** Gin and Fiber *)

(** X15. The Fiber adapters read the context with [c.Locals], which
    answers nil for a missing key, where the Gin ones use [c.Get], which
    tells a missing key from a nil value.  The claims found on a context,
    and with them the profile handlers, are the same on both sides, on
    every context.  The role and permission checks decide alike exactly
    when the context does not hold nil under the key they read; when it
    does, Fiber answers 401 where Gin answers 403 for a role and 500 for
    a permission. *)
Theorem gin_and_fiber a keys :
  GetUserFromFiberContext keys = GetUserFromGinContext keys
  /\ ProfileHandlerFiber a keys = ProfileHandler a keys
  /\ (forall body,
        UpdateProfileHandlerFiber a keys body
        = UpdateProfileHandler a keys body)
  /\ (forall role,
        RequireRoleFiber a role keys = RequireRole a role keys <->
        keys !! "user_role" <> Some (LAny VNil))
  /\ (forall roles,
        RequireRolesFiber a roles keys = RequireRoles a roles keys <->
        keys !! "user_role" <> Some (LAny VNil))
  /\ (forall permission,
        RequirePermissionFiber a permission keys
        = RequirePermission a permission keys <->
        keys !! "user_permissions" <> Some (LAny VNil))
  /\ (forall role permission,
        (keys !! "user_role" = Some (LAny VNil) ->
         RequireRoleFiber a role keys
         = Respond http.StatusUnauthorized "User not authenticated"
         /\ RequireRole a role keys
            = Respond http.StatusForbidden "Insufficient permissions")
        /\ (keys !! "user_permissions" = Some (LAny VNil) ->
            RequirePermissionFiber a permission keys
            = Respond http.StatusUnauthorized "User not authenticated"
            /\ RequirePermission a permission keys
               = Respond http.StatusInternalServerError
                   "Invalid permissions format")).
Proof.
  assert (Hc : GetUserFromFiberContext keys = GetUserFromGinContext keys).
  { unfold GetUserFromFiberContext, GetUserFromGinContext, Locals.
    by destruct (keys !! "user_claims") as [[[]|]|]. }
  split; [exact Hc|].
  split; [unfold ProfileHandlerFiber, ProfileHandler; by rewrite Hc|].
  split.
  { intros body.
    unfold UpdateProfileHandlerFiber, UpdateProfileHandler.
    by rewrite Hc. }
  split; [|split; [|split]].
  - intros role. unfold RequireRoleFiber, RequireRole, Locals.
    destruct (keys !! "user_role") as [[[]|]|]; cbn;
      try (split; [done|reflexivity]).
    + split; [done|]. by intros [].
  - intros roles. unfold RequireRolesFiber, RequireRoles, Locals.
    destruct (keys !! "user_role") as [[[]|]|]; cbn -[has_role];
      try (split; [done|reflexivity]).
    + replace (has_role (LAny VNil) roles) with false
        by (unfold has_role; induction roles; cbn; [done|by f_equal]).
      split; [done|]. by intros [].
  - intros permission.
    unfold RequirePermissionFiber, RequirePermission, Locals.
    destruct (keys !! "user_permissions") as [[[]|]|]; cbn;
      try (split; [done|reflexivity]).
    + split; [done|]. by intros [].
  - intros role permission. split; intros H.
    + unfold RequireRoleFiber, RequireRole, Locals. by rewrite H.
    + unfold RequirePermissionFiber, RequirePermission, Locals.
      by rewrite H.
Qed.

(** *** The profile of a deleted user *)

(** X16. A user is stored under its id and holds an access token.  After
    DeleteUser of that id the middleware still lets the token through, at
    every instant of its window, with the claims of the deleted user on
    the context; the profile handler, which answered 200 and the public
    view of the record before, then answers 404. *)
Theorem profile_of_deleted_user a k user raw keys w w' :
  users a !! k = Some user ->
  User.ID user = k ->
  (GenerateAccessToken a user w).1 = Ok (segments raw) ->
  in_window (segments raw) (now w') = true ->
  exists claims,
    Claims.UserID claims = k
    /\ (GinMiddleware a ("Bearer " +:+ raw) keys w').1
       = Next (set_user claims keys)
    /\ (GinMiddleware (DeleteUser a k).2 ("Bearer " +:+ raw) keys w').1
       = Next (set_user claims keys)
    /\ ProfileHandler a (set_user claims keys)
       = mkResponse http.StatusOK (BUser (userToUserInfo user))
    /\ ProfileHandler (DeleteUser a k).2 (set_user claims keys)
       = mkResponse http.StatusNotFound (BError "User not found").
Proof.
  intros Hu Hk Ht Hw.
  destruct (access_token_claims a user w) as (claims & (Hid & _) & Hv).
  rewrite Ht in Hv. cbn [token_of] in Hv.
  assert (Hm : forall a',
    Config.JWTSecret (config a') = Config.JWTSecret (config a) ->
    (GinMiddleware a' ("Bearer " +:+ raw) keys w').1
    = Next (set_user claims keys)).
  { intros a' Hs. unfold GinMiddleware.
    rewrite bool_decide_eq_false_2 by done.
    unfold strings.HasPrefix.
    rewrite prefix_append, TrimPrefix_append. cbn [negb].
    by rewrite bind_eq, (Hv a' w' Hs), Hw. }
  exists claims. split; [by rewrite Hid|].
  split; [by apply Hm|].
  split; [apply Hm; by rewrite DeleteUser_config|].
  unfold ProfileHandler, GetUserFromGinContext.
  rewrite set_user_claims, Hid, Hk. unfold GetUserByID, DeleteUser.
  rewrite Hu. cbn [snd users]. by rewrite lookup_delete_eq.
Qed.

(** *** The handlers *)

Lemma profile_updates_lookup (object : gmap string JSON) key :
  key ∈ ["name"; "role"; "permissions"; "metadata"] ->
  delete "updated_at"
    (delete "created_at"
      (delete "email"
        (delete "password" (delete "id" (unmarshal <$> object))))) !! key
  = unmarshal <$> object !! key.
Proof.
  intros H. rewrite !lookup_delete_ne by names. apply lookup_fmap.
Qed.

Lemma unmarshal_string (o : option JSON) def :
  match unmarshal <$> o with Some (VString s) => s | _ => def end
  = match o with Some (JStr s) => s | _ => def end.
Proof. by destruct o as [[]|]. Qed.

Lemma unmarshal_strings (o : option JSON) (def : list string) :
  match unmarshal <$> o with Some (VStrings l) => l | _ => def end = def.
Proof. by destruct o as [[]|]. Qed.

Lemma unmarshal_map (o : option JSON) def :
  match unmarshal <$> o with Some (VMap m) => m | _ => def end
  = match o with Some (JObj m) => unmarshal <$> m | _ => def end.
Proof. by destruct o as [[]|]. Qed.

(** X17. UpdateProfileHandler, for a request with claims on its context
    and, as body, a JSON object that binds: its numbers are in the range
    of float64.  When the directory has no record under the
    id of the claims the answer is 400 and nothing changes.  Otherwise the
    answer is 200 with the public view of the record now stored under that
    id: its name and role are those of the body where the body gives a
    JSON string for them, a role the user picks for itself included, and
    its metadata those of the body where it gives an object, its numbers
    as float64 holds them; its
    permissions never change, a JSON array not being a [[]string]; id,
    email, password hash, verification mark and creation time stay.
    Removing the five protected members from the body changes nothing:
    UpdateUser on the body as it came does the same. *)
Theorem UpdateProfileHandler_effect a keys claims object w :
  GetUserFromGinContext keys = Some claims ->
  decodable (JObj object) = true ->
  match users a !! Claims.UserID claims with
  | None =>
      UpdateProfileHandler a keys (Some object) w
      = (mkResponse http.StatusBadRequest (BErr ErrUserNotFound), a, w)
  | Some user =>
      exists user',
        UpdateProfileHandler a keys (Some object) w
        = (mkResponse http.StatusOK
             (BUserMessage "Profile updated successfully"
                (userToUserInfo user')),
           mkAuthKit (config a)
             (<[Claims.UserID claims := user']> (users a)),
           (time.Now w).2)
        /\ (User.ID user' = User.ID user
            /\ User.Email user' = User.Email user
            /\ User.Password user' = User.Password user
            /\ User.EmailVerified user' = User.EmailVerified user
            /\ User.CreatedAt user' = User.CreatedAt user)
        /\ User.UpdatedAt user' = now w
        /\ User.Permissions user' = User.Permissions user
        /\ User.Name user'
           = match object !! "name" with
             | Some (JStr name) => name
             | _ => User.Name user
             end
        /\ User.Role user'
           = match object !! "role" with
             | Some (JStr role) => role
             | _ => User.Role user
             end
        /\ User.Metadata user'
           = match object !! "metadata" with
             | Some (JObj metadata) => unmarshal <$> metadata
             | _ => User.Metadata user
             end
        /\ UpdateUser a (Claims.UserID claims) (unmarshal <$> object) w
           = (Ok (userToUserInfo user'),
              mkAuthKit (config a)
                (<[Claims.UserID claims := user']> (users a)),
              (time.Now w).2)
  end.
Proof.
  intros Hc _. unfold UpdateProfileHandler. rewrite Hc.
  destruct (users a !! Claims.UserID claims) as [user|] eqn:Hu.
  - rewrite bind_eq, !(UpdateUser_found _ _ _ _ _ Hu). cbn [fst snd].
    rewrite (updated_ext (unmarshal <$> object))
      by (intros key Hk; by rewrite profile_updates_lookup, lookup_fmap).
    eexists. split; [reflexivity|].
    rewrite updated_spec.
    cbn [User.ID User.Email User.Password User.Name User.Role
         User.Permissions User.EmailVerified User.CreatedAt User.UpdatedAt
         User.Metadata].
    rewrite !lookup_fmap.
    split; [by repeat split|]. split; [done|].
    split; [apply unmarshal_strings|].
    split; [apply unmarshal_string|].
    split; [apply unmarshal_string|].
    split; [apply unmarshal_map|]. reflexivity.
  - unfold UpdateUser. rewrite bind_eq, Hu. reflexivity.
Qed.

Lemma RegisterUser_cases a req w :
  (is_Some (find_email (users a) (RegisterRequest.Email req))
   /\ RegisterUser a req w = (Err ErrUserAlreadyExists, a, w))
  \/ (find_email (users a) (RegisterRequest.Email req) = None
      /\ exists e, RegisterUser a req w = (Err (BcryptError e), a, w))
  \/ (find_email (users a) (RegisterRequest.Email req) = None
      /\ exists info a' w', RegisterUser a req w = (Ok info, a', w')).
Proof.
  unfold RegisterUser.
  destruct (find_email (users a) (RegisterRequest.Email req)) as [u|];
    [left; by eauto|right].
  rewrite bind_eq. unfold HashPassword. rewrite bind_eq.
  unfold bcrypt.GenerateFromPassword.
  destruct (72 <? Z.of_nat (String.length (RegisterRequest.Password req))).
  { left. split; [done|]. by eexists. }
  unfold bcrypt.newFromPassword.
  destruct (bcrypt.checkCost _) as [e|].
  { left. split; [done|]. by eexists. }
  right. split; [done|]. by eexists _, _, _.
Qed.

(** X18. RegisterHandler answers 201, 409 or 400: 409 exactly when a
    record already has the email of the request, 201 exactly when
    RegisterUser succeeds, and 400 for a body that does not bind and for a
    password bcrypt refuses.  Unless it answers 201 it leaves the
    directory, the clock and the random source as they were. *)
Theorem RegisterHandler_statuses a bound w :
  Status (RegisterHandler a bound w).1.1
    ∈ [http.StatusCreated; http.StatusConflict; http.StatusBadRequest]
  /\ (Status (RegisterHandler a bound w).1.1 = http.StatusConflict <->
      exists req,
        bound = Some req
        /\ is_Some (find_email (users a) (RegisterRequest.Email req)))
  /\ (Status (RegisterHandler a bound w).1.1 = http.StatusCreated <->
      exists req info,
        bound = Some req
        /\ (RegisterUser a req w).1.1 = Ok info
        /\ Payload (RegisterHandler a bound w).1.1
           = BUserMessage "User registered successfully" info)
  /\ (Status (RegisterHandler a bound w).1.1 <> http.StatusCreated ->
      (RegisterHandler a bound w).1.2 = a
      /\ (RegisterHandler a bound w).2 = w).
Proof.
  destruct bound as [req|]; cycle 1.
  { cbn. split; [names|]. split; [|split]; try done.
    - split; [done|]. by intros (req & [=] & _).
    - split; [done|]. by intros (req & info & [=] & _). }
  unfold RegisterHandler. rewrite bind_eq.
  destruct (RegisterUser_cases a req w)
    as [[Hf E]|[[Hf [e E]]|[Hf (info & a' & w' & E)]]]; rewrite E; cbn.
  - split; [names|]. split; [|split]; try done.
    + split; [by eauto|done].
    + split; [done|]. by intros (req' & info & _ & _ & [=]).
  - split; [names|]. split; [|split]; try done.
    + split; [done|]. intros (req' & [= <-] & Hs).
      rewrite Hf in Hs. by destruct Hs.
    + split; [done|]. by intros (req' & info & _ & _ & [=]).
  - split; [names|]. split; [|split]; try done.
    + split; [done|]. intros (req' & [= <-] & Hs).
      rewrite Hf in Hs. by destruct Hs.
    + split; [|done]. intros _. exists req, info. by rewrite E.
Qed.

Lemma RefreshToken_errors a tokenString w e :
  (RefreshToken a tokenString w).1 = Err e ->
  e = ErrInvalidToken \/ e = ErrUserNotFound.
Proof.
  rewrite RefreshToken_eq.
  destruct tokenString as [raw|header payload sig];
    [intros [= <-]; by left|].
  destruct (jwt.get_registered payload) as [claims|];
    [|intros [= <-]; by left].
  destruct (signed_with _ _ _ && in_window _ _);
    [|intros [= <-]; by left].
  destruct (users a !! jwt.Subject claims); [done|].
  intros [= <-]. by right.
Qed.

(** X19. RefreshHandler answers 200, 400 or 401: 400 exactly when the body
    does not bind, 200 with the new tokens exactly when RefreshToken
    succeeds, and 401 otherwise, with ErrInvalidToken or ErrUserNotFound
    as the error.  A refresh for a deleted user is a 401, and no answer
    says that the token has expired. *)
Theorem RefreshHandler_statuses a bound w :
  Status (RefreshHandler a bound w).1
    ∈ [http.StatusOK; http.StatusBadRequest; http.StatusUnauthorized]
  /\ (Status (RefreshHandler a bound w).1 = http.StatusBadRequest <->
      bound = None)
  /\ (Status (RefreshHandler a bound w).1 = http.StatusOK <->
      exists req tokens,
        bound = Some req
        /\ (RefreshToken a (segments (RefreshRequest.RefreshToken req)) w).1
           = Ok tokens
        /\ Payload (RefreshHandler a bound w).1 = BTokens tokens)
  /\ (Status (RefreshHandler a bound w).1 = http.StatusUnauthorized ->
      Payload (RefreshHandler a bound w).1 = BErr ErrInvalidToken
      \/ Payload (RefreshHandler a bound w).1 = BErr ErrUserNotFound).
Proof.
  destruct bound as [req|]; cycle 1.
  { cbn. split; [names|]. split; [done|]. split; [|done].
    split; [done|]. by intros (req & tokens & [=] & _). }
  unfold RefreshHandler. rewrite bind_eq.
  destruct (RefreshToken a _ w).1 as [tokens|e] eqn:E; cbn.
  - split; [names|]. split; [done|]. split; [|done].
    split; [|done]. intros _. exists req, tokens. by rewrite E.
  - assert (Hst : Status
                    (mkResponse
                       match e with
                       | ErrTokenExpired => http.StatusUnauthorized
                       | _ => http.StatusUnauthorized
                       end (BErr e)) = http.StatusUnauthorized)
      by by destruct e.
    cbn in Hst. rewrite Hst.
    split; [names|]. split; [done|]. split.
    + split; [done|]. intros (req' & tokens & [= <-] & E' & _).
      by rewrite E in E'.
    + intros _. destruct (RefreshToken_errors _ _ _ _ E) as [-> | ->];
        [by left|by right].
Qed.

(** *** The directory by email *)

(** X20. GetUserByEmail returns a record of the directory that has the
    email, and ErrUserNotFound exactly when no record has it.  In a
    directory whose emails are pairwise distinct it returns the record
    GetUserByID returns for the id of the user with that email. *)
Theorem GetUserByEmail_exact a email :
  (forall user,
     GetUserByEmail a email = Ok user ->
     exists k, users a !! k = Some user /\ User.Email user = email)
  /\ (GetUserByEmail a email = Err ErrUserNotFound <->
      forall k u, users a !! k = Some u -> User.Email u <> email)
  /\ (forall e, GetUserByEmail a email = Err e -> e = ErrUserNotFound)
  /\ (unique_emails (users a) ->
      forall k user,
        users a !! k = Some user -> User.Email user = email ->
        GetUserByEmail a email = Ok user /\ GetUserByID a k = Ok user).
Proof.
  unfold GetUserByEmail. split; [|split; [|split]].
  - intros user.
    destruct (find_email (users a) email) as [u|] eqn:E; [|done].
    intros [= <-]. by apply find_email_Some.
  - split.
    + destruct (find_email (users a) email) as [u|] eqn:E; [done|].
      intros _ k u. by apply find_email_None.
    + intros H. by rewrite (find_email_absent _ _ H).
  - intros e. destruct (find_email (users a) email); [done|].
    by intros [= <-].
  - intros Huniq k user Hu <-.
    rewrite (find_email_unique _ _ _ Huniq Hu).
    unfold GetUserByID. by rewrite Hu.
Qed.

(** *** The command line *)

Lemma cli_find_email secretKey tokenExpiry refreshExpiry email :
  find_email (users (cli_auth secretKey tokenExpiry refreshExpiry)) email
  = None.
Proof.
  apply find_email_absent. intros k u. cbn [cli_auth New users].
  by rewrite lookup_empty.
Qed.

(** X21. Every command of the command line builds a directory of its own,
    which is empty and lost when the command ends.  So, whatever was
    registered before: user login fails with ErrUserNotFound, user delete
    fails with ErrUserNotFound, user list prints no user, and token
    refresh never prints tokens: it fails with ErrInvalidToken, or with
    ErrUserNotFound for a token that is valid. *)
Theorem cli_directory_is_empty secretKey :
  (forall userEmail userPassword w,
     runUserLogin secretKey userEmail userPassword w
     = (Exit1 ErrUserNotFound, w))
  /\ (forall userID, runUserDelete secretKey userID = Exit1 ErrUserNotFound)
  /\ runUserList secretKey = Output (PUsers 0 [])
  /\ (forall refreshToken w,
        (runTokenRefresh secretKey refreshToken w).1 = Exit1 ErrInvalidToken
        \/ (runTokenRefresh secretKey refreshToken w).1
           = Exit1 ErrUserNotFound).
Proof.
  split; [|split; [|split]].
  - intros userEmail userPassword w. unfold runUserLogin.
    rewrite bind_eq. unfold LoginUser. by rewrite cli_find_email.
  - intros userID. unfold runUserDelete, DeleteUser.
    cbn [cli_auth New users]. by rewrite lookup_empty.
  - unfold runUserList, ListUsers. cbn [cli_auth New users].
    by rewrite map_to_list_empty.
  - intros refreshToken w. unfold runTokenRefresh. rewrite bind_eq.
    destruct (RefreshToken _ _ w).1 as [tokens|e] eqn:E.
    + exfalso. rewrite RefreshToken_eq in E.
      destruct (segments refreshToken) as [raw|header payload sig];
        [done|].
      destruct (jwt.get_registered payload) as [claims|]; [|done].
      destruct (signed_with _ _ _ && in_window _ _); [|done].
      cbn [cli_auth New users] in E. by rewrite lookup_empty in E.
    + destruct (RefreshToken_errors _ _ _ _ E) as [-> | ->];
        [by left|by right].
Qed.

(** X22. User register of the command line refuses a password of more
    than 72 bytes, with bcrypt's error, and succeeds for every other: the
    directory being new, no email is ever taken.  It prints the id drawn
    from the random source, the email and the name as given, and the role
    as given or "user" when none is. *)
Theorem runUserRegister_outcome secretKey userEmail userPassword userName
    userRole w :
  runUserRegister secretKey userEmail userPassword userName userRole w
  = if 72 <? Z.of_nat (String.length userPassword)
    then (Exit1 (BcryptError bcrypt.ErrPasswordTooLong), w)
    else (Output
            (PRegistered (entropy w (1 + draws w)%nat) userEmail userName
               (if bool_decide (userRole = "") then "user" else userRole)),
          after 2 2 w).
Proof.
  unfold runUserRegister. rewrite bind_eq.
  destruct (Z.ltb_spec 72 (Z.of_nat (String.length userPassword)))
    as [Hlong|Hshort].
  - unfold RegisterUser. rewrite cli_find_email, bind_eq.
    unfold HashPassword. rewrite bind_eq.
    unfold bcrypt.GenerateFromPassword.
    cbn [RegisterRequest.Password].
    by rewrite (proj2 (Z.ltb_lt _ _) Hlong).
  - rewrite RegisterUser_fresh; [done| |done|done].
    intros k u. cbn [cli_auth New users]. by rewrite lookup_empty.
Qed.

Lemma foldl_claims_lookup (customClaims : list string)
    (claims : gmap string Any) key :
  foldl (fun claims claim => <[claim := VString "custom-value"]> claims)
    claims customClaims !! key
  = if bool_decide (key ∈ customClaims) then Some (VString "custom-value")
    else claims !! key.
Proof.
  revert claims. induction customClaims as [|claim l IH]; intros claims.
  - by rewrite bool_decide_eq_false_2 by apply not_elem_of_nil.
  - cbn [foldl]. rewrite IH. destruct (decide (key ∈ l)) as [Hin|Hout].
    + rewrite !bool_decide_eq_true_2; [done| |done].
      by apply list_elem_of_further.
    + rewrite (bool_decide_eq_false_2 _ Hout).
      destruct (decide (key = claim)) as [->|N].
      * rewrite lookup_insert_eq.
        by rewrite bool_decide_eq_true_2 by apply list_elem_of_here.
      * rewrite lookup_insert_ne by done.
        rewrite bool_decide_eq_false_2; [done|].
        rewrite elem_of_cons. by intros [?|?].
Qed.

Lemma cli_claims_lookup customClaims key :
  cli_claims customClaims !! key
  = if bool_decide (key ∈ customClaims) then Some (VString "custom-value")
    else None.
Proof. unfold cli_claims. by rewrite foldl_claims_lookup, lookup_empty. Qed.

Lemma custom_token_validates a a' userID customClaims expiry w w' :
  Config.JWTSecret (config a') = Config.JWTSecret (config a) ->
  (forall key value,
     customClaims !! key = Some value ->
     key ∈ ["user_id"; "email"; "role"] /\ exists s, value = VString s) ->
  clock w (2 + reads w) <= now w' ->
  now w' + time.Second <= clock w (1 + reads w) + expiry ->
  exists claims,
    ValidateToken a'
      (token_of (GenerateCustomToken a userID customClaims expiry w).1) w'
    = (Ok claims, after 1 0 w')
    /\ Claims.UserID claims = string_claim customClaims "user_id" userID
    /\ Claims.Email claims = string_claim customClaims "email" ""
    /\ Claims.Role claims = string_claim customClaims "role" "".
Proof.
  intros Hs Hc Hnbf Hexp.
  rewrite GenerateCustomToken_eq. cbn [fst token_of]. rewrite <- Hs.
  rewrite (ValidateToken_in_window a' _ _ _ w' hs256_alg
             (custom_payload_decodes userID _ expiry w Hc)).
  - eexists. split; [reflexivity|]. by repeat split.
  - cbn [Claims.RegisteredClaims]. apply andb_true_iff.
    unfold jwt.verifyExpiresAt, jwt.verifyNotBefore, time.Before,
      jwt.Time_of, time.Add.
    cbn [jwt.GetExpirationTime jwt.GetNotBefore
         jwt.RegisteredClaims_Claims jwt.ExpiresAt jwt.NotBefore].
    pose proof (second_floor (clock w (1 + reads w) + expiry)).
    pose proof (second_floor (clock w (2 + reads w))).
    split; [apply Z.ltb_lt|apply negb_true_iff, Z.ltb_ge]; lia.
Qed.

(** X23. Token generate of the command line leaves with an error for a
    lifetime [time.ParseDuration] cannot read.  Otherwise it prints a
    token in whose claims every string given with the claims flag is a
    key of its own, with the fixed value "custom-value".  When these
    strings are among user_id, email and role, and the user id is valid
    UTF-8, token validate with the same secret accepts the token from the
    second of issuance up to one second before issuance plus the lifetime,
    and prints "custom-value" for each member so named: a claim named
    user_id replaces the user id the token was asked for. *)
Theorem cli_token_claims secretKey tokenUserID tokenExpiry customClaims w :
  match ParseDuration tokenExpiry with
  | None =>
      runTokenGenerate secretKey tokenUserID tokenExpiry customClaims w
      = (ExitBadDuration tokenExpiry, w)
  | Some duration =>
      exists token,
        runTokenGenerate secretKey tokenUserID tokenExpiry customClaims w
        = (Output
             (PToken token tokenUserID tokenExpiry
                (cli_claims customClaims)),
           after 3 1 w)
        /\ (forall key,
              cli_claims customClaims !! key
              = if bool_decide (key ∈ customClaims)
                then Some (VString "custom-value") else None)
        /\ (forall raw w',
              segments raw = token ->
              utf8.ValidString tokenUserID = true ->
              (forall key,
                 key ∈ customClaims ->
                 key ∈ ["user_id"; "email"; "role"]) ->
              clock w (2 + reads w) <= now w' ->
              now w' + time.Second <= clock w (1 + reads w) + duration ->
              exists claims,
                runTokenValidate secretKey raw w'
                = (Output (PClaims claims), after 1 0 w')
                /\ Claims.UserID claims
                   = (if bool_decide ("user_id" ∈ customClaims)
                      then "custom-value" else tokenUserID)
                /\ Claims.Email claims
                   = (if bool_decide ("email" ∈ customClaims)
                      then "custom-value" else "")
                /\ Claims.Role claims
                   = (if bool_decide ("role" ∈ customClaims)
                      then "custom-value" else ""))
  end.
Proof.
  unfold runTokenGenerate.
  destruct (ParseDuration tokenExpiry) as [duration|]; [|done].
  rewrite bind_eq, GenerateCustomToken_eq. cbn [fst snd].
  eexists. split; [reflexivity|]. split; [apply cli_claims_lookup|].
  intros raw w' Hraw _ Hkeys Hnbf Hexp.
  assert (Hc : forall key value,
    cli_claims customClaims !! key = Some value ->
    key ∈ ["user_id"; "email"; "role"] /\ exists s, value = VString s).
  { intros key value. rewrite cli_claims_lookup.
    case_bool_decide as Hin; [|done]. intros [= <-]. eauto. }
  destruct (custom_token_validates
              (cli_auth secretKey tokenExpiry "")
              (cli_auth secretKey "24h" "")
              tokenUserID (cli_claims customClaims) duration w w'
              eq_refl Hc Hnbf Hexp)
    as (claims & Hv & Hid & Hemail & Hrole).
  rewrite GenerateCustomToken_eq in Hv. cbn [fst token_of] in Hv.
  exists claims. unfold runTokenValidate. rewrite bind_eq, Hraw, Hv.
  split; [reflexivity|].
  rewrite Hid, Hemail, Hrole. unfold string_claim.
  rewrite !cli_claims_lookup. by repeat case_bool_decide.
Qed.

(** *** Checking a password *)


End AuthKit.

(** ** The properties on the sample instances *)

Lemma unique_emails_singleton k user : unique_emails {[ k := user ]}.
Proof.
  intros k1 k2 u1 u2 H1 H2 _.
  apply lookup_singleton_Some in H1 as [<- _].
  by apply lookup_singleton_Some in H2 as [<- _].
Qed.

(** float64 holds 2^53 + 1 as 2^53, and no integer from 2^1024 on. *)
Lemma float64_round_sample :
  float64.round 9007199254740993 = 9007199254740992
  /\ float64.round (- 9007199254740993) = - 9007199254740992
  /\ float64.round 9007199254740992 = 9007199254740992
  /\ float64.finite (2 ^ 1024 - 1) = false.
Proof. by vm_compute. Qed.

(** The seconds of a duration are a float64: a lifetime one nanosecond
    short of 16779601s has 16779601 of them, one second short of a minute
    has 59. *)
Lemma Seconds_sample :
  time.Seconds 16779600999999999 = 16779601
  /\ time.Seconds (time.Minute - time.Second) = 59
  /\ time.Seconds (time.Hour - 1) = 3599
  /\ time.Seconds (- (time.Second + 999999999)) = -1.
Proof. by vm_compute. Qed.

(** Valid and invalid UTF-8, and names up to the case of letters. *)
Lemma ValidString_sample :
  utf8.ValidString "alice@example.com" = true
  /\ utf8.ValidString (String (ascii_of_N 255) "") = false
  /\ utf8.ValidString (String (ascii_of_N 195) (String (ascii_of_N 169) ""))
     = true
  /\ utf8.ValidString (String (ascii_of_N 237) (String (ascii_of_N 160)
                         (String (ascii_of_N 128) ""))) = false
  /\ strings.EqualFold "Role" "role" = true
  /\ strings.EqualFold "scope" "role" = false.
Proof. by vm_compute. Qed.

(** C1: an access token for alice, presented two hours after it was
    issued with a lifetime of one hour.  The jwt parser reports the
    expiry; ValidateToken answers ErrInvalidToken. *)
Lemma expired_token_is_invalid_sample :
  exists accessToken,
    (GenerateAccessToken sample_ParseDuration sample_kit alice
       sample_world).1 = Ok accessToken
    /\ (jwt.ParseWithClaims (C := Claims) accessToken (keyFunc sample_kit)
          (later (2 * time.Hour) (after 3 1 sample_world))).1
       = Err (jwt.ErrTokenInvalidClaims true false)
    /\ (ValidateToken sample_kit accessToken
          (later (2 * time.Hour) (after 3 1 sample_world))).1
       = Err ErrInvalidToken.
Proof.
  eexists. split; [vm_compute; reflexivity|].
  split; [vm_compute; reflexivity|].
  apply (ValidateToken_expired_is_invalid sample_kit _ _) with false.
  vm_compute. reflexivity.
Defined.

(** C2: the refresh token issued for alice is not refused by
    ValidateToken, and her access token is not refused by RefreshToken. *)
Lemma refresh_token_validates_sample :
  exists refreshToken accessToken,
    (GenerateRefreshToken sample_ParseDuration sample_kit alice
       sample_world).1 = Ok refreshToken
    /\ (GenerateAccessToken sample_ParseDuration sample_kit alice
          sample_world).1 = Ok accessToken
    /\ (ValidateToken sample_kit refreshToken (after 3 1 sample_world)).1
       <> Err ErrInvalidToken
    /\ (RefreshToken sample_ParseDuration sample_kit accessToken
          (after 3 1 sample_world)).1
       <> Err ErrInvalidToken.
Proof.
  eexists _, _. split; [vm_compute; reflexivity|].
  split; [vm_compute; reflexivity|].
  split; vm_compute; discriminate.
Qed.

Lemma token_classes_not_separated_sample :
  exists refreshToken accessToken claims response,
    (GenerateRefreshToken sample_ParseDuration sample_kit alice
       sample_world).1 = Ok refreshToken
    /\ (GenerateAccessToken sample_ParseDuration sample_kit alice
          sample_world).1 = Ok accessToken
    /\ (ValidateToken sample_kit refreshToken (after 3 1 sample_world)).1
       = Ok claims
    /\ jwt.Issuer (Claims.RegisteredClaims claims) = "authkit-refresh"
    /\ (RefreshToken sample_ParseDuration sample_kit accessToken
          (after 3 1 sample_world)).1
       = Ok response
    /\ TokenResponse.User response
       = userToUserInfo alice.
Proof.
  destruct (token_classes_not_separated sample_ParseDuration sample_kit
              alice alice sample_world sample_world
              (after 3 1 sample_world) _ _
              (f_equal fst (GenerateRefreshToken_eq _ _ _ _))
              (f_equal fst (GenerateAccessToken_eq _ _ _ _)))
    as (_ & (claims & Hv & _ & Hiss & _) & (response & Hr & Hu));
    [vm_compute; reflexivity..|].
  eexists _, _, claims, response.
  split; [apply (f_equal fst (GenerateRefreshToken_eq _ _ _ _))|].
  split; [apply (f_equal fst (GenerateAccessToken_eq _ _ _ _))|].
  split; [exact Hv|]. split; [exact Hiss|]. split; [exact Hr|exact Hu].
Defined.


(** C4: the costs 3 and -1 are outside the range 4..31 and are not the
    default-cost request 0, yet hashing succeeds, at cost 10. *)
Lemma low_cost_not_refused_sample :
  (HashPasswordStatic sample_bcrypt "pw12345678" 3 sample_world).1
  = Ok "$2a$10$entropy-00001000000000pw12345678"
  /\ (HashPasswordStatic sample_bcrypt "pw12345678" (-1) sample_world).1
     = Ok "$2a$10$entropy-00001000000000pw12345678".
Proof. split; vm_compute; reflexivity. Qed.

Lemma hashing_cost_sample :
  (HashPasswordStatic sample_bcrypt "pw12345678" 32 sample_world).1
  = Err (BcryptError (bcrypt.InvalidCostError 32))
  /\ (HashPasswordStatic sample_bcrypt "pw12345678" 0 sample_world).1
     = Ok "$2a$12$entropy-00001000000000pw12345678".
Proof.
  split.
  - apply (hashing_cost sample_bcrypt "pw12345678" 32 sample_world).
    vm_compute. discriminate.
  - apply (hashing_cost sample_bcrypt "pw12345678" 0 sample_world).
    vm_compute. discriminate.
Defined.

(** C5: alice is deleted after her refresh token was issued. *)
Lemma RefreshToken_deleted_user_sample :
  exists refreshToken,
    (GenerateRefreshToken sample_ParseDuration sample_kit alice
       sample_world).1 = Ok refreshToken
    /\ (DeleteUser sample_kit "u-alice").1 = None
    /\ in_window refreshToken
         (now (later time.Hour (after 3 1 sample_world))) = true
    /\ (RefreshToken sample_ParseDuration
          (DeleteUser sample_kit "u-alice").2 refreshToken
          (later time.Hour (after 3 1 sample_world))).1
       = Err ErrUserNotFound.
Proof.
  eexists. split; [apply (f_equal fst (GenerateRefreshToken_eq _ _ _ _))|].
  split; [vm_compute; reflexivity|].
  split; [vm_compute; reflexivity|].
  apply (RefreshToken_deleted_user sample_ParseDuration sample_kit
           (DeleteUser sample_kit "u-alice").2 alice sample_world).
  - apply (f_equal fst (GenerateRefreshToken_eq _ _ _ _)).
  - reflexivity.
  - vm_compute. reflexivity.
  - vm_compute. reflexivity.
Defined.

(** C6: a second registration under alice's email. *)
Lemma RegisterUser_duplicate_email_sample :
  RegisterUser sample_bcrypt sample_kit
    {| RegisterRequest.Email := "alice@example.com";
       RegisterRequest.Password := "another-password";
       RegisterRequest.Name := "Alice Again";
       RegisterRequest.Role := "";
       RegisterRequest.Metadata := ∅ |} sample_world
  = (Err ErrUserAlreadyExists, sample_kit, sample_world).
Proof.
  apply (RegisterUser_duplicate_email sample_bcrypt sample_kit _
           sample_world "u-alice" alice); reflexivity.
Defined.

(** C7: an update of alice's name that also names her email and an
    unknown key. *)
Lemma UpdateUser_frame_sample :
  exists user,
    (UpdateUser sample_kit "u-alice"
       {[ "name" := VString "Alicia";
          "email" := VString "mallory@example.com";
          "colour" := VString "green" ]} sample_world).1.1
    = Ok (userToUserInfo user)
    /\ User.Name user = "Alicia"
    /\ User.Email user = "alice@example.com"
    /\ User.Password user = User.Password alice
    /\ User.UpdatedAt user = now sample_world.
Proof.
  destruct (UpdateUser_frame sample_kit "u-alice" alice
              {[ "name" := VString "Alicia";
                 "email" := VString "mallory@example.com";
                 "colour" := VString "green" ]} sample_world eq_refl)
    as (user & Hr & (_ & He & Hp & _ & _ & Ht) & _).
  exists user. rewrite Hr. cbn [fst].
  split; [reflexivity|]. split; [|by repeat split].
  apply (f_equal (fun r => match r.1.1 with
                           | Ok info => UserInfo.Name info
                           | Err _ => ""
                           end)) in Hr.
  vm_compute in Hr. symmetry. exact Hr.
Defined.

(** C8: a caller's role that is not a string wins the merge, and the
    token is then refused by ValidateToken. *)
Lemma custom_role_not_returned_sample :
  exists header payload sig,
    (GenerateCustomToken sample_kit "u-alice" {[ "role" := VInt 5 ]}
       time.Hour sample_world).1
    = Ok (jwt.Compact header payload sig)
    /\ payload !! "role" = Some (JNum 5)
    /\ (ValidateToken sample_kit (jwt.Compact header payload sig)
          (after 3 1 sample_world)).1
       = Err ErrInvalidToken.
Proof.
  eexists _, _, _. split; [vm_compute; reflexivity|].
  split; vm_compute; reflexivity.
Qed.

(** C8: the round trip of the specification, role "admin" for one hour,
    in the map of the package's own example: a role, permissions and a
    scope, which is no field of the claims. *)
Lemma custom_claims_merged_sample :
  exists tokenString claims,
    (GenerateCustomToken sample_kit "u-alice"
       {[ "role" := VString "admin";
          "permissions" := VStrings ["read"; "write"; "delete"];
          "scope" := VString "api:full" ]} time.Hour sample_world).1
    = Ok tokenString
    /\ (ValidateToken sample_kit tokenString (after 3 1 sample_world)).1
       = Ok claims
    /\ Claims.Role claims = "admin"
    /\ Claims.Permissions claims = ["read"; "write"; "delete"].
Proof.
  destruct (custom_claims_merged sample_kit "u-alice"
              {[ "role" := VString "admin";
                 "permissions" := VStrings ["read"; "write"; "delete"];
                 "scope" := VString "api:full" ]} time.Hour sample_world)
    as (header & payload & sig & Hg & _ & _ & Hv).
  destruct (Hv (after 3 1 sample_world))
    as (claims & Hc & Hrole & _ & _ & Hperm).
  - reflexivity.
  - intros key value H.
    apply lookup_insert_Some in H as [[<- <-]|[_ H]].
    { left. split; [by apply (bool_decide_unpack _)|].
      exists "admin". by split. }
    apply lookup_insert_Some in H as [[<- <-]|[_ H]].
    { right. left. split; [done|].
      exists ["read"; "write"; "delete"]. split; [by left|done]. }
    apply lookup_singleton_Some in H as [<- <-].
    right. right. intros name Hname.
    unfold claims_names, registered_names in Hname. cbn [app] in Hname.
    repeat (apply elem_of_cons in Hname as [->|Hname]; [reflexivity|]).
    by apply elem_of_nil in Hname.
  - vm_compute. discriminate.
  - vm_compute. discriminate.
  - exists (jwt.Compact header payload sig), claims.
    split; [exact Hg|]. split; [exact Hc|]. split; [exact Hrole|].
    rewrite Hperm. reflexivity.
Defined.

(** C9: the token lifetime is configured as "1d"; alice logs in, and
    then refreshes with the refresh token she was given. *)
Lemma unparsable_expiry_sample :
  sample_ParseDuration "1d" = None
  /\ (exists response,
        (LoginUser sample_ParseDuration sample_bcrypt sample_newFromHash
           sample_kit_days "alice@example.com" "pw12345678" sample_world).1
        = Ok response
        /\ TokenResponse.ExpiresIn response = 0
        /\ claim_time (TokenResponse.AccessToken response) "exp"
           = Some (time.FromUnix (1700000000 + 86400)))
  /\ (exists refreshToken response,
        (GenerateRefreshToken sample_ParseDuration sample_kit_days alice
           (after 3 1 sample_world)).1 = Ok refreshToken
        /\ (RefreshToken sample_ParseDuration sample_kit_days refreshToken
              (after 6 2 sample_world)).1 = Ok response
        /\ TokenResponse.ExpiresIn response = 0
        /\ claim_time (TokenResponse.AccessToken response) "exp"
           = Some (time.FromUnix (1700000000 + 86400))).
Proof.
  destruct (unparsable_expiry_reported_as_zero sample_ParseDuration
              sample_bcrypt sample_newFromHash sample_kit_days eq_refl)
    as [Hlogin Hrefresh].
  split; [reflexivity|]. split.
  - destruct (Hlogin "u-alice" alice "pw12345678" sample_world
                (unique_emails_singleton _ _) eq_refl eq_refl)
      as (response & header & payload & sig & Hl & Hz & Ha & _ & He).
    exists response. split; [exact Hl|]. split; [exact Hz|].
    rewrite Ha. unfold claim_time. rewrite He. reflexivity.
  - destruct (Hrefresh alice alice (after 3 1 sample_world)
                (after 6 2 sample_world) _
                (f_equal fst (GenerateRefreshToken_eq _ _ _ _)) eq_refl)
      as (response & header & payload & sig & Hr & Hz & Ha & _ & He);
      [vm_compute; reflexivity|].
    eexists _, response.
    split; [apply (f_equal fst (GenerateRefreshToken_eq _ _ _ _))|].
    split; [exact Hr|]. split; [exact Hz|].
    rewrite Ha. unfold claim_time. rewrite He. reflexivity.
Defined.

(** C10: permissions given the way a JSON decoder gives them. *)
Lemma UpdateUser_permissions_sample :
  exists user,
    users (UpdateUser sample_kit "u-alice"
             {[ "permissions" := VSlice [VString "read"; VString "write"] ]}
             sample_world).1.2 !! "u-alice" = Some user
    /\ User.Permissions user = [].
Proof.
  destruct (UpdateUser_permissions sample_kit "u-alice" alice
              {[ "permissions" := VSlice [VString "read"; VString "write"] ]}
              sample_world eq_refl)
    as (info & user & _ & Hu & _ & Hp & _).
  exists user. split; [exact Hu|exact Hp].
Defined.



(** X2: carol's access token, presented within its hour: her string
    comes back, her number as the float nearest to it. *)
Lemma access_token_round_trip_sample :
  exists accessToken claims,
    (GenerateAccessToken sample_ParseDuration sample_kit carol
       sample_world).1 = Ok accessToken
    /\ (ValidateToken sample_kit accessToken
          (later (30 * time.Minute) (after 3 1 sample_world))).1
       = Ok claims
    /\ Claims.Email claims = "carol@example.com"
    /\ Claims.Permissions claims = ["posts:write"]
    /\ Claims.Metadata claims !! "team" = Some (VString "core")
    /\ Claims.Metadata claims !! "visits" = Some (VInt 9007199254740992).
Proof.
  destruct (access_token_round_trip sample_ParseDuration sample_kit carol
              sample_world)
    as (accessToken & claims & Hg & (_ & He & _ & Hp & _) & Hs & _ & Hz & _
        & _ & Hv);
    [reflexivity..| |].
  { intros key value H. unfold carol in H. cbn [User.Metadata] in H.
    apply lookup_insert_Some in H as [[<- _]|[_ H]]; [reflexivity|].
    by apply lookup_singleton_Some in H as [<- _]. }
  exists accessToken, claims. split; [exact Hg|]. split.
  { rewrite (Hv sample_kit _ eq_refl).
    replace (in_window accessToken _) with true; [reflexivity|].
    rewrite GenerateAccessToken_eq in Hg. injection Hg as <-.
    vm_compute. reflexivity. }
  split; [exact He|]. split; [exact Hp|].
  split; [by apply Hs|]. by rewrite (Hz "visits" 9007199254740993).
Defined.


(** X5: alice logs in, is promoted to admin, and refreshes with the
    refresh token of the login: the answer shows her as admin. *)
Lemma refresh_after_login_sample :
  exists login response,
    (LoginUser sample_ParseDuration sample_bcrypt sample_newFromHash
       sample_kit "alice@example.com" "pw12345678" sample_world).1
    = Ok login
    /\ (RefreshToken sample_ParseDuration
          (UpdateUser sample_kit "u-alice" {[ "role" := VString "admin" ]}
             (after 6 2 sample_world)).1.2
          (TokenResponse.RefreshToken login) (after 7 2 sample_world)).1
       = Ok response
    /\ UserInfo.Role (TokenResponse.User response) = "admin".
Proof.
  destruct (LoginUser sample_ParseDuration sample_bcrypt sample_newFromHash
              sample_kit "alice@example.com" "pw12345678" sample_world).1
    as [login|e] eqn:Hl; [|vm_compute in Hl; discriminate].
  pose proof Hl as Hl'. vm_compute in Hl'. injection Hl' as <-.
  destruct (users (UpdateUser sample_kit "u-alice"
                     {[ "role" := VString "admin" ]}
                     (after 6 2 sample_world)).1.2 !! "u-alice")
    as [current|] eqn:Hu; [|vm_compute in Hu; discriminate].
  pose proof Hu as Hu'. vm_compute in Hu'. injection Hu' as <-.
  destruct (refresh_after_login sample_ParseDuration sample_bcrypt
              sample_newFromHash sample_kit
              (UpdateUser sample_kit "u-alice"
                 {[ "role" := VString "admin" ]}
                 (after 6 2 sample_world)).1.2
              "alice@example.com" "pw12345678" sample_world _ _
              (after 7 2 sample_world) Hl eq_refl Hu)
    as (response & claims & Hr & Hview & _);
    [vm_compute; reflexivity..|].
  eexists _, response. split; [reflexivity|]. split; [exact Hr|].
  rewrite Hview. reflexivity.
Defined.

(** X6: bob registers with the sample directory. *)
Lemma RegisterUser_succeeds_sample :
  exists user,
    RegisterUser sample_bcrypt sample_kit bob sample_world
    = (Ok (userToUserInfo user),
       mkAuthKit sample_config
         (<[User.ID user := user]> {[ "u-alice" := alice ]}),
       after 2 2 sample_world)
    /\ User.ID user = "entropy-00001000000001"
    /\ User.Role user = "user"
    /\ User.Password user = "$2a$04$entropy-00001000000000correct-horse".
Proof.
  destruct (RegisterUser_succeeds sample_bcrypt sample_kit bob sample_world)
    as (user & Hr & Hid & _ & _ & _ & Hrole & _ & _ & Hp & _).
  - intros k u H. unfold sample_kit in H. cbn [users] in H.
    apply lookup_singleton_Some in H as [_ <-].
    vm_compute. discriminate.
  - vm_compute. discriminate.
  - vm_compute. discriminate.
  - exists user. split; [exact Hr|].
    split; [rewrite Hid; vm_compute; reflexivity|].
    split; [rewrite Hrole; vm_compute; reflexivity|].
    rewrite Hp. vm_compute. reflexivity.
Defined.

(** X7: bob registers, and then logs in with the password he gave. *)
Lemma login_after_register_sample :
  exists info login,
    (RegisterUser sample_bcrypt sample_kit bob sample_world).1.1 = Ok info
    /\ (LoginUser sample_ParseDuration sample_bcrypt sample_newFromHash
          (RegisterUser sample_bcrypt sample_kit bob sample_world).1.2
          "bob@example.com" "correct-horse" (after 2 2 sample_world)).1
       = Ok login
    /\ TokenResponse.User login = info
    /\ TokenResponse.TokenType login = "Bearer".
Proof.
  apply (login_after_register sample_ParseDuration sample_bcrypt
           sample_newFromHash sample_kit bob sample_world
           (after 2 2 sample_world)).
  - apply unique_emails_singleton.
  - intros k u H. unfold sample_kit in H. cbn [users] in H.
    apply lookup_singleton_Some in H as [_ <-].
    vm_compute. discriminate.
  - vm_compute. discriminate.
  - vm_compute. discriminate.
  - vm_compute. reflexivity.
Defined.

(** X10: a registration under alice's email, before and after alice is
    deleted. *)
Lemma register_after_delete_sample :
  (RegisterUser sample_bcrypt sample_kit
     {| RegisterRequest.Email := "alice@example.com";
        RegisterRequest.Password := "another-password";
        RegisterRequest.Name := "Alice Again";
        RegisterRequest.Role := "";
        RegisterRequest.Metadata := ∅ |} sample_world).1.1
  = Err ErrUserAlreadyExists
  /\ exists info,
       (RegisterUser sample_bcrypt (DeleteUser sample_kit "u-alice").2
          {| RegisterRequest.Email := "alice@example.com";
             RegisterRequest.Password := "another-password";
             RegisterRequest.Name := "Alice Again";
             RegisterRequest.Role := "";
             RegisterRequest.Metadata := ∅ |} sample_world).1.1
       = Ok info
       /\ UserInfo.Email info = User.Email alice.
Proof.
  apply (register_after_delete sample_bcrypt sample_kit "u-alice" alice).
  - apply unique_emails_singleton.
  - reflexivity.
  - reflexivity.
  - vm_compute. discriminate.
  - vm_compute. discriminate.
Defined.

(** X16: alice's access token, presented after alice was deleted. *)
Lemma profile_of_deleted_user_sample :
  exists claims,
    Claims.UserID claims = "u-alice"
    /\ (GinMiddleware
          (fun _ =>
             token_of
               (GenerateAccessToken sample_ParseDuration sample_kit alice
                  sample_world).1)
          sample_kit "Bearer alice-token" ∅ (after 3 1 sample_world)).1
       = Next (set_user claims ∅)
    /\ (GinMiddleware
          (fun _ =>
             token_of
               (GenerateAccessToken sample_ParseDuration sample_kit alice
                  sample_world).1)
          (DeleteUser sample_kit "u-alice").2 "Bearer alice-token" ∅
          (after 3 1 sample_world)).1
       = Next (set_user claims ∅)
    /\ ProfileHandler sample_kit (set_user claims ∅)
       = mkResponse http.StatusOK (BUser (userToUserInfo alice))
    /\ ProfileHandler (DeleteUser sample_kit "u-alice").2
         (set_user claims ∅)
       = mkResponse http.StatusNotFound (BError "User not found").
Proof.
  apply (profile_of_deleted_user sample_ParseDuration
           (fun _ =>
              token_of
                (GenerateAccessToken sample_ParseDuration sample_kit alice
                   sample_world).1)
           sample_kit "u-alice" alice "alice-token" ∅ sample_world
           (after 3 1 sample_world)).
  - reflexivity.
  - reflexivity.
  - reflexivity.
  - vm_compute. reflexivity.
Defined.

(** X17: alice asks for the role admin, a permission and another email
    through the profile endpoint, and gives a number that no float64
    holds. *)
Lemma UpdateProfileHandler_effect_sample :
  exists user',
    (UpdateProfileHandler sample_kit alice_context
       (Some {[ "role" := JStr "admin";
                "permissions" := JArr [JStr "users:delete"];
                "email" := JStr "mallory@example.com";
                "metadata" := JObj {[ "visits" := JNum 9007199254740993 ]} ]})
       sample_world).1.1
    = mkResponse http.StatusOK
        (BUserMessage "Profile updated successfully" (userToUserInfo user'))
    /\ User.Role user' = "admin"
    /\ User.Permissions user' = []
    /\ User.Email user' = "alice@example.com"
    /\ User.Metadata user' !! "visits" = Some (VInt 9007199254740992).
Proof.
  assert (Hd : decodable
                 (JObj {[ "role" := JStr "admin";
                          "permissions" := JArr [JStr "users:delete"];
                          "email" := JStr "mallory@example.com";
                          "metadata" :=
                            JObj {[ "visits" := JNum 9007199254740993 ]} ]})
               = true) by (vm_compute; reflexivity).
  pose proof (UpdateProfileHandler_effect sample_kit alice_context _ _
                sample_world eq_refl Hd) as H.
  change (users sample_kit !! _) with (Some alice) in H.
  destruct H
    as (user' & Hr & (_ & He & _) & _ & Hp & _ & Hrole & Hmeta & _).
  exists user'. rewrite Hr. split; [reflexivity|].
  split; [rewrite Hrole; vm_compute; reflexivity|].
  split; [rewrite Hp; reflexivity|].
  split; [rewrite He; reflexivity|].
  rewrite Hmeta. vm_compute. reflexivity.
Defined.

